(** * gaers.bio: the in-browser search / filter / sort / paginate / export
    engine and the offline record converters, embedded in Rocq.

    Sources embedded here:
    - [assets/js/utils.js]       : [exportToCSV], [TableSorter], [Paginator]
    - [assets/js/gene-search.js] : [GeneSearchEngine.applyFilters]
    - the publications engine    : [PublicationsEngine.applyFilters],
                                  [PublicationsEngine.exportToCSV]
    - [scripts/convert-rnaseq-data.js] and the spatial converter
      ([convertFile]) : construction of one record per CSV row.

    JavaScript numbers are IEEE-754 binary64 values; they are embedded as
    Rocq's primitive floats, whose comparisons are the IEEE ones ([NaN]
    compares false with everything).  Page numbers and page counts are
    integers; they are kept in [Z] with [NaN] and [Infinity] written out. *)

From Stdlib Require Import ZArith List String Ascii Bool Lia.
From Stdlib Require Import Floats.
From stdpp Require Import base list strings.
Import ListNotations.

Set Warnings "-inexact-float".
Local Open Scope Z_scope.

(* ===================================================================== *)
(** * Part I: the embedding                                               *)
(* ===================================================================== *)

(** ** JavaScript values and the built-ins the sources call *)
Module Js.

(** A numeric property as it is found in a loaded JSON document: absent
    ([undefined]), [null], or a number. *)
Inductive numfield : Type :=
| NUndefined
| NNull
| NNum (f : float).

(** [ToNumber] as applied by the relational operators. *)
Definition toNumber (v : numfield) : float :=
  match v with
  | NUndefined => nan
  | NNull => 0%float
  | NNum f => f
  end.

(** [a <= b], [a >= b], [a < b], [a > b] on numbers. *)
Definition le (a b : float) : bool := PrimFloat.leb a b.
Definition ge (a b : float) : bool := PrimFloat.leb b a.
Definition lt (a b : float) : bool := PrimFloat.ltb a b.
Definition gt (a b : float) : bool := PrimFloat.ltb b a.

(** [v !== null && v !== undefined]. *)
Definition isPresent (v : numfield) : bool :=
  match v with
  | NNum _ => true
  | _ => false
  end.

(** A generic property value of a row object. *)
Inductive value : Type :=
| VUndefined
| VNull
| VBool (b : bool)
| VNum (f : float)
| VStr (s : string)
| VObject.

(** [v === null || v === undefined]. *)
Definition isNullish (v : value) : bool :=
  match v with
  | VUndefined | VNull => true
  | _ => false
  end.

(** [typeof v === 'number']. *)
Definition isNumber (v : value) : bool :=
  match v with
  | VNum _ => true
  | _ => false
  end.

(** A row object handed to the generic helpers: its own properties in
    insertion order. *)
Definition object : Type := list (string * value).

(** [row[key]]: the property, or [undefined] when the object has none. *)
Fixpoint get (row : object) (key : string) : value :=
  match row with
  | [] => VUndefined
  | (k, v) :: rest => if String.eqb k key then v else get rest key
  end.

(** [Object.keys(row)]. *)
Definition keys (row : object) : list string := List.map fst row.

(** Truthiness of a string: non-empty. *)
Definition truthy (s : string) : bool :=
  match s with
  | EmptyString => false
  | String _ _ => true
  end.

(** [s.includes(sub)]: [sub] occurs in [s] at some position. *)
Fixpoint includes (s sub : string) : bool :=
  String.prefix sub s ||
  match s with
  | EmptyString => false
  | String _ s' => includes s' sub
  end.

(** [a || b] on strings. *)
Definition orElse (a b : string) : string := if truthy a then a else b.

(** The one-character strings the exporter tests for. *)
Definition comma : ascii := ","%char.
Definition dquote : ascii := "034"%char.
Definition newline : ascii := "010"%char.
Definition creturn : ascii := "013"%char.
Definition str (c : ascii) : string := String c EmptyString.

(** [arr.join(sep)]. *)
Definition join (sep : string) (parts : list string) : string :=
  String.concat sep parts.

(** [arr.some(p)]. *)
Definition some {A : Type} (p : A -> bool) (arr : list A) : bool :=
  List.existsb p arr.

(** Built-ins whose result depends on the host (Unicode tables, the
    locale, number formatting).  They are taken as an interface. *)
Class Host : Type := {
  toLowerCase : string -> string;
  localeCompare : string -> string -> float;
  numberToString : float -> string;
  parseFloatString : string -> float
}.

(** [String(v)] for a value that is neither [null] nor [undefined] (for
    those it gives the words null and undefined). *)
Definition toString `{Host} (v : value) : string :=
  match v with
  | VUndefined => "undefined"
  | VNull => "null"
  | VBool true => "true"
  | VBool false => "false"
  | VNum f => numberToString f
  | VStr s => s
  | VObject => "[object Object]"
  end.

(** [parseFloat(v)]: the argument is converted to a string and parsed; a
    number prints to its shortest round-tripping form, so it parses back
    to itself. *)
Definition parseFloat `{Host} (v : value) : float :=
  match v with
  | VNum f => f
  | VStr s => parseFloatString s
  | _ => nan
  end.

(** A host for running the definitions on ASCII examples: letters A-Z are
    lowered, strings compare by character code, and numbers are neither
    printed nor parsed (the examples keep numbers out of text position). *)
Definition asciiLower (c : ascii) : ascii :=
  let n := Ascii.nat_of_ascii c in
  if (Nat.leb 65 n && Nat.leb n 90)%bool then Ascii.ascii_of_nat (n + 32) else c.

Fixpoint mapString (f : ascii -> ascii) (s : string) : string :=
  match s with
  | EmptyString => EmptyString
  | String c rest => String (f c) (mapString f rest)
  end.

Definition codeCompare (a b : string) : float :=
  match String.compare a b with
  | Lt => (-1)%float
  | Eq => 0%float
  | Gt => 1%float
  end.

Definition asciiHost : Host :=
  {| toLowerCase := mapString asciiLower;
     localeCompare := codeCompare;
     numberToString := fun _ => "NaN";
     parseFloatString := fun _ => nan |}.

End Js.

(** ** [scripts/convert-rnaseq-data.js]: the csv ['data'] handler *)
Module RnaseqConvert.

(** One parsed CSV row.  The numeric columns are held as the numbers that
    [parseFloat] returned for them ([NaN] for an unparsable cell). *)
Record row : Type := mkRow {
  gene_id : string;
  gene_symbol : string;
  gene_label : string;
  baseMean_col : float;
  log2FoldChange : float;
  lfcSE_col : float;
  stat_col : float;
  pvalue_col : float;
  padj_col : float
}.

Record gene : Type := mkGene {
  id : string;
  symbol : string;
  name : string;
  baseMean : float;
  log2fc : float;
  lfcSE : float;
  stat : float;
  pvalue : float;
  padj : float;
  regulation : string;
  significant : bool
}.

Definition onData (r : row) : gene :=
  let log2fc := log2FoldChange r in
  let padj := padj_col r in
  {| id := gene_id r;
     symbol := Js.orElse (gene_symbol r) (gene_id r);
     name := Js.orElse (gene_label r) (Js.orElse (gene_symbol r) EmptyString);
     baseMean := baseMean_col r;
     log2fc := log2fc;
     lfcSE := lfcSE_col r;
     stat := stat_col r;
     pvalue := pvalue_col r;
     padj := padj;
     regulation := if Js.gt log2fc 0 then "up" else "down";
     significant := Js.lt padj 0.1 && Js.gt (PrimFloat.abs log2fc) 0.5 |}.

(** The same row with its fold-change and adjusted p-value columns set. *)
Definition withStats (r : row) (fc p : float) : row :=
  {| gene_id := gene_id r; gene_symbol := gene_symbol r;
     gene_label := gene_label r; baseMean_col := baseMean_col r;
     log2FoldChange := fc; lfcSE_col := lfcSE_col r; stat_col := stat_col r;
     pvalue_col := pvalue_col r; padj_col := p |}.

Definition sampleRow : row :=
  {| gene_id := "ENSRNOG00000000001"; gene_symbol := "Grin2b";
     gene_label := EmptyString; baseMean_col := 0; log2FoldChange := 0;
     lfcSE_col := 0; stat_col := 0; pvalue_col := 0; padj_col := 0 |}.

Definition tags (rows : list row) : list (bool * string) :=
  List.map (fun g => (significant g, regulation g)) (List.map onData rows).

(** The handler as a whole: the record is pushed and the counters are
    stepped ([stats.total], [stats.upregulated], [stats.downregulated]). *)
Record state : Type := mkState {
  genes : list gene;
  total : nat;
  upregulated : nat;
  downregulated : nat
}.

Definition start : state :=
  {| genes := []; total := 0; upregulated := 0; downregulated := 0 |}.

Definition handleData (st : state) (r : row) : state :=
  let g := onData r in
  {| genes := genes st ++ [g];
     total := S (total st);
     upregulated :=
       if Js.gt (log2fc g) 0 then S (upregulated st) else upregulated st;
     downregulated :=
       if Js.gt (log2fc g) 0 then downregulated st else S (downregulated st) |}.

(** All ['data'] events of a file, in order. *)
Definition stream (rows : list row) : state := fold_left handleData rows start.

(** The tag is the given one. *)
Definition tagged (tag : string) (g : gene) : bool := String.eqb (regulation g) tag.

End RnaseqConvert.

(** ** The spatial converter: [convertFile]'s csv ['data'] handler *)
Module SpatialConvert.

Record row : Type := mkRow {
  EntrezID : string;
  Symbols : string;
  Name : string;
  logFC_col : float;
  AveExpr_col : float;
  t_col : float;
  P_Value_col : float;
  adj_P_Val_col : float;
  B_col : float
}.

Record gene : Type := mkGene {
  entrezId : string;
  symbol : string;
  name : string;
  logFC : float;
  aveExpr : float;
  tStat : float;
  pvalue : float;
  adj_p_val : float;
  b : float;
  regulation : string;
  significant : bool
}.

Definition onData (r : row) : gene :=
  let logFC := logFC_col r in
  let adjPVal := adj_P_Val_col r in
  {| entrezId := EntrezID r;
     symbol := Js.orElse (Symbols r) (EntrezID r);
     name := Js.orElse (Name r) EmptyString;
     logFC := logFC;
     aveExpr := AveExpr_col r;
     tStat := t_col r;
     pvalue := P_Value_col r;
     adj_p_val := adjPVal;
     b := B_col r;
     regulation := if Js.gt logFC 0 then "up" else "down";
     significant := Js.lt adjPVal 0.05 && Js.gt (PrimFloat.abs logFC) 0.5 |}.

Definition withStats (r : row) (fc p : float) : row :=
  {| EntrezID := EntrezID r; Symbols := Symbols r; Name := Name r;
     logFC_col := fc; AveExpr_col := AveExpr_col r; t_col := t_col r;
     P_Value_col := P_Value_col r; adj_P_Val_col := p; B_col := B_col r |}.

Definition sampleRow : row :=
  {| EntrezID := "24245"; Symbols := "Cacna1g"; Name := EmptyString;
     logFC_col := 0; AveExpr_col := 0; t_col := 0; P_Value_col := 0;
     adj_P_Val_col := 0; B_col := 0 |}.

(** What the handler yields for a run of rows: per record the
    significance flag and the regulation tag. *)
Definition tags (rows : list row) : list (bool * string) :=
  List.map (fun g => (significant g, regulation g)) (List.map onData rows).

(** The handler as a whole: the record is pushed and the counters are
    stepped. *)
Record state : Type := mkState {
  genes : list gene;
  total : nat;
  upregulated : nat;
  downregulated : nat
}.

Definition start : state :=
  {| genes := []; total := 0; upregulated := 0; downregulated := 0 |}.

Definition handleData (st : state) (r : row) : state :=
  let g := onData r in
  {| genes := genes st ++ [g];
     total := S (total st);
     upregulated :=
       if Js.gt (logFC g) 0 then S (upregulated st) else upregulated st;
     downregulated :=
       if Js.gt (logFC g) 0 then downregulated st else S (downregulated st) |}.

Definition stream (rows : list row) : state := fold_left handleData rows start.

Definition tagged (tag : string) (g : gene) : bool := String.eqb (regulation g) tag.

End SpatialConvert.

(** The tag rule as the specification words it: the direction tag is the
    sign of the fold-change, up for a positive and down for a negative
    one. *)
Module Regulation.

Definition isSignOf (tag : string) (fc : float) : Prop :=
  (tag = "up" <-> Js.gt fc 0 = true) /\ (tag = "down" <-> Js.lt fc 0 = true).

End Regulation.

(** ** [utils.js]: [class Paginator] *)
Module Paginator.

(** A page size as [parseInt] delivers it: an integer, minus zero (for the
    text -0), or [NaN]. *)
Inductive pageSize : Type :=
| Size (n : Z)
| SizeMinusZero
| SizeNaN.

(** A page count, [Math.ceil(length / itemsPerPage)]: an integer, or
    [Infinity] (a non-empty list over page size 0), or [-Infinity] (a
    non-empty list over page size -0), or [NaN] (0/0, or a [NaN] page
    size). *)
Inductive count : Type :=
| Finite (n : Z)
| Infinite
| MinusInfinite
| NotANumber.

(** A page number: [currentPage] and the argument of [goToPage] are
    numbers, and nothing in the class makes them whole or finite.  They
    are taken here among the whole numbers, the two infinities and [NaN];
    a fractional page number is not represented.  [Page n] stands for the
    whole number [n]; the whole numbers that are doubles are those up to
    2^53 in magnitude and, beyond, those with 53 binary digits. *)
Inductive pageNumber : Type :=
| Page (n : Z)
| PagePlusInfinity
| PageMinusInfinity
| PageNaN.

Record t (A : Type) : Type := mk {
  allData : list A;
  itemsPerPage : pageSize;
  currentPage : pageNumber
}.
Arguments mk {A} _ _ _.
Arguments allData {A} _.
Arguments itemsPerPage {A} _.
Arguments currentPage {A} _.

(** [new Paginator(containerId, data, itemsPerPage)]. *)
Definition new {A : Type} (data : list A) (itemsPerPage : pageSize) : t A :=
  {| allData := data; itemsPerPage := itemsPerPage; currentPage := Page 1 |}.

(** [Math.ceil(a / b)] for integers [a], [b] with [b <> 0]. *)
Definition ceilDiv (a b : Z) : Z := - ((- a) / b).

Definition getTotalPages {A : Type} (p : t A) : count :=
  let len := Z.of_nat (length (allData p)) in
  match itemsPerPage p with
  | SizeNaN => NotANumber
  | SizeMinusZero => if len =? 0 then NotANumber else MinusInfinite
  | Size n =>
      if n =? 0 then (if len =? 0 then NotANumber else Infinite)
      else Finite (ceilDiv len n)
  end.

(** The double nearest to a whole number, ties going to the even
    mantissa: up to 2^53 in magnitude the number itself, beyond it the
    number with its first 53 binary digits kept and the rest rounded. *)
Definition nearestDouble (z : Z) : Z :=
  let a := Z.abs z in
  if a <=? 2 ^ 53 then z
  else
    let e := Z.log2 a - 52 in
    let q := a / 2 ^ e in
    let r := a mod 2 ^ e in
    let half := 2 ^ (e - 1) in
    let q' :=
      if r <? half then q
      else if half <? r then q + 1
      else if Z.even q then q else q + 1 in
    Z.sgn z * (q' * 2 ^ e).

(** [page + 1] and [page - 1], as the doubles add. *)
Definition plusOne (page : pageNumber) : pageNumber :=
  match page with
  | Page n => Page (nearestDouble (n + 1))
  | other => other
  end.

Definition minusOne (page : pageNumber) : pageNumber :=
  match page with
  | Page n => Page (nearestDouble (n - 1))
  | other => other
  end.

(** [page < 1] and [page > 1]; a comparison with [NaN] is false. *)
Definition ltOne (page : pageNumber) : bool :=
  match page with
  | Page n => n <? 1
  | PageMinusInfinity => true
  | PagePlusInfinity | PageNaN => false
  end.

Definition gtOne (page : pageNumber) : bool :=
  match page with
  | Page n => 1 <? n
  | PagePlusInfinity => true
  | PageMinusInfinity | PageNaN => false
  end.

(** [page > total] and [page < total] against a page count. *)
Definition gtCount (page : pageNumber) (total : count) : bool :=
  match page, total with
  | Page n, Finite m => m <? n
  | Page _, MinusInfinite => true
  | PagePlusInfinity, (Finite _ | MinusInfinite) => true
  | PageMinusInfinity, _ => false
  | PageNaN, _ => false
  | _, (Infinite | NotANumber) => false
  end.

Definition ltCount (page : pageNumber) (total : count) : bool :=
  match page, total with
  | Page n, Finite m => n <? m
  | Page _, Infinite => true
  | PageMinusInfinity, (Finite _ | Infinite) => true
  | PagePlusInfinity, _ => false
  | PageNaN, _ => false
  | _, (MinusInfinite | NotANumber) => false
  end.

Definition goToPage {A : Type} (page : pageNumber) (p : t A) : t A :=
  let totalPages := getTotalPages p in
  if ltOne page || gtCount page totalPages then p
  else {| allData := allData p; itemsPerPage := itemsPerPage p;
          currentPage := page |}.

Definition nextPage {A : Type} (p : t A) : t A :=
  if ltCount (currentPage p) (getTotalPages p)
  then goToPage (plusOne (currentPage p)) p
  else p.

Definition prevPage {A : Type} (p : t A) : t A :=
  if gtOne (currentPage p) then goToPage (minusOne (currentPage p)) p else p.

Definition updateData {A : Type} (data : list A) (p : t A) : t A :=
  {| allData := data; itemsPerPage := itemsPerPage p; currentPage := Page 1 |}.

(** [changeItemsPerPage(v)]; [n] is [parseInt(v)]. *)
Definition changeItemsPerPage {A : Type} (n : pageSize) (p : t A) : t A :=
  {| allData := allData p; itemsPerPage := n; currentPage := Page 1 |}.

(** The operations a caller can invoke, and a run of them. *)
Inductive op (A : Type) : Type :=
| GoToPage (page : pageNumber)
| NextPage
| PrevPage
| UpdateData (data : list A)
| ChangeItemsPerPage (n : pageSize).
Arguments GoToPage {A} _.
Arguments NextPage {A}.
Arguments PrevPage {A}.
Arguments UpdateData {A} _.
Arguments ChangeItemsPerPage {A} _.

Definition step {A : Type} (p : t A) (o : op A) : t A :=
  match o with
  | GoToPage page => goToPage page p
  | NextPage => nextPage p
  | PrevPage => prevPage p
  | UpdateData data => updateData data p
  | ChangeItemsPerPage n => changeItemsPerPage n p
  end.

Definition run {A : Type} (ops : list (op A)) (p : t A) : t A :=
  fold_left step ops p.

(** [Math.max(1, total)], [1 <= page] and [page <= total]. *)
Definition maxOne (total : count) : count :=
  match total with
  | Finite n => Finite (Z.max 1 n)
  | Infinite => Infinite
  | MinusInfinite => Finite 1
  | NotANumber => NotANumber
  end.

Definition geOne (page : pageNumber) : bool :=
  match page with
  | Page n => 1 <=? n
  | PagePlusInfinity => true
  | PageMinusInfinity | PageNaN => false
  end.

Definition leCount (page : pageNumber) (total : count) : bool :=
  match page, total with
  | Page n, Finite m => n <=? m
  | Page _, Infinite => true
  | PagePlusInfinity, Infinite => true
  | PageMinusInfinity, (Finite _ | Infinite | MinusInfinite) => true
  | _, _ => false
  end.

(** [currentPage] lies in [[1, max(1, totalPages)]]. *)
Definition inRange {A : Type} (p : t A) : Prop :=
  geOne (currentPage p) = true /\
  leCount (currentPage p) (maxOne (getTotalPages p)) = true.

(** The page number given to [goToPage], if any, is a number. *)
Definition pageIsNumber {A : Type} (o : op A) : Prop :=
  match o with
  | GoToPage PageNaN => False
  | _ => True
  end.

(** The page size is a positive integer. *)
Definition positiveSize (s : pageSize) : Prop :=
  match s with
  | Size n => 0 < n
  | SizeMinusZero | SizeNaN => False
  end.

(** An operation that, if it sets the page size, sets a positive one. *)
Definition sizesPositive {A : Type} (o : op A) : Prop :=
  match o with
  | ChangeItemsPerPage n => positiveSize n
  | _ => True
  end.

(** [arr.slice(start, end)] for integer arguments: a negative index counts
    from the end, both indices are clamped to the array. *)
Definition slice {A : Type} (arr : list A) (start stop : Z) : list A :=
  let len := Z.of_nat (length arr) in
  let k := if start <? 0 then Z.max (len + start) 0 else Z.min start len in
  let final := if stop <? 0 then Z.max (len + stop) 0 else Z.min stop len in
  take (Z.to_nat (final - k)) (drop (Z.to_nat k) arr).

(** [getCurrentPageData()].  With a [NaN] page size or page both indices
    are [NaN], which [slice] reads as 0; with page size -0 both are zero;
    with an infinite page both are the same infinity, or [NaN] over page
    size 0: the slice is empty each time.  With a whole page and size the
    indices are computed exactly: where the doubles round them they lie
    beyond every array length, on the same side. *)
Definition getCurrentPageData {A : Type} (p : t A) : list A :=
  match itemsPerPage p, currentPage p with
  | Size n, Page page =>
      let startIndex := (page - 1) * n in
      let endIndex := startIndex + n in
      slice (allData p) startIndex endIndex
  | _, _ => slice (allData p) 0 0
  end.


End Paginator.

(** A whole number is read as a page number where one is expected. *)
Coercion Paginator.Page : Z >-> Paginator.pageNumber.

(** ** [utils.js]: [class TableSorter] *)
Module TableSorter.

Inductive direction : Type :=
| Asc
| Desc.

Record t : Type := mk {
  data : list Js.object;
  sortColumn : option string;
  sortDirection : direction
}.

(** [new TableSorter(tableId, data, renderCallback)]. *)
Definition new (data : list Js.object) : t :=
  {| data := data; sortColumn := None; sortDirection := Asc |}.

(** Toggle the direction on the same column, otherwise ascending. *)
Definition nextDirection (column : string) (s : t) : direction :=
  match sortColumn s with
  | Some c =>
      if String.eqb c column
      then match sortDirection s with Asc => Desc | Desc => Asc end
      else Asc
  | None => Asc
  end.

(** Determine the data type if it is auto: the sample is
    [this.data[0][column]]. *)
Definition inferType (type column : string) (data : list Js.object) : string :=
  if String.eqb type "auto" then
    match data with
    | sample :: _ =>
        if Js.isNumber (Js.get sample column) then "number" else "string"
    | [] => type
    end
  else type.

(** The comparison function handed to [Array.prototype.sort]. *)
Definition comparator `{Js.Host} (column type : string) (dir : direction)
    (a b : Js.object) : float :=
  let valueA := Js.get a column in
  let valueB := Js.get b column in
  if Js.isNullish valueA then 1%float
  else if Js.isNullish valueB then (-1)%float
  else if String.eqb type "number" then
    let numA := Js.parseFloat valueA in
    let numB := Js.parseFloat valueB in
    match dir with
    | Asc => PrimFloat.sub numA numB
    | Desc => PrimFloat.sub numB numA
    end
  else
    let strA := Js.toLowerCase (Js.toString valueA) in
    let strB := Js.toLowerCase (Js.toString valueB) in
    match dir with
    | Asc => Js.localeCompare strA strB
    | Desc => Js.localeCompare strB strA
    end.

(** [Array.prototype.sort(compareFn)] belongs to the host.  It is embedded
    as the stable insertion sort: an element moves right past a neighbour
    exactly when [compareFn] answers a number greater than zero (a [NaN]
    answer counts as zero). *)
Fixpoint insert {A : Type} (compareFn : A -> A -> float) (x : A)
    (sorted : list A) : list A :=
  match sorted with
  | [] => [x]
  | y :: rest =>
      if Js.gt (compareFn x y) 0 then y :: insert compareFn x rest
      else x :: sorted
  end.

Definition arraySort {A : Type} (compareFn : A -> A -> float)
    (arr : list A) : list A :=
  fold_right (insert compareFn) [] arr.

(** [sort(column, type)]; the render callback is the caller's. *)
Definition sort `{Js.Host} (column type : string) (s : t) : t :=
  let dir := nextDirection column s in
  let type' := inferType type column (data s) in
  {| data := arraySort (comparator column type' dir) (data s);
     sortColumn := Some column;
     sortDirection := dir |}.

(** The record has no usable value in the column. *)
Definition missing (column : string) (r : Js.object) : bool :=
  Js.isNullish (Js.get r column).

(** All records with a value come before all records without one. *)
Definition nullsLast (column : string) (records : list Js.object) : Prop :=
  exists present absent,
    records = present ++ absent /\
    Forall (fun r => missing column r = false) present /\
    Forall (fun r => missing column r = true) absent.

(** An arrangement that a comparison sort can leave behind: no two
    neighbours stand in the order that the comparison function rejects
    both ways round (left greater than right, right less than left). *)
Fixpoint settled {A : Type} (compareFn : A -> A -> float) (arr : list A) : bool :=
  match arr with
  | a :: rest =>
      match rest with
      | b :: _ =>
          negb (Js.gt (compareFn a b) 0 && Js.lt (compareFn b a) 0) &&
          settled compareFn rest
      | [] => true
      end
  | [] => true
  end.

(** Type inference as the specification words it: from the first non-null
    sample value of the column. *)
Definition firstNonNull (column : string) (data : list Js.object) : option Js.value :=
  List.find (fun v => negb (Js.isNullish v)) (List.map (fun r => Js.get r column) data).

Definition inferTypeSpec (type column : string) (data : list Js.object) : string :=
  if String.eqb type "auto" then
    match data with
    | _ :: _ =>
        match firstNonNull column data with
        | Some v => if Js.isNumber v then "number" else "string"
        | None => "string"
        end
    | [] => type
    end
  else type.

(** Sample records: the first has no value in column v. *)
Definition sampleRecords : list Js.object :=
  [[("v", Js.VNull)]; [("v", Js.VNum 10)]; [("v", Js.VNum 9)]].

Definition numericRecords : list Js.object :=
  [[("v", Js.VNum 10)]; [("v", Js.VNull)]; [("v", Js.VNum 9)]].

End TableSorter.

(** ** [utils.js]: [exportToCSV] *)
Module Csv.

Record column : Type := mkColumn {
  key : string;
  header : string
}.

(** The value's text includes a comma, a double quote or a newline. *)
Definition needsQuotes (s : string) : bool :=
  Js.includes s (Js.str Js.comma) ||
  Js.includes s (Js.str Js.dquote) ||
  Js.includes s (Js.str Js.newline).

(** [replace] with the global pattern: every double quote is doubled. *)
Fixpoint doubleQuotes (s : string) : string :=
  match s with
  | EmptyString => EmptyString
  | String c rest =>
      if Ascii.eqb c Js.dquote
      then String Js.dquote (String Js.dquote (doubleQuotes rest))
      else String c (doubleQuotes rest)
  end.

(** The text of a non-null value. *)
Definition escape (stringValue : string) : string :=
  if needsQuotes stringValue
  then String Js.dquote (doubleQuotes stringValue +:+ Js.str Js.dquote)
  else stringValue.

(** One cell of a data row. *)
Definition cell `{Js.Host} (v : Js.value) : string :=
  if Js.isNullish v then EmptyString else escape (Js.toString v).

(** Build CSV rows: the line of one record. *)
Definition rowText `{Js.Host} (cols : list column) (row : Js.object) : string :=
  Js.join (Js.str Js.comma)
    (List.map (fun col => cell (Js.get row (key col))) cols).

(** Combine header and rows: the lines of the text. *)
Definition lines `{Js.Host} (data : list Js.object) (cols : list column)
    : list string :=
  let headers := Js.join (Js.str Js.comma) (List.map header cols) in
  let rows := List.map (rowText cols) data in
  headers :: rows.

(** The text assembled by [exportToCSV(data, filename, columns)] before it
    is handed to the download link; [None] when the function returns early
    (no data to export). *)
Definition exportToCSV `{Js.Host} (data : list Js.object)
    (columns : option (list column)) : option string :=
  match data with
  | [] => None
  | first :: _ =>
      let cols :=
        match columns with
        | Some cols => cols
        | None => List.map (fun k => {| key := k; header := k |}) (Js.keys first)
        end in
      Some (Js.join (Js.str Js.newline) (lines data cols))
  end.

(** What a data cell is expected to read back as, and the table expected
    from reading the whole text back. *)
Definition cellText `{Js.Host} (v : Js.value) : string :=
  if Js.isNullish v then EmptyString else Js.toString v.

Definition table `{Js.Host} (data : list Js.object) (cols : list column)
    : list (list string) :=
  List.map header cols ::
  List.map (fun row => List.map (fun col => cellText (Js.get row (key col))) cols) data.

(** The character occurs in the text. *)
Fixpoint hasChar (c : ascii) (s : string) : bool :=
  match s with
  | EmptyString => false
  | String a rest => Ascii.eqb a c || hasChar c rest
  end.

(** A text free of comma, double quote, newline and carriage return. *)
Definition isPlain (s : string) : bool :=
  negb (hasChar Js.comma s || hasChar Js.dquote s ||
        hasChar Js.newline s || hasChar Js.creturn s).

(** A text that holds a carriage return only if it is also quoted. *)
Definition crSafe (s : string) : bool :=
  needsQuotes s || negb (hasChar Js.creturn s).

(** [e] is how the text [v] stands in the file: bare when plain, or
    wrapped in quotes with its quotes doubled. *)
Definition encodes (e v : string) : Prop :=
  (e = v /\ isPlain v = true) \/
  e = String Js.dquote (doubleQuotes v +:+ Js.str Js.dquote).

(** Sample rows: values with a comma, quotes, a line break, and none. *)
Definition sampleColumns : list column :=
  [{| key := "symbol"; header := "Gene Symbol" |};
   {| key := "name"; header := "Gene Name" |}].

Definition sampleData : list Js.object :=
  [[("symbol", Js.VStr "Cacna1g");
    ("name", Js.VStr "calcium channel, T type")];
   [("symbol", Js.VStr "Grin2b");
    ("name", Js.VStr ("the " +:+ Js.str Js.dquote +:+ "NMDA" +:+ Js.str Js.dquote
                      +:+ " receptor" +:+ Js.str Js.newline +:+ "subunit 2B"))];
   [("symbol", Js.VStr "Scn1a"); ("name", Js.VNull)]].

End Csv.

(** ** A standard CSV reader *)
Module CsvReader.

(** The reader against which the export is to round-trip, written after
    the specification's words (a standard CSV parser); the repository has
    no reader for its own export.  It follows RFC 4180: fields are separated by commas, records
    by a line break (LF or CR LF), a field that opens with a double quote
    runs to the closing quote with two quotes standing for one, and a line
    break at the very end of the text does not open another record. *)
Inductive mode : Type :=
| FieldStart
| Unquoted
| Quoted
| QuoteSeen
| CrSeen.

Record state : Type := mk {
  rows : list (list string);
  fields : list string;
  cur : string;
  at_ : mode
}.

Definition init : state :=
  {| rows := []; fields := []; cur := EmptyString; at_ := FieldStart |}.

Definition push (c : ascii) (m : mode) (st : state) : state :=
  {| rows := rows st; fields := fields st;
     cur := cur st +:+ Js.str c; at_ := m |}.

Definition endField (st : state) : state :=
  {| rows := rows st; fields := fields st ++ [cur st];
     cur := EmptyString; at_ := FieldStart |}.

Definition endRow (st : state) : state :=
  {| rows := rows st ++ [fields st ++ [cur st]]; fields := [];
     cur := EmptyString; at_ := FieldStart |}.

Definition setMode (m : mode) (st : state) : state :=
  {| rows := rows st; fields := fields st; cur := cur st; at_ := m |}.

(** A character read outside quotes. *)
Definition plainStep (st : state) (c : ascii) : state :=
  if Ascii.eqb c Js.comma then endField st
  else if Ascii.eqb c Js.newline then endRow st
  else if Ascii.eqb c Js.creturn then setMode CrSeen st
  else push c Unquoted st.

Definition step (st : state) (c : ascii) : state :=
  match at_ st with
  | FieldStart =>
      if Ascii.eqb c Js.dquote then setMode Quoted st else plainStep st c
  | Unquoted => plainStep st c
  | Quoted =>
      if Ascii.eqb c Js.dquote then setMode QuoteSeen st else push c Quoted st
  | QuoteSeen =>
      if Ascii.eqb c Js.dquote then push Js.dquote Quoted st else plainStep st c
  | CrSeen =>
      if Ascii.eqb c Js.newline then endRow st
      else plainStep (push Js.creturn Unquoted st) c
  end.

Fixpoint run (st : state) (text : string) : state :=
  match text with
  | EmptyString => st
  | String c rest => run (step st c) rest
  end.

Definition finish (st : state) : list (list string) :=
  match at_ st, fields st with
  | FieldStart, [] => rows st
  | CrSeen, _ => rows st ++ [fields st ++ [cur st +:+ Js.str Js.creturn]]
  | _, _ => rows st ++ [fields st ++ [cur st]]
  end.

Definition parse (text : string) : list (list string) :=
  finish (run init text).

(** The reader stands at the end of a field whose text is [v]. *)
Definition doneMode (m : mode) (v : string) : Prop :=
  m = Unquoted \/ m = QuoteSeen \/ (m = FieldStart /\ v = EmptyString).

End CsvReader.

(** ** [gene-search.js]: [class GeneSearchEngine] *)
Module GeneSearchEngine.

(** One dataset's observation of a gene, as [normalizeGeneData] shapes it
    (the fields [applyFilters] reads, and the significance flag). *)
Module Observation.
Record t : Type := mk {
  log2fc : Js.numfield;
  adj_p_val : Js.numfield;
  regulation : option string;
  significant : bool
}.
End Observation.

Module Gene.
Record t : Type := mk {
  symbol : string;
  name : string;
  ensembl_id : string;
  bulk_rnaseq : option Observation.t;
  spatial_p15 : option Observation.t;
  spatial_p30 : option Observation.t;
  seizure_gene : bool
}.
End Gene.

(** [this.filters.datasets]: the four toggles. *)
Module Datasets.
Record t : Type := mk {
  bulk_rnaseq : bool;
  spatial_p15 : bool;
  spatial_p30 : bool;
  seizure_gene : bool
}.
End Datasets.

Module Filters.
Record t : Type := mk {
  regulation : string;
  datasets : Datasets.t;
  pvalueThreshold : float;
  log2fcMin : option float;
  log2fcMax : option float
}.
End Filters.

Definition allOn : Datasets.t :=
  {| Datasets.bulk_rnaseq := true; Datasets.spatial_p15 := true;
     Datasets.spatial_p30 := true; Datasets.seizure_gene := true |}.

Definition allOff : Datasets.t :=
  {| Datasets.bulk_rnaseq := false; Datasets.spatial_p15 := false;
     Datasets.spatial_p30 := false; Datasets.seizure_gene := false |}.

(** The constructor's (and [resetFilters]') filter values. *)
Definition defaultFilters : Filters.t :=
  {| Filters.regulation := "all";
     Filters.datasets :=
       {| Datasets.bulk_rnaseq := true; Datasets.spatial_p15 := true;
          Datasets.spatial_p30 := true; Datasets.seizure_gene := true |};
     Filters.pvalueThreshold := 1.0;
     Filters.log2fcMin := None;
     Filters.log2fcMax := None |}.

Record t : Type := mk {
  allGenes : list Gene.t;
  filteredGenes : list Gene.t;
  currentSearchTerm : string;
  filters : Filters.t;
  paginator : Paginator.t Gene.t;
  sorterData : list Gene.t
}.

(** The property names of [this.filters.datasets], as [Object.keys]
    lists them. *)
Inductive datasetKey : Type :=
| KBulkRnaseq
| KSpatialP15
| KSpatialP30
| KSeizureGene.

Definition datasetKeys : list datasetKey :=
  [KBulkRnaseq; KSpatialP15; KSpatialP30; KSeizureGene].

(** [this.filters.datasets[ds]]. *)
Definition enabled (d : Datasets.t) (ds : datasetKey) : bool :=
  match ds with
  | KBulkRnaseq => Datasets.bulk_rnaseq d
  | KSpatialP15 => Datasets.spatial_p15 d
  | KSpatialP30 => Datasets.spatial_p30 d
  | KSeizureGene => Datasets.seizure_gene d
  end.

(** The three datasets that carry observations, and [gene[dataset]]. *)
Definition observed : list datasetKey := [KBulkRnaseq; KSpatialP15; KSpatialP30].

Definition observation (gene : Gene.t) (ds : datasetKey) : option Observation.t :=
  match ds with
  | KBulkRnaseq => Gene.bulk_rnaseq gene
  | KSpatialP15 => Gene.spatial_p15 gene
  | KSpatialP30 => Gene.spatial_p30 gene
  | KSeizureGene => None
  end.

(** [obs?.regulation === wanted], [obs?.adj_p_val] and [obs?.log2fc]. *)
Definition regulationIs (obs : option Observation.t) (wanted : string) : bool :=
  match obs with
  | Some o =>
      match Observation.regulation o with
      | Some r => String.eqb r wanted
      | None => false
      end
  | None => false
  end.

Definition adjPVal (obs : option Observation.t) : Js.numfield :=
  match obs with
  | Some o => Observation.adj_p_val o
  | None => Js.NUndefined
  end.

Definition log2fcOf (obs : option Observation.t) : Js.numfield :=
  match obs with
  | Some o => Observation.log2fc o
  | None => Js.NUndefined
  end.

(** 1. Search term filter (symbol, name, ensembl_id). *)
Definition matchesText `{Js.Host} (text searchLower : string) : bool :=
  Js.truthy text && Js.includes (Js.toLowerCase text) searchLower.

Definition searchFilter `{Js.Host} (term : string) (results : list Gene.t) : list Gene.t :=
  if Js.truthy term then
    let searchLower := Js.toLowerCase term in
    List.filter (fun gene =>
      matchesText (Gene.symbol gene) searchLower ||
      matchesText (Gene.name gene) searchLower ||
      matchesText (Gene.ensembl_id gene) searchLower) results
  else results.

(** 2. Regulation filter. *)
Definition hasRegulation (f : Filters.t) (gene : Gene.t) : bool :=
  (Datasets.bulk_rnaseq (Filters.datasets f) &&
     regulationIs (Gene.bulk_rnaseq gene) (Filters.regulation f)) ||
  (Datasets.spatial_p15 (Filters.datasets f) &&
     regulationIs (Gene.spatial_p15 gene) (Filters.regulation f)) ||
  (Datasets.spatial_p30 (Filters.datasets f) &&
     regulationIs (Gene.spatial_p30 gene) (Filters.regulation f)).

Definition regulationFilter (f : Filters.t) (results : list Gene.t) : list Gene.t :=
  if negb (String.eqb (Filters.regulation f) "all")
  then List.filter (hasRegulation f) results
  else results.

(** 3. Dataset filter. *)
Definition activeDatasets (f : Filters.t) : list datasetKey :=
  List.filter (enabled (Filters.datasets f)) datasetKeys.

Definition inDataset (gene : Gene.t) (dataset : datasetKey) : bool :=
  match dataset with
  | KSeizureGene => Gene.seizure_gene gene
  | _ => match observation gene dataset with Some _ => true | None => false end
  end.

Definition datasetFilter (f : Filters.t) (results : list Gene.t) : list Gene.t :=
  let active := activeDatasets f in
  if (Nat.ltb 0 (length active) && Nat.ltb (length active) 4)%bool
  then List.filter (fun gene => Js.some (inDataset gene) active) results
  else results.

(** 4. P-value threshold filter. *)
Definition hasSignificantPvalue (f : Filters.t) (gene : Gene.t) : bool :=
  (Datasets.bulk_rnaseq (Filters.datasets f) &&
     Js.le (Js.toNumber (adjPVal (Gene.bulk_rnaseq gene))) (Filters.pvalueThreshold f)) ||
  (Datasets.spatial_p15 (Filters.datasets f) &&
     Js.le (Js.toNumber (adjPVal (Gene.spatial_p15 gene))) (Filters.pvalueThreshold f)) ||
  (Datasets.spatial_p30 (Filters.datasets f) &&
     Js.le (Js.toNumber (adjPVal (Gene.spatial_p30 gene))) (Filters.pvalueThreshold f)).

Definition pvalueFilter (f : Filters.t) (results : list Gene.t) : list Gene.t :=
  if Js.lt (Filters.pvalueThreshold f) 1.0
  then List.filter (hasSignificantPvalue f) results
  else results.

(** 5. Log2FC range filter. *)
Definition passesBounds (f : Filters.t) (fc : Js.numfield) : bool :=
  let absFc := PrimFloat.abs (Js.toNumber fc) in
  let passesMin :=
    match Filters.log2fcMin f with None => true | Some lo => Js.ge absFc lo end in
  let passesMax :=
    match Filters.log2fcMax f with None => true | Some hi => Js.le absFc hi end in
  passesMin && passesMax.

Definition log2fcValues (gene : Gene.t) : list Js.numfield :=
  List.filter Js.isPresent
    [log2fcOf (Gene.bulk_rnaseq gene);
     log2fcOf (Gene.spatial_p15 gene);
     log2fcOf (Gene.spatial_p30 gene)].

Definition passesLog2fc (f : Filters.t) (gene : Gene.t) : bool :=
  let values := log2fcValues gene in
  if Nat.eqb (length values) 0 then false
  else Js.some (passesBounds f) values.

Definition isSet (bound : option float) : bool :=
  match bound with Some _ => true | None => false end.

Definition log2fcFilter (f : Filters.t) (results : list Gene.t) : list Gene.t :=
  if isSet (Filters.log2fcMin f) || isSet (Filters.log2fcMax f)
  then List.filter (passesLog2fc f) results
  else results.

(** The filtered list that [applyFilters] computes from [this.allGenes]. *)
Definition filterResults `{Js.Host} (term : string) (f : Filters.t)
    (allGenes : list Gene.t) : list Gene.t :=
  let results := allGenes in
  let results := searchFilter term results in
  let results := regulationFilter f results in
  let results := datasetFilter f results in
  let results := pvalueFilter f results in
  let results := log2fcFilter f results in
  results.

(** [applyFilters()]: the new list is stored, handed to the paginator
    ([updateData]) and to the sorter; the result count display is not
    part of the state. *)
Definition applyFilters `{Js.Host} (e : t) : t :=
  let results := filterResults (currentSearchTerm e) (filters e) (allGenes e) in
  {| allGenes := allGenes e;
     filteredGenes := results;
     currentSearchTerm := currentSearchTerm e;
     filters := filters e;
     paginator := Paginator.updateData results (paginator e);
     sorterData := results |}.

(** Sample records and criteria for running the clauses. *)
Definition sampleObservation (fc p : float) : Observation.t :=
  {| Observation.log2fc := Js.NNum fc;
     Observation.adj_p_val := Js.NNum p;
     Observation.regulation := Some (if Js.gt fc 0 then "up" else "down");
     Observation.significant := Js.lt p 0.1 && Js.gt (PrimFloat.abs fc) 0.5 |}.

Definition sampleGene (bulk : option Observation.t) : Gene.t :=
  {| Gene.symbol := "Cacna1g"; Gene.name := EmptyString;
     Gene.ensembl_id := "ENSRNOG00000000001";
     Gene.bulk_rnaseq := bulk; Gene.spatial_p15 := None;
     Gene.spatial_p30 := None; Gene.seizure_gene := false |}.

Definition sampleFilters (datasets : Datasets.t) (threshold : float)
    (lo hi : option float) : Filters.t :=
  {| Filters.regulation := "all"; Filters.datasets := datasets;
     Filters.pvalueThreshold := threshold;
     Filters.log2fcMin := lo; Filters.log2fcMax := hi |}.

Definition bulkOff : Datasets.t :=
  {| Datasets.bulk_rnaseq := false; Datasets.spatial_p15 := true;
     Datasets.spatial_p30 := true; Datasets.seizure_gene := true |}.

(** The numeric criterion as the specification words it: some enabled
    dataset's value lies within the bounds, a null bound being unbounded. *)
Definition withinBounds (lo hi : option float) (v : float) : bool :=
  match lo with None => true | Some lo => Js.ge v lo end &&
  match hi with None => true | Some hi => Js.le v hi end.

Definition passesLog2fcSpec (f : Filters.t) (gene : Gene.t) : bool :=
  Js.some (fun ds =>
    enabled (Filters.datasets f) ds &&
    match log2fcOf (observation gene ds) with
    | Js.NNum v => withinBounds (Filters.log2fcMin f) (Filters.log2fcMax f) v
    | _ => false
    end) observed.

(** [resetFilters()]: the criteria return to their defaults and the
    filters are applied; the form controls and the notification are the
    page's. *)
Definition resetFilters `{Js.Host} (e : t) : t :=
  applyFilters
    {| allGenes := allGenes e;
       filteredGenes := filteredGenes e;
       currentSearchTerm := EmptyString;
       filters := defaultFilters;
       paginator := paginator e;
       sorterData := sorterData e |}.

(** [getGeneBySymbol(symbol)]: the first gene of [allGenes] with that
    symbol, [None] standing for [undefined]. *)
Definition getGeneBySymbol (e : t) (symbol : string) : option Gene.t :=
  List.find (fun g => String.eqb (Gene.symbol g) symbol) (allGenes e).

(** The three dataset toggles off, the seizure toggle as given. *)
Definition observedOff (seizure : bool) : Datasets.t :=
  {| Datasets.bulk_rnaseq := false; Datasets.spatial_p15 := false;
     Datasets.spatial_p30 := false; Datasets.seizure_gene := seizure |}.

(** A gene of [gene-master-index.json] as [normalizeGeneData] reads it: a
    property that the document does not have is [None]. *)
Module RawRna.
Record t : Type := mk {
  log2fc : Js.numfield;
  padj : Js.numfield;
  baseMean : Js.numfield;
  regulation : option string;
  significant : bool
}.
End RawRna.

Module RawSpatial.
Record t : Type := mk {
  logFC : Js.numfield;
  adj_p_val : Js.numfield;
  aveExpr : Js.numfield;
  regulation : option string;
  significant : bool
}.
End RawSpatial.

Module RawDatasets.
Record t : Type := mk {
  rnaseq : option RawRna.t;
  spatial_p15 : option RawSpatial.t;
  spatial_p30 : option RawSpatial.t
}.
End RawDatasets.

Module RawGene.
Record t : Type := mk {
  primary_symbol : option string;
  symbol : option string;
  name : option string;
  ensembl_id : option string;
  datasets : option RawDatasets.t;
  seizure_gene : option bool
}.
End RawGene.

(** [text || fallback] for a text property. *)
Definition textOr (text : option string) (fallback : string) : string :=
  match text with
  | Some s => if Js.truthy s then s else fallback
  | None => fallback
  end.

Definition fromRna (r : RawRna.t) : Observation.t :=
  {| Observation.log2fc := RawRna.log2fc r;
     Observation.adj_p_val := RawRna.padj r;
     Observation.regulation := RawRna.regulation r;
     Observation.significant := RawRna.significant r |}.

Definition fromSpatial (r : RawSpatial.t) : Observation.t :=
  {| Observation.log2fc := RawSpatial.logFC r;
     Observation.adj_p_val := RawSpatial.adj_p_val r;
     Observation.regulation := RawSpatial.regulation r;
     Observation.significant := RawSpatial.significant r |}.

(** [gene.datasets?.rnaseq] and its siblings. *)
Definition rawRnaseq (gene : RawGene.t) : option RawRna.t :=
  match RawGene.datasets gene with
  | Some d => RawDatasets.rnaseq d
  | None => None
  end.

Definition rawSpatial (at15 : bool) (gene : RawGene.t) : option RawSpatial.t :=
  match RawGene.datasets gene with
  | Some d => if at15 then RawDatasets.spatial_p15 d else RawDatasets.spatial_p30 d
  | None => None
  end.

Definition normalizeGeneData (gene : RawGene.t) : Gene.t :=
  {| Gene.symbol :=
       textOr (RawGene.primary_symbol gene) (textOr (RawGene.symbol gene) "Unknown");
     Gene.name := textOr (RawGene.name gene) EmptyString;
     Gene.ensembl_id := textOr (RawGene.ensembl_id gene) EmptyString;
     Gene.bulk_rnaseq := option_map fromRna (rawRnaseq gene);
     Gene.spatial_p15 := option_map fromSpatial (rawSpatial true gene);
     Gene.spatial_p30 := option_map fromSpatial (rawSpatial false gene);
     Gene.seizure_gene :=
       match RawGene.seizure_gene gene with
       | Some b => b
       | None => false
       end |}.

(** Only the seizure toggle on. *)
Definition seizureOnly : Datasets.t :=
  {| Datasets.bulk_rnaseq := false; Datasets.spatial_p15 := false;
     Datasets.spatial_p30 := false; Datasets.seizure_gene := true |}.

End GeneSearchEngine.

(** ** The publications engine: [class PublicationsEngine] *)
Module PublicationsEngine.

(** A publication of the loaded document.  A text property is a string or
    is missing ([None] stands for [null] and [undefined]). *)
Module Publication.
Record t : Type := mk {
  title : option string;
  authors : option string;
  year : Js.numfield;
  journal : option string;
  sjr_quartile : option string;
  citations : Js.numfield;
  study_type : option string;
  takeaway : option string;
  abstract : option string;
  doi : option string;
  consensus_link : option string
}.
End Publication.

Module Filters.
Record t : Type := mk {
  yearMin : option float;
  yearMax : option float;
  quartile : string;
  studyType : string;
  citationMin : option float;
  journal : string
}.
End Filters.

(** The constructor's (and [resetFilters]') filter values. *)
Definition defaultFilters : Filters.t :=
  {| Filters.yearMin := None; Filters.yearMax := None;
     Filters.quartile := "all"; Filters.studyType := "all";
     Filters.citationMin := None; Filters.journal := EmptyString |}.

Record t : Type := mk {
  allPublications : list Publication.t;
  filteredPublications : list Publication.t;
  currentSearchTerm : string;
  filters : Filters.t;
  paginator : Paginator.t Publication.t
}.

(** [text && text.toLowerCase().includes(term)]. *)
Definition matchesText `{Js.Host} (text : option string) (term : string) : bool :=
  match text with
  | Some s => Js.truthy s && Js.includes (Js.toLowerCase s) term
  | None => false
  end.

(** [!text]: missing or empty. *)
Definition blank (text : option string) : bool :=
  match text with
  | Some s => negb (Js.truthy s)
  | None => true
  end.

(** Text search (case-insensitive, multiple fields). *)
Definition searchFilter `{Js.Host} (searchTerm : string)
    (filtered : list Publication.t) : list Publication.t :=
  if Js.truthy searchTerm then
    let term := Js.toLowerCase searchTerm in
    List.filter (fun pub =>
      matchesText (Publication.title pub) term ||
      matchesText (Publication.authors pub) term ||
      matchesText (Publication.abstract pub) term ||
      matchesText (Publication.journal pub) term ||
      matchesText (Publication.takeaway pub) term) filtered
  else filtered.

(** Year range filter. *)
Definition yearFilter (f : Filters.t)
    (filtered : list Publication.t) : list Publication.t :=
  let filtered :=
    match Filters.yearMin f with
    | Some yearMin =>
        List.filter (fun pub => Js.ge (Js.toNumber (Publication.year pub)) yearMin) filtered
    | None => filtered
    end in
  match Filters.yearMax f with
  | Some yearMax =>
      List.filter (fun pub => Js.le (Js.toNumber (Publication.year pub)) yearMax) filtered
  | None => filtered
  end.

(** Quartile filter. *)
Definition quartileFilter (f : Filters.t)
    (filtered : list Publication.t) : list Publication.t :=
  if negb (String.eqb (Filters.quartile f) "all") then
    if String.eqb (Filters.quartile f) "unranked" then
      List.filter (fun pub => blank (Publication.sjr_quartile pub)) filtered
    else
      List.filter (fun pub =>
        match Publication.sjr_quartile pub with
        | Some q => String.eqb q (Filters.quartile f)
        | None => false
        end) filtered
  else filtered.

(** Study type filter. *)
Definition knownTypes : list string :=
  ["non-rct experimental"; "systematic review"; "non-rct observational study"].

Definition studyTypeFilter `{Js.Host} (f : Filters.t)
    (filtered : list Publication.t) : list Publication.t :=
  if negb (String.eqb (Filters.studyType f) "all") then
    if String.eqb (Filters.studyType f) "other" then
      List.filter (fun pub =>
        match Publication.study_type pub with
        | Some st =>
            negb (Js.truthy st) ||
            negb (List.existsb (String.eqb (Js.toLowerCase st)) knownTypes)
        | None => true
        end) filtered
    else
      List.filter (fun pub =>
        match Publication.study_type pub with
        | Some st =>
            Js.truthy st &&
            String.eqb (Js.toLowerCase st) (Js.toLowerCase (Filters.studyType f))
        | None => false
        end) filtered
  else filtered.

(** Citation minimum filter. *)
Definition citationFilter (f : Filters.t)
    (filtered : list Publication.t) : list Publication.t :=
  match Filters.citationMin f with
  | Some citationMin =>
      List.filter (fun pub =>
        Js.ge (Js.toNumber (Publication.citations pub)) citationMin) filtered
  | None => filtered
  end.

(** Journal filter. *)
Definition journalFilter `{Js.Host} (f : Filters.t)
    (filtered : list Publication.t) : list Publication.t :=
  if Js.truthy (Filters.journal f) then
    let journalTerm := Js.toLowerCase (Filters.journal f) in
    List.filter (fun pub => matchesText (Publication.journal pub) journalTerm) filtered
  else filtered.

(** The filtered list that [applyFilters] computes from
    [this.allPublications]. *)
Definition filterResults `{Js.Host} (searchTerm : string) (f : Filters.t)
    (allPublications : list Publication.t) : list Publication.t :=
  let filtered := allPublications in
  let filtered := searchFilter searchTerm filtered in
  let filtered := yearFilter f filtered in
  let filtered := quartileFilter f filtered in
  let filtered := studyTypeFilter f filtered in
  let filtered := citationFilter f filtered in
  let filtered := journalFilter f filtered in
  filtered.

Definition applyFilters `{Js.Host} (e : t) : t :=
  let filtered :=
    filterResults (currentSearchTerm e) (filters e) (allPublications e) in
  {| allPublications := allPublications e;
     filteredPublications := filtered;
     currentSearchTerm := currentSearchTerm e;
     filters := filters e;
     paginator := Paginator.updateData filtered (paginator e) |}.

(** [exportToCSV()]: the text built from [this.filteredPublications]. *)
Definition headers : list string :=
  ["Title"; "Authors"; "Year"; "Journal"; "Journal SJR Quartile";
   "Citations"; "Study Type"; "Takeaway"; "Abstract"; "DOI"; "Consensus Link"].

Definition textCell (text : option string) : Js.value :=
  match text with
  | Some s => Js.VStr s
  | None => Js.VUndefined
  end.

Definition numberCell (n : Js.numfield) : Js.value :=
  match n with
  | Js.NUndefined => Js.VUndefined
  | Js.NNull => Js.VNull
  | Js.NNum f => Js.VNum f
  end.

Definition rowOf (pub : Publication.t) : list Js.value :=
  [textCell (Publication.title pub);
   textCell (Publication.authors pub);
   numberCell (Publication.year pub);
   textCell (Publication.journal pub);
   textCell (Publication.sjr_quartile pub);
   numberCell (Publication.citations pub);
   textCell (Publication.study_type pub);
   textCell (Publication.takeaway pub);
   textCell (Publication.abstract pub);
   textCell (Publication.doi pub);
   textCell (Publication.consensus_link pub)].

(** [cell || '']: a falsy cell becomes the empty string. *)
Definition falsy (v : Js.value) : bool :=
  match v with
  | Js.VUndefined | Js.VNull => true
  | Js.VBool b => negb b
  | Js.VNum f => PrimFloat.eqb f 0 || negb (PrimFloat.eqb f f)
  | Js.VStr s => negb (Js.truthy s)
  | Js.VObject => false
  end.

Definition cell `{Js.Host} (v : Js.value) : string :=
  let str := if falsy v then EmptyString else Js.toString v in
  Csv.escape str.

Definition exportToCSV `{Js.Host} (e : t) : string :=
  let rows := List.map rowOf (filteredPublications e) in
  Js.join (Js.str Js.newline)
    (Js.join (Js.str Js.comma) headers ::
     List.map (fun row => Js.join (Js.str Js.comma) (List.map cell row)) rows).

(** What a cell is expected to read back as. *)
Definition cellText `{Js.Host} (v : Js.value) : string :=
  if falsy v then EmptyString else Js.toString v.

(** [resetFilters()]. *)
Definition resetFilters `{Js.Host} (e : t) : t :=
  applyFilters
    {| allPublications := allPublications e;
       filteredPublications := filteredPublications e;
       currentSearchTerm := EmptyString;
       filters := defaultFilters;
       paginator := paginator e |}.

(** A sample publication with the given year and study type. *)
Definition samplePublication (year : Js.numfield) (studyType : option string)
    : Publication.t :=
  {| Publication.title := Some "Absence seizures in GAERS";
     Publication.authors := Some "Depaulis A, Charpier S";
     Publication.year := year;
     Publication.journal := Some "Epilepsia";
     Publication.sjr_quartile := Some "1";
     Publication.citations := Js.NNum 0;
     Publication.study_type := studyType;
     Publication.takeaway := None;
     Publication.abstract := None;
     Publication.doi := Some "10.1000/example";
     Publication.consensus_link := None |}.

(** The criteria with the study type selection replaced. *)
Definition withStudyType (f : Filters.t) (studyType : string) : Filters.t :=
  {| Filters.yearMin := Filters.yearMin f; Filters.yearMax := Filters.yearMax f;
     Filters.quartile := Filters.quartile f; Filters.studyType := studyType;
     Filters.citationMin := Filters.citationMin f;
     Filters.journal := Filters.journal f |}.

(** The criteria with the year bounds replaced. *)
Definition withYears (f : Filters.t) (lo hi : option float) : Filters.t :=
  {| Filters.yearMin := lo; Filters.yearMax := hi;
     Filters.quartile := Filters.quartile f; Filters.studyType := Filters.studyType f;
     Filters.citationMin := Filters.citationMin f;
     Filters.journal := Filters.journal f |}.

End PublicationsEngine.

(** ** The enrichment converter: [parseFile] *)
Module Enrichment.

(** One parsed CSV row; the numeric columns are held as the numbers that
    [parseFloat] / [parseInt] returned.  The zScore cell is [None] when it
    is empty (the handler then parses the number 0). *)
Record row : Type := mkRow {
  ID : string;
  Description : string;
  GeneRatio : string;
  BgRatio : string;
  RichFactor : float;
  FoldEnrichment : float;
  zScore : option float;
  pvalue_col : float;
  p_adjust_col : float;
  qvalue_col : float;
  geneID : string;
  Count : float
}.

Record term : Type := mkTerm {
  id : string;
  description : string;
  gene_ratio : string;
  bg_ratio : string;
  rich_factor : float;
  fold_enrichment : float;
  z_score : float;
  pvalue : float;
  p_adjust : float;
  qvalue : float;
  gene_id : string;
  gene_count : float;
  category : string
}.

Definition toTerm (category : string) (r : row) : term :=
  {| id := ID r;
     description := Description r;
     gene_ratio := GeneRatio r;
     bg_ratio := BgRatio r;
     rich_factor := RichFactor r;
     fold_enrichment := FoldEnrichment r;
     z_score := match zScore r with Some z => z | None => 0%float end;
     pvalue := pvalue_col r;
     p_adjust := p_adjust_col r;
     qvalue := qvalue_col r;
     gene_id := geneID r;
     gene_count := Count r;
     category := category |}.

(** "Only include significant terms (p.adjust < 0.05)". *)
Definition significantTerm (t : term) : bool := Js.lt (p_adjust t) 0.05.

Definition handleData (terms : list term) (category : string) (r : row) : list term :=
  let t := toTerm category r in
  if Js.lt (p_adjust_col r) 0.05 then terms ++ [t] else terms.

(** The ['end'] handler: sort by p.adjust and take the top 50. *)
Definition byPAdjust (a b : term) : float := PrimFloat.sub (p_adjust a) (p_adjust b).

Definition parseFile (rows : list row) (category : string) : list term :=
  let terms := fold_left (fun terms r => handleData terms category r) rows [] in
  let terms := TableSorter.arraySort byPAdjust terms in
  Paginator.slice terms 0 50.

(** A row with the given adjusted p-value, for examples. *)
Definition sampleRow (ident : string) (pAdjust : float) : row :=
  {| ID := ident; Description := "synaptic signaling"; GeneRatio := "12/310";
     BgRatio := "410/17500"; RichFactor := 0.03; FoldEnrichment := 1.65;
     zScore := None; pvalue_col := 0.001; p_adjust_col := pAdjust;
     qvalue_col := 0.02; geneID := "Cacna1g/Scn1a"; Count := 12 |}.


End Enrichment.


(** ** [scripts/build-gene-database.js]: [buildMasterIndex] *)
Module GeneDatabase.

(** [toUpperCase] is the host's. *)
Class Upper : Type := toUpperCase : string -> string.

(** A gene of [rnaseq-degs.json] and of a [spatial-*-degs.json], as
    loaded (a number that was NaN is stored as null). *)
Module Rna.
Record gene : Type := mk {
  symbol : string;
  id : string;
  name : string;
  log2fc : Js.numfield;
  padj : Js.numfield;
  baseMean : Js.numfield;
  regulation : string;
  significant : bool
}.
End Rna.

Module Spatial.
Record gene : Type := mk {
  symbol : string;
  entrezId : string;
  name : string;
  logFC : Js.numfield;
  adj_p_val : Js.numfield;
  aveExpr : Js.numfield;
  regulation : string;
  significant : bool
}.
End Spatial.

(** The objects stored under [datasets.rnaseq] and [datasets.spatial_*]. *)
Module RnaStats.
Record t : Type := mk {
  log2fc : Js.numfield;
  padj : Js.numfield;
  baseMean : Js.numfield;
  regulation : string;
  significant : bool
}.
End RnaStats.

Module SpatialStats.
Record t : Type := mk {
  logFC : Js.numfield;
  adj_p_val : Js.numfield;
  aveExpr : Js.numfield;
  regulation : string;
  significant : bool
}.
End SpatialStats.

(** An entry of the index; a property that the script has not written is
    [None] (for [is_seizure_gene]: [false]). *)
Module Entry.
Record t : Type := mk {
  primary_symbol : string;
  ensembl_id : option string;
  entrez_id : option string;
  name : string;
  rnaseq : option RnaStats.t;
  spatial_p15 : option SpatialStats.t;
  spatial_p30 : option SpatialStats.t;
  is_seizure_gene : bool
}.
End Entry.

(** [geneMap]: a [Map] from key to entry, in insertion order. *)
Definition geneMap : Type := list (string * Entry.t).

Definition mapHas (m : geneMap) (key : string) : bool :=
  List.existsb (fun kv => String.eqb (fst kv) key) m.

(** [geneMap.get(key)] followed by assignments to the entry found. *)
Definition mapUpdate (m : geneMap) (key : string) (f : Entry.t -> Entry.t) : geneMap :=
  List.map (fun kv => if String.eqb (fst kv) key then (fst kv, f (snd kv)) else kv) m.

(** [geneMap.set(key, entry)]. *)
Definition mapSet (m : geneMap) (key : string) (entry : Entry.t) : geneMap :=
  if mapHas m key then mapUpdate m key (fun _ => entry) else m ++ [(key, entry)].

(** "Process RNA-seq data": one gene. *)
Definition rnaEntry (gene : Rna.gene) : Entry.t :=
  {| Entry.primary_symbol := Rna.symbol gene;
     Entry.ensembl_id := Some (Rna.id gene);
     Entry.entrez_id := None;
     Entry.name := Rna.name gene;
     Entry.rnaseq := None; Entry.spatial_p15 := None; Entry.spatial_p30 := None;
     Entry.is_seizure_gene := false |}.

Definition setRnaseq (gene : Rna.gene) (entry : Entry.t) : Entry.t :=
  {| Entry.primary_symbol := Entry.primary_symbol entry;
     Entry.ensembl_id := Entry.ensembl_id entry;
     Entry.entrez_id := Entry.entrez_id entry;
     Entry.name := Entry.name entry;
     Entry.rnaseq :=
       Some {| RnaStats.log2fc := Rna.log2fc gene; RnaStats.padj := Rna.padj gene;
               RnaStats.baseMean := Rna.baseMean gene;
               RnaStats.regulation := Rna.regulation gene;
               RnaStats.significant := Rna.significant gene |};
     Entry.spatial_p15 := Entry.spatial_p15 entry;
     Entry.spatial_p30 := Entry.spatial_p30 entry;
     Entry.is_seizure_gene := Entry.is_seizure_gene entry |}.

Definition stepRnaseq `{Upper} (m : geneMap) (gene : Rna.gene) : geneMap :=
  let key := toUpperCase (Rna.symbol gene) in
  let m := if negb (mapHas m key) then mapSet m key (rnaEntry gene) else m in
  mapUpdate m key (setRnaseq gene).

(** "Process Spatial P15 / P30 data": one gene. *)
Inductive timepoint : Type :=
| P15
| P30.

Definition spatialEntry (gene : Spatial.gene) : Entry.t :=
  {| Entry.primary_symbol := Spatial.symbol gene;
     Entry.ensembl_id := None;
     Entry.entrez_id := Some (Spatial.entrezId gene);
     Entry.name := Spatial.name gene;
     Entry.rnaseq := None; Entry.spatial_p15 := None; Entry.spatial_p30 := None;
     Entry.is_seizure_gene := false |}.

Definition spatialStats (gene : Spatial.gene) : SpatialStats.t :=
  {| SpatialStats.logFC := Spatial.logFC gene;
     SpatialStats.adj_p_val := Spatial.adj_p_val gene;
     SpatialStats.aveExpr := Spatial.aveExpr gene;
     SpatialStats.regulation := Spatial.regulation gene;
     SpatialStats.significant := Spatial.significant gene |}.

Definition setSpatial (at_ : timepoint) (gene : Spatial.gene) (entry : Entry.t) : Entry.t :=
  let noEntrez :=
    match Entry.entrez_id entry with
    | Some s => negb (Js.truthy s)
    | None => true
    end in
  let staleName :=
    negb (Js.truthy (Entry.name entry)) || String.prefix "ENS" (Entry.name entry) in
  {| Entry.primary_symbol := Entry.primary_symbol entry;
     Entry.ensembl_id := Entry.ensembl_id entry;
     Entry.entrez_id :=
       if noEntrez then Some (Spatial.entrezId gene) else Entry.entrez_id entry;
     Entry.name := if staleName then Spatial.name gene else Entry.name entry;
     Entry.rnaseq := Entry.rnaseq entry;
     Entry.spatial_p15 :=
       match at_ with P15 => Some (spatialStats gene) | P30 => Entry.spatial_p15 entry end;
     Entry.spatial_p30 :=
       match at_ with P30 => Some (spatialStats gene) | P15 => Entry.spatial_p30 entry end;
     Entry.is_seizure_gene := Entry.is_seizure_gene entry |}.

Definition stepSpatial `{Upper} (at_ : timepoint) (m : geneMap)
    (gene : Spatial.gene) : geneMap :=
  let key := toUpperCase (Spatial.symbol gene) in
  let m := if negb (mapHas m key) then mapSet m key (spatialEntry gene) else m in
  mapUpdate m key (setSpatial at_ gene).

(** "Mark seizure genes": one symbol. *)
Definition seizureEntry (gene : string) : Entry.t :=
  {| Entry.primary_symbol := gene;
     Entry.ensembl_id := None; Entry.entrez_id := None;
     Entry.name := EmptyString;
     Entry.rnaseq := None; Entry.spatial_p15 := None; Entry.spatial_p30 := None;
     Entry.is_seizure_gene := true |}.

Definition markSeizure (entry : Entry.t) : Entry.t :=
  {| Entry.primary_symbol := Entry.primary_symbol entry;
     Entry.ensembl_id := Entry.ensembl_id entry;
     Entry.entrez_id := Entry.entrez_id entry;
     Entry.name := Entry.name entry;
     Entry.rnaseq := Entry.rnaseq entry;
     Entry.spatial_p15 := Entry.spatial_p15 entry;
     Entry.spatial_p30 := Entry.spatial_p30 entry;
     Entry.is_seizure_gene := true |}.

Definition stepSeizure `{Upper} (m : geneMap) (gene : string) : geneMap :=
  let key := toUpperCase gene in
  if mapHas m key then mapUpdate m key markSeizure
  else mapSet m key (seizureEntry gene).

(** The map after the four passes; a data file that is missing
    ([loadJSON] gives null) is passed as [None] and skipped. *)
Definition fillMap `{Upper} (rnaseqData : option (list Rna.gene))
    (spatialP15Data spatialP30Data : option (list Spatial.gene))
    (seizureGenes : list string) : geneMap :=
  let m : geneMap := [] in
  let m :=
    match rnaseqData with
    | Some genes => fold_left stepRnaseq genes m
    | None => m
    end in
  let m :=
    match spatialP15Data with
    | Some genes => fold_left (stepSpatial P15) genes m
    | None => m
    end in
  let m :=
    match spatialP30Data with
    | Some genes => fold_left (stepSpatial P30) genes m
    | None => m
    end in
  fold_left stepSeizure seizureGenes m.

(** "Convert to array and sort": the genes of the index. *)
Definition bySymbol `{Js.Host} (a b : Entry.t) : float :=
  Js.localeCompare (Entry.primary_symbol a) (Entry.primary_symbol b).

Definition buildMasterIndex `{Upper} `{Js.Host}
    (rnaseqData : option (list Rna.gene))
    (spatialP15Data spatialP30Data : option (list Spatial.gene))
    (seizureGenes : list string) : list Entry.t :=
  let genesArray :=
    List.map snd (fillMap rnaseqData spatialP15Data spatialP30Data seizureGenes) in
  TableSorter.arraySort bySymbol genesArray.

(** The passes seen as one run of events. *)
Inductive event : Type :=
| ERna (gene : Rna.gene)
| ESpatial (at_ : timepoint) (gene : Spatial.gene)
| ESeizure (gene : string).

Definition step `{Upper} (m : geneMap) (ev : event) : geneMap :=
  match ev with
  | ERna gene => stepRnaseq m gene
  | ESpatial at_ gene => stepSpatial at_ m gene
  | ESeizure gene => stepSeizure m gene
  end.

Definition eventSymbol (ev : event) : string :=
  match ev with
  | ERna gene => Rna.symbol gene
  | ESpatial _ gene => Spatial.symbol gene
  | ESeizure gene => gene
  end.

Definition orNil {A : Type} (data : option (list A)) : list A :=
  match data with
  | Some l => l
  | None => []
  end.

Definition events (rnaseqData : option (list Rna.gene))
    (spatialP15Data spatialP30Data : option (list Spatial.gene))
    (seizureGenes : list string) : list event :=
  List.map ERna (orNil rnaseqData) ++
  List.map (ESpatial P15) (orNil spatialP15Data) ++
  List.map (ESpatial P30) (orNil spatialP30Data) ++
  List.map ESeizure seizureGenes.

(** The key under which an entry is filed. *)
Definition keyOf `{Upper} (entry : Entry.t) : string :=
  toUpperCase (Entry.primary_symbol entry).

(** What an event leaves on the entry it touches: the entry it creates
    when the key is new, and the change it applies. *)
Definition created (ev : event) : Entry.t :=
  match ev with
  | ERna gene => rnaEntry gene
  | ESpatial _ gene => spatialEntry gene
  | ESeizure gene => seizureEntry gene
  end.

Definition change (ev : event) : Entry.t -> Entry.t :=
  match ev with
  | ERna gene => setRnaseq gene
  | ESpatial at_ gene => setSpatial at_ gene
  | ESeizure _ => markSeizure
  end.

(** Sample inputs: the same gene under two spellings, and a seizure gene
    that is in no data file. *)
Definition sampleRnaGene : Rna.gene :=
  {| Rna.symbol := "Cacna1g"; Rna.id := "ENSRNOG00000002981";
     Rna.name := "calcium channel"; Rna.log2fc := Js.NNum 2;
     Rna.padj := Js.NNum 0.01; Rna.baseMean := Js.NNum 100;
     Rna.regulation := "up"; Rna.significant := true |}.

Definition sampleRna : list Rna.gene := [sampleRnaGene].

Definition sampleSpatial : list Spatial.gene :=
  [{| Spatial.symbol := "CACNA1G"; Spatial.entrezId := "29717";
      Spatial.name := "calcium channel"; Spatial.logFC := Js.NNum 1;
      Spatial.adj_p_val := Js.NNum 0.02; Spatial.aveExpr := Js.NNum 5;
      Spatial.regulation := "up"; Spatial.significant := true |}].

Definition asciiUpper : Upper :=
  Js.mapString (fun c =>
    let n := Ascii.nat_of_ascii c in
    if (Nat.leb 97 n && Nat.leb n 122)%bool then Ascii.ascii_of_nat (n - 32) else c).

(** The four marks an entry can carry, and the one an event leaves. *)
Inductive kind : Type :=
| KRna
| KP15
| KP30
| KSeizure.

Definition kindOf (ev : event) : kind :=
  match ev with
  | ERna _ => KRna
  | ESpatial P15 _ => KP15
  | ESpatial P30 _ => KP30
  | ESeizure _ => KSeizure
  end.

Definition isSome {A : Type} (o : option A) : bool :=
  match o with
  | Some _ => true
  | None => false
  end.

Definition marked (kd : kind) (entry : Entry.t) : bool :=
  match kd with
  | KRna => isSome (Entry.rnaseq entry)
  | KP15 => isSome (Entry.spatial_p15 entry)
  | KP30 => isSome (Entry.spatial_p30 entry)
  | KSeizure => Entry.is_seizure_gene entry
  end.

Definition sameKind (a b : kind) : bool :=
  match a, b with
  | KRna, KRna | KP15, KP15 | KP30, KP30 | KSeizure, KSeizure => true
  | _, _ => false
  end.

(** What holds of the map after a run of events. *)
Definition invariant `{Upper} (evs : list event) (m : geneMap) : Prop :=
  NoDup (List.map fst m) /\
  (forall k e, In (k, e) m ->
     k = keyOf e /\
     forall kd, marked kd e = true <->
       exists ev, In ev evs /\ kindOf ev = kd /\ toUpperCase (eventSymbol ev) = k) /\
  (forall ev, In ev evs -> exists e, In (toUpperCase (eventSymbol ev), e) m).

(** An entry as the browser finds it in [gene-master-index.json]: the
    document has the properties the script wrote, under the names it
    wrote them.  The script writes [primary_symbol], [ensembl_id],
    [entrez_id], [name], [datasets] and [is_seizure_gene]; it writes no
    [symbol] and no [seizure_gene], and [normalizeGeneData] reads neither
    [entrez_id] nor [is_seizure_gene]. *)
Definition asRna (s : RnaStats.t) : GeneSearchEngine.RawRna.t :=
  {| GeneSearchEngine.RawRna.log2fc := RnaStats.log2fc s;
     GeneSearchEngine.RawRna.padj := RnaStats.padj s;
     GeneSearchEngine.RawRna.baseMean := RnaStats.baseMean s;
     GeneSearchEngine.RawRna.regulation := Some (RnaStats.regulation s);
     GeneSearchEngine.RawRna.significant := RnaStats.significant s |}.

Definition asSpatial (s : SpatialStats.t) : GeneSearchEngine.RawSpatial.t :=
  {| GeneSearchEngine.RawSpatial.logFC := SpatialStats.logFC s;
     GeneSearchEngine.RawSpatial.adj_p_val := SpatialStats.adj_p_val s;
     GeneSearchEngine.RawSpatial.aveExpr := SpatialStats.aveExpr s;
     GeneSearchEngine.RawSpatial.regulation := Some (SpatialStats.regulation s);
     GeneSearchEngine.RawSpatial.significant := SpatialStats.significant s |}.

Definition asDocument (entry : Entry.t) : GeneSearchEngine.RawGene.t :=
  {| GeneSearchEngine.RawGene.primary_symbol := Some (Entry.primary_symbol entry);
     GeneSearchEngine.RawGene.symbol := None;
     GeneSearchEngine.RawGene.name := Some (Entry.name entry);
     GeneSearchEngine.RawGene.ensembl_id := Entry.ensembl_id entry;
     GeneSearchEngine.RawGene.datasets :=
       Some {| GeneSearchEngine.RawDatasets.rnaseq := option_map asRna (Entry.rnaseq entry);
               GeneSearchEngine.RawDatasets.spatial_p15 :=
                 option_map asSpatial (Entry.spatial_p15 entry);
               GeneSearchEngine.RawDatasets.spatial_p30 :=
                 option_map asSpatial (Entry.spatial_p30 entry) |};
     GeneSearchEngine.RawGene.seizure_gene := None |}.

(** The genes the search page holds after loading the built index. *)
Definition loadedGenes (index : list Entry.t) : list GeneSearchEngine.Gene.t :=
  List.map (fun e => GeneSearchEngine.normalizeGeneData (asDocument e)) index.

End GeneDatabase.


(** ** [scripts/convert-publications-csv.js] *)
Module PublicationsCsv.

(** Texts are sequences of code units below 256, so the byte-order-mark
    test at the head of [parseCSV] (code unit 0xFEFF) is never met and the
    text is scanned from its first character. *)

(** The white space and line terminators that [String.prototype.trim]
    strips, among the code units below 256: TAB, LF, VT, FF, CR, space and
    the no-break space. *)
Definition isSpace (c : ascii) : bool :=
  let n := Ascii.nat_of_ascii c in
  (Nat.leb 9 n && Nat.leb n 13) || Nat.eqb n 32 || Nat.eqb n 160.

Fixpoint trimStart (s : string) : string :=
  match s with
  | EmptyString => EmptyString
  | String c rest => if isSpace c then trimStart rest else s
  end.

Fixpoint trimEnd (s : string) : string :=
  match s with
  | EmptyString => EmptyString
  | String c rest =>
      match trimEnd rest with
      | EmptyString => if isSpace c then EmptyString else String c EmptyString
      | kept => String c kept
      end
  end.

Definition trim (s : string) : string := trimEnd (trimStart s).

Record state : Type := mk {
  lines : list (list string);
  currentField : string;
  currentRecord : list string;
  insideQuotes : bool
}.

Definition init : state :=
  {| lines := []; currentField := EmptyString; currentRecord := [];
     insideQuotes := false |}.

(** [currentField += char]. *)
Definition addChar (c : ascii) (st : state) : state :=
  {| lines := lines st; currentField := currentField st +:+ Js.str c;
     currentRecord := currentRecord st; insideQuotes := insideQuotes st |}.

(** Toggle quote state. *)
Definition toggle (st : state) : state :=
  {| lines := lines st; currentField := currentField st;
     currentRecord := currentRecord st; insideQuotes := negb (insideQuotes st) |}.

(** End of field. *)
Definition endField (st : state) : state :=
  {| lines := lines st; currentField := EmptyString;
     currentRecord := currentRecord st ++ [trim (currentField st)];
     insideQuotes := insideQuotes st |}.

(** [f => f.length > 0]. *)
Definition filled (f : string) : bool := Nat.ltb 0 (String.length f).

(** [currentField || currentRecord.length > 0]. *)
Definition pending (st : state) : bool :=
  Js.truthy (currentField st) || Nat.ltb 0 (length (currentRecord st)).

(** The record is closed with the trimmed field and kept when one of its
    fields is not empty. *)
Definition pushRecord (st : state) : state :=
  let closed := currentRecord st ++ [trim (currentField st)] in
  {| lines := if Js.some filled closed then lines st ++ [closed] else lines st;
     currentField := currentField st;
     currentRecord := closed;
     insideQuotes := insideQuotes st |}.

(** End of record, inside the loop. *)
Definition endRecord (st : state) : state :=
  if pending st
  then {| lines := lines (pushRecord st); currentField := EmptyString;
          currentRecord := []; insideQuotes := insideQuotes st |}
  else st.

(** Handle last record, after the loop. *)
Definition lastRecord (st : state) : state :=
  if pending st then pushRecord st else st.

(** The [while] loop; a step that moves [i] by two continues with the
    text after the next character. *)
Fixpoint scan (csvText : string) (st : state) : state :=
  match csvText with
  | EmptyString => st
  | String char rest =>
      if Ascii.eqb char Js.dquote then
        match rest with
        | String nextChar rest' =>
            if insideQuotes st && Ascii.eqb nextChar Js.dquote
            then scan rest' (addChar Js.dquote st)
            else scan rest (toggle st)
        | EmptyString => scan rest (toggle st)
        end
      else if negb (insideQuotes st) && Ascii.eqb char Js.comma then
        scan rest (endField st)
      else if negb (insideQuotes st) &&
              (Ascii.eqb char Js.newline || Ascii.eqb char Js.creturn) then
        match rest with
        | String nextChar rest' =>
            if Ascii.eqb char Js.creturn && Ascii.eqb nextChar Js.newline
            then scan rest' (endRecord st)
            else scan rest (endRecord st)
        | EmptyString => scan rest (endRecord st)
        end
      else scan rest (addChar char st)
  end.

Definition parseCSV (csvText : string) : list (list string) :=
  lines (lastRecord (scan csvText init)).

(** The test of [convertCSVToJSON] under "Skip empty rows":
    [row.every(field => !field || field.trim() === '')]. *)
Definition isEmptyRow (row : list string) : bool :=
  forallb (fun field => negb (Js.truthy field) || String.eqb (trim field) EmptyString) row.

(** A record that [parseCSV] may keep. *)
Definition kept (record : list string) : Prop :=
  Js.some filled record = true /\ Forall (fun f => trim f = f) record.

(** The table read back from an export: every cell trimmed, and the rows
    without a filled cell left out. *)
Definition readBack (table : list (list string)) : list (list string) :=
  List.filter (Js.some filled) (List.map (List.map trim) table).

(** The text does not open with white space. *)
Definition headOk (s : string) : Prop :=
  match s with
  | EmptyString => True
  | String c _ => isSpace c = false
  end.

(** What holds of the reader's state all along: the records kept so far
    have a filled field, and every closed field is trimmed. *)
Definition tidy (st : state) : Prop :=
  Forall kept (lines st) /\ Forall (fun f => trim f = f) (currentRecord st).

(** The text opens with a double quote. *)
Definition opensWithQuote (s : string) : bool :=
  match s with
  | EmptyString => false
  | String c _ => Ascii.eqb c Js.dquote
  end.

(** The reader between two fields of the record [record], the text
    [field] read so far. *)
Definition reading (kept : list (list string)) (field : string)
    (record : list string) : state :=
  {| lines := kept; currentField := field; currentRecord := record;
     insideQuotes := false |}.

(** [parseInt] is the host's; it is applied to the text of its argument,
    the word undefined for a field that the row does not have. *)
Class IntParser : Type := parseInt : string -> float.

Record publication : Type := mkPublication {
  id : nat;
  title : string;
  takeaway : string;
  authors : string;
  year : Js.numfield;
  citations : float;
  abstract : string;
  study_type : string;
  journal : string;
  sjr_quartile : string;
  doi : string;
  consensus_link : string
}.

(** [row[k] || '']. *)
Definition textAt (row : list string) (k : nat) : string :=
  match nth_error row k with
  | Some s => s
  | None => EmptyString
  end.

Definition intAt `{IntParser} (row : list string) (k : nat) : float :=
  parseInt (match nth_error row k with
            | Some s => s
            | None => "undefined"
            end).

(** The numbers that count as false: zero and [NaN]. *)
Definition falsyNumber (f : float) : bool :=
  PrimFloat.eqb f 0 || negb (PrimFloat.eqb f f).

Definition toPublication `{IntParser} (i : nat) (row : list string) : publication :=
  {| id := i;
     title := textAt row 0;
     takeaway := textAt row 1;
     authors := textAt row 2;
     year := if falsyNumber (intAt row 3) then Js.NNull else Js.NNum (intAt row 3);
     citations := if falsyNumber (intAt row 4) then 0%float else intAt row 4;
     abstract := textAt row 5;
     study_type := textAt row 6;
     journal := textAt row 7;
     sjr_quartile := textAt row 8;
     doi := textAt row 9;
     consensus_link := textAt row 10 |}.

(** The loop over the data rows, [i] being the index of the first of
    [rows]. *)
Fixpoint convertRows `{IntParser} (i : nat) (rows : list (list string))
    : list publication :=
  match rows with
  | [] => []
  | row :: rest =>
      if isEmptyRow row
      then convertRows (S i) rest
      else toPublication i row :: convertRows (S i) rest
  end.

(** [generateStatistics]: the totals kept here are the citation total and
    the counts by year and by quartile. *)
Record quartiles : Type := mkQuartiles {
  Q1 : nat;
  Q2 : nat;
  Q3 : nat;
  Q4 : nat;
  Unranked : nat
}.

Record statistics : Type := mkStatistics {
  total_citations : float;
  by_year : list (string * nat);
  by_quartile : quartiles
}.

(** [pub.year || 'Unknown'], as a property name. *)
Definition yearKey `{Js.Host} (pub : publication) : string :=
  match year pub with
  | Js.NNum y => if falsyNumber y then "Unknown" else Js.numberToString y
  | _ => "Unknown"
  end.

(** [counts[key] = (counts[key] || 0) + 1]. *)
Fixpoint bump (counts : list (string * nat)) (key : string) : list (string * nat) :=
  match counts with
  | [] => [(key, 1%nat)]
  | (k, n) :: rest =>
      if String.eqb k key then (k, S n) :: rest else (k, n) :: bump rest key
  end.

Definition countQuartile (q : quartiles) (quartile : string) : quartiles :=
  if String.eqb quartile "1" then
    {| Q1 := S (Q1 q); Q2 := Q2 q; Q3 := Q3 q; Q4 := Q4 q; Unranked := Unranked q |}
  else if String.eqb quartile "2" then
    {| Q1 := Q1 q; Q2 := S (Q2 q); Q3 := Q3 q; Q4 := Q4 q; Unranked := Unranked q |}
  else if String.eqb quartile "3" then
    {| Q1 := Q1 q; Q2 := Q2 q; Q3 := S (Q3 q); Q4 := Q4 q; Unranked := Unranked q |}
  else if String.eqb quartile "4" then
    {| Q1 := Q1 q; Q2 := Q2 q; Q3 := Q3 q; Q4 := S (Q4 q); Unranked := Unranked q |}
  else
    {| Q1 := Q1 q; Q2 := Q2 q; Q3 := Q3 q; Q4 := Q4 q; Unranked := S (Unranked q) |}.

Definition visit `{Js.Host} (stats : statistics) (pub : publication) : statistics :=
  {| total_citations :=
       PrimFloat.add (total_citations stats)
         (if falsyNumber (citations pub) then 0%float else citations pub);
     by_year := bump (by_year stats) (yearKey pub);
     by_quartile := countQuartile (by_quartile stats) (sjr_quartile pub) |}.

Definition noStatistics : statistics :=
  {| total_citations := 0%float; by_year := [];
     by_quartile := {| Q1 := 0; Q2 := 0; Q3 := 0; Q4 := 0; Unranked := 0 |} |}.

Definition generateStatistics `{Js.Host} (publications : list publication) : statistics :=
  fold_left visit publications noStatistics.

(** [convertCSVToJSON]: the publications and their statistics; [None] when
    it throws (no data found in the file). *)
Definition convertCSVToJSON `{Js.Host} `{IntParser} (csvText : string)
    : option (list publication * statistics) :=
  match parseCSV csvText with
  | [] => None
  | headers :: dataRows =>
      let publications := convertRows 1 dataRows in
      Some (publications, generateStatistics publications)
  end.

(** How many publications have the quartile text [q]. *)
Definition withQuartile (q : string) (publications : list publication) : nat :=
  length (List.filter (fun pub => String.eqb (sjr_quartile pub) q) publications).

(** The sum of the counts of a table. *)
Definition countSum (counts : list (string * nat)) : nat :=
  list_sum (List.map snd counts).

(** A parser for examples: the digits 0 to 9 alone, and [NaN] otherwise. *)
Definition digitParser : IntParser :=
  fun s =>
    match s with
    | String c EmptyString =>
        let n := Ascii.nat_of_ascii c in
        if (Nat.leb 48 n && Nat.leb n 57)%bool
        then PrimFloat.of_uint63 (Uint63.of_Z (Z.of_nat (n - 48)))
        else nan
    | _ => nan
    end.

(** The rows taken one by one, numbered from [i]. *)
Definition numbered `{IntParser} (i : nat) (rows : list (list string))
    : list publication :=
  List.map (fun entry => toPublication (fst entry) (snd entry))
           (combine (seq i (length rows)) rows).

End PublicationsCsv.


(** ** [scripts/build-gene-database.js]: [loadSeizureGenes] *)
Module SeizureList.

(** [s.split(c)] for a one-character separator. *)
Fixpoint split (c : ascii) (s : string) : list string :=
  match s with
  | EmptyString => [EmptyString]
  | String a rest =>
      if Ascii.eqb a c then EmptyString :: split c rest
      else match split c rest with
           | first :: others => String a first :: others
           | [] => [String a EmptyString]
           end
  end.

(** [line => line.trim()] as a test: the line is not blank. *)
Definition notBlank (line : string) : bool := Js.truthy (PublicationsCsv.trim line).

(** The genes read from the text of the seizure gene file; [None] stands
    for a file that does not exist. *)
Definition loadSeizureGenes (file : option string) : list string :=
  match file with
  | None => []
  | Some content =>
      let lines := List.filter notBlank (split Js.newline content) in
      (* Skip header line: [lines.slice(1)] runs to the end of the array. *)
      let named := Paginator.slice lines 1 (Z.of_nat (length lines)) in
      List.filter Js.truthy (List.map PublicationsCsv.trim named)
  end.

End SeizureList.


(** ** Arrays shared between the engines, the paginator and the sorter *)

(** A JavaScript array is an object: the engine, its paginator and its
    sorter hold references to arrays, and [Array.prototype.sort] changes
    the array it is called on for every holder.  The store maps a
    reference to the array's present elements. *)
Module Heap.

Definition ref : Type := nat.

Definition t (A : Type) : Type := list (list A).

(** A new array ([[...arr]], [arr.filter(...)], [arr.map(...)]). *)
Definition alloc {A : Type} (arr : list A) (h : t A) : ref * t A :=
  (length h, h ++ [arr]).

Definition read {A : Type} (h : list (list A)) (r : nat) : list A :=
  match h !! r with
  | Some arr => arr
  | None => []
  end.

(** The array behind [r] changed in place. *)
Definition write {A : Type} (r : nat) (arr : list A) (h : list (list A)) : t A :=
  <[r := arr]> h.

End Heap.

(** [this.data.sort((a, b) => ...)] of [TableSorter.sort], on an array of
    records of any kind; [view] gives a record's properties as the
    comparison function reads them. *)
Module SorterOnArray.

Definition sortInPlace `{Js.Host} {A : Type} (view : A -> Js.object)
    (column type : string) (dir : TableSorter.direction) (arr : list A) : list A :=
  let type' := TableSorter.inferType type column (List.map view arr) in
  TableSorter.arraySort
    (fun a b => TableSorter.comparator column type' dir (view a) (view b)) arr.

(** The sorter's own fields, its data being a reference. *)
Record t : Type := mk {
  data : Heap.ref;
  sortColumn : option string;
  sortDirection : TableSorter.direction
}.

Definition new (data : Heap.ref) : t :=
  {| data := data; sortColumn := None; sortDirection := TableSorter.Asc |}.

(** [nextDirection] reads the column and the direction only. *)
Definition nextDirection (column : string) (s : t) : TableSorter.direction :=
  TableSorter.nextDirection column
    {| TableSorter.data := []; TableSorter.sortColumn := sortColumn s;
       TableSorter.sortDirection := sortDirection s |}.

(** [sort(column, type)] up to the render callback: the array behind
    [this.data] is sorted in place. *)
Definition sort `{Js.Host} {A : Type} (view : A -> Js.object)
    (column type : string) (s : t) (h : Heap.t A) : t * Heap.t A :=
  let dir := nextDirection column s in
  ({| data := data s; sortColumn := Some column; sortDirection := dir |},
   Heap.write (data s) (sortInPlace view column type dir (Heap.read h (data s))) h).

Definition opposite (dir : TableSorter.direction) : TableSorter.direction :=
  match dir with
  | TableSorter.Asc => TableSorter.Desc
  | TableSorter.Desc => TableSorter.Asc
  end.

End SorterOnArray.

(** The paginator's own fields, its data being a reference. *)
Module PagerOnArray.

Record t : Type := mk {
  allData : Heap.ref;
  itemsPerPage : Paginator.pageSize;
  currentPage : Paginator.pageNumber
}.

Definition new (data : Heap.ref) (itemsPerPage : Paginator.pageSize) : t :=
  {| allData := data; itemsPerPage := itemsPerPage; currentPage := 1 |}.

(** The paginator with the elements of its array. *)
Definition withData {A : Type} (h : Heap.t A) (p : t) : Paginator.t A :=
  {| Paginator.allData := Heap.read h (allData p);
     Paginator.itemsPerPage := itemsPerPage p;
     Paginator.currentPage := currentPage p |}.

Definition updateData (data : Heap.ref) (p : t) : t :=
  {| allData := data; itemsPerPage := itemsPerPage p; currentPage := 1 |}.

(** The controls of the page: they leave the paginator's array alone. *)
Inductive control : Type :=
| GoToPage (page : Paginator.pageNumber)
| NextPage
| PrevPage
| ChangeItemsPerPage (n : Paginator.pageSize).

Definition move {A : Type} (h : Heap.t A) (c : control) (p : t) : t :=
  let moved :=
    match c with
    | GoToPage page => Paginator.goToPage page (withData h p)
    | NextPage => Paginator.nextPage (withData h p)
    | PrevPage => Paginator.prevPage (withData h p)
    | ChangeItemsPerPage n => Paginator.changeItemsPerPage n (withData h p)
    end in
  {| allData := allData p;
     itemsPerPage := Paginator.itemsPerPage moved;
     currentPage := Paginator.currentPage moved |}.

(** [getCurrentPageData()]. *)
Definition shown {A : Type} (h : Heap.t A) (p : t) : list A :=
  Paginator.getCurrentPageData (withData h p).

End PagerOnArray.

(** ** The gene search page as a run of events *)
Module GenePage.
Import GeneSearchEngine.

Record t : Type := mk {
  heap : Heap.t Gene.t;
  allGenes : Heap.ref;
  filteredGenes : Heap.ref;
  currentSearchTerm : string;
  filters : Filters.t;
  paginator : PagerOnArray.t;
  sorter : SorterOnArray.t
}.

(** [initialize()] once the document is loaded: [allGenes] is the mapped
    array, [filteredGenes] a copy of it that the paginator and the sorter
    are given. *)
Definition initialize (genes : list RawGene.t) : t :=
  let '(allGenes, h) := Heap.alloc (List.map normalizeGeneData genes) [] in
  let '(filteredGenes, h) := Heap.alloc (Heap.read h allGenes) h in
  {| heap := h; allGenes := allGenes; filteredGenes := filteredGenes;
     currentSearchTerm := EmptyString; filters := defaultFilters;
     paginator := PagerOnArray.new filteredGenes (Paginator.Size 25);
     sorter := SorterOnArray.new filteredGenes |}.

(** [applyFilters()]: the results are a new array, which becomes
    [filteredGenes], the paginator's data and the sorter's data. *)
Definition applyFilters `{Js.Host} (s : t) : t :=
  let '(results, h) :=
    Heap.alloc (filterResults (currentSearchTerm s) (filters s)
                  (Heap.read (heap s) (allGenes s))) (heap s) in
  {| heap := h; allGenes := allGenes s; filteredGenes := results;
     currentSearchTerm := currentSearchTerm s; filters := filters s;
     paginator := PagerOnArray.updateData results (paginator s);
     sorter := {| SorterOnArray.data := results;
                  SorterOnArray.sortColumn := SorterOnArray.sortColumn (sorter s);
                  SorterOnArray.sortDirection := SorterOnArray.sortDirection (sorter s) |} |}.

Definition withTerm (term : string) (s : t) : t :=
  {| heap := heap s; allGenes := allGenes s; filteredGenes := filteredGenes s;
     currentSearchTerm := term; filters := filters s;
     paginator := paginator s; sorter := sorter s |}.

Definition withFilters (f : Filters.t) (s : t) : t :=
  {| heap := heap s; allGenes := allGenes s; filteredGenes := filteredGenes s;
     currentSearchTerm := currentSearchTerm s; filters := f;
     paginator := paginator s; sorter := sorter s |}.

(** [this.filters.datasets[dataset] = checked]. *)
Definition setDataset (ds : datasetKey) (checked : bool) (d : Datasets.t) : Datasets.t :=
  match ds with
  | KBulkRnaseq =>
      {| Datasets.bulk_rnaseq := checked; Datasets.spatial_p15 := Datasets.spatial_p15 d;
         Datasets.spatial_p30 := Datasets.spatial_p30 d;
         Datasets.seizure_gene := Datasets.seizure_gene d |}
  | KSpatialP15 =>
      {| Datasets.bulk_rnaseq := Datasets.bulk_rnaseq d; Datasets.spatial_p15 := checked;
         Datasets.spatial_p30 := Datasets.spatial_p30 d;
         Datasets.seizure_gene := Datasets.seizure_gene d |}
  | KSpatialP30 =>
      {| Datasets.bulk_rnaseq := Datasets.bulk_rnaseq d;
         Datasets.spatial_p15 := Datasets.spatial_p15 d; Datasets.spatial_p30 := checked;
         Datasets.seizure_gene := Datasets.seizure_gene d |}
  | KSeizureGene =>
      {| Datasets.bulk_rnaseq := Datasets.bulk_rnaseq d;
         Datasets.spatial_p15 := Datasets.spatial_p15 d;
         Datasets.spatial_p30 := Datasets.spatial_p30 d; Datasets.seizure_gene := checked |}
  end.

(** [isNaN(value)]. *)
Definition isNaN (value : float) : bool := negb (PrimFloat.eqb value value).

(** The handlers bound by [bindEventHandlers], the sortable headers and
    the pagination controls; an input event carries the text of the
    input. *)
Inductive event : Type :=
| SearchInput (value : string)
| ClearSearch
| RegulationChange (value : string)
| DatasetChange (ds : datasetKey) (checked : bool)
| PvalueInput (value : string)
| Log2fcMinInput (value : string)
| Log2fcMaxInput (value : string)
| ResetFilters
| HeaderClick (column type : string)
| Pagination (c : PagerOnArray.control).

(** The criteria that a handler stores before it calls [applyFilters]. *)
Definition stored `{Js.Host} (ev : event) (s : t) : t :=
  let f := filters s in
  match ev with
  | SearchInput value => withTerm (PublicationsCsv.trim value) s
  | ClearSearch => withTerm EmptyString s
  | RegulationChange value =>
      withFilters
        {| Filters.regulation := value; Filters.datasets := Filters.datasets f;
           Filters.pvalueThreshold := Filters.pvalueThreshold f;
           Filters.log2fcMin := Filters.log2fcMin f;
           Filters.log2fcMax := Filters.log2fcMax f |} s
  | DatasetChange ds checked =>
      withFilters
        {| Filters.regulation := Filters.regulation f;
           Filters.datasets := setDataset ds checked (Filters.datasets f);
           Filters.pvalueThreshold := Filters.pvalueThreshold f;
           Filters.log2fcMin := Filters.log2fcMin f;
           Filters.log2fcMax := Filters.log2fcMax f |} s
  | PvalueInput value =>
      let parsed := Js.parseFloatString value in
      withFilters
        {| Filters.regulation := Filters.regulation f;
           Filters.datasets := Filters.datasets f;
           Filters.pvalueThreshold := if isNaN parsed then 1.0%float else parsed;
           Filters.log2fcMin := Filters.log2fcMin f;
           Filters.log2fcMax := Filters.log2fcMax f |} s
  | Log2fcMinInput value =>
      let parsed := Js.parseFloatString value in
      withFilters
        {| Filters.regulation := Filters.regulation f;
           Filters.datasets := Filters.datasets f;
           Filters.pvalueThreshold := Filters.pvalueThreshold f;
           Filters.log2fcMin := if isNaN parsed then None else Some parsed;
           Filters.log2fcMax := Filters.log2fcMax f |} s
  | Log2fcMaxInput value =>
      let parsed := Js.parseFloatString value in
      withFilters
        {| Filters.regulation := Filters.regulation f;
           Filters.datasets := Filters.datasets f;
           Filters.pvalueThreshold := Filters.pvalueThreshold f;
           Filters.log2fcMin := Filters.log2fcMin f;
           Filters.log2fcMax := if isNaN parsed then None else Some parsed |} s
  | ResetFilters => withFilters defaultFilters (withTerm EmptyString s)
  | HeaderClick _ _ | Pagination _ => s
  end.

(** A click on a sortable header: the sorter sorts its array and its
    callback hands the array to the paginator. *)
Definition headerClick `{Js.Host} (view : Gene.t -> Js.object)
    (column type : string) (s : t) : t :=
  let '(sorter', h) := SorterOnArray.sort view column type (sorter s) (heap s) in
  {| heap := h; allGenes := allGenes s; filteredGenes := filteredGenes s;
     currentSearchTerm := currentSearchTerm s; filters := filters s;
     paginator := PagerOnArray.updateData (SorterOnArray.data sorter') (paginator s);
     sorter := sorter' |}.

Definition step `{Js.Host} (view : Gene.t -> Js.object) (s : t) (ev : event) : t :=
  match ev with
  | HeaderClick column type => headerClick view column type s
  | Pagination c =>
      {| heap := heap s; allGenes := allGenes s; filteredGenes := filteredGenes s;
         currentSearchTerm := currentSearchTerm s; filters := filters s;
         paginator := PagerOnArray.move (heap s) c (paginator s);
         sorter := sorter s |}
  | _ => applyFilters (stored ev s)
  end.

Definition run `{Js.Host} (view : Gene.t -> Js.object) (genes : list RawGene.t)
    (events : list event) : t :=
  fold_left (step view) events (initialize genes).

(** The rows that the table can show, and those that [exportResults]
    writes: the elements of [filteredGenes]. *)
Definition results (s : t) : list Gene.t := Heap.read (heap s) (filteredGenes s).

(** The properties of a gene for examples: its symbol. *)
Definition symbolOnly (g : Gene.t) : Js.object := [("symbol", Js.VStr (Gene.symbol g))].

(** What holds of the page after every event. *)
Definition invariant `{Js.Host} (genes : list RawGene.t) (s : t) : Prop :=
  (allGenes s < filteredGenes s)%nat /\
  (filteredGenes s < length (heap s))%nat /\
  SorterOnArray.data (sorter s) = filteredGenes s /\
  PagerOnArray.allData (paginator s) = filteredGenes s /\
  Heap.read (heap s) (allGenes s) = List.map normalizeGeneData genes /\
  results s ≡ₚ filterResults (currentSearchTerm s) (filters s)
                 (List.map normalizeGeneData genes).

(** Two genes of a document, for examples. *)
Definition sampleGenes : list RawGene.t :=
  [{| RawGene.primary_symbol := Some "Scn1a"; RawGene.symbol := None;
      RawGene.name := Some "sodium channel"; RawGene.ensembl_id := None;
      RawGene.datasets := None; RawGene.seizure_gene := Some true |};
   {| RawGene.primary_symbol := Some "Cacna1g"; RawGene.symbol := None;
      RawGene.name := Some "calcium channel"; RawGene.ensembl_id := None;
      RawGene.datasets := None; RawGene.seizure_gene := None |}].

(** The event is a click on a sortable header. *)
Definition isHeaderClick (ev : event) : bool :=
  match ev with
  | HeaderClick _ _ => true
  | _ => false
  end.

End GenePage.


(** ** [gene-search.js]: [exportResults] *)
Module GeneExport.
Import GeneSearchEngine.

Definition textValue (text : option string) : Js.value :=
  match text with
  | Some s => Js.VStr s
  | None => Js.VUndefined
  end.

Definition numberValue (n : Js.numfield) : Js.value :=
  match n with
  | Js.NUndefined => Js.VUndefined
  | Js.NNull => Js.VNull
  | Js.NNum f => Js.VNum f
  end.

(** The three properties added for a dataset that the gene has. *)
Definition datasetCells (regulation log2fc adjPval : string)
    (obs : option Observation.t) : Js.object :=
  match obs with
  | Some o =>
      [(regulation, textValue (Observation.regulation o));
       (log2fc, numberValue (Observation.log2fc o));
       (adjPval, numberValue (Observation.adj_p_val o))]
  | None => []
  end.

(** One object of [exportData].  A normalized gene has no chromosome, so
    [gene.chromosome || ''] is the empty string. *)
Definition exportRow (gene : Gene.t) : Js.object :=
  [("symbol", Js.VStr (Gene.symbol gene));
   ("name", Js.VStr (Gene.name gene));
   ("ensembl_id", Js.VStr (Gene.ensembl_id gene));
   ("chromosome", Js.VStr EmptyString);
   ("seizure_gene", Js.VStr (if Gene.seizure_gene gene then "Yes" else "No"))]
  ++ datasetCells "bulk_regulation" "bulk_log2fc" "bulk_adj_pval" (Gene.bulk_rnaseq gene)
  ++ datasetCells "p15_regulation" "p15_log2fc" "p15_adj_pval" (Gene.spatial_p15 gene)
  ++ datasetCells "p30_regulation" "p30_log2fc" "p30_adj_pval" (Gene.spatial_p30 gene).

Definition columns : list Csv.column :=
  [{| Csv.key := "symbol"; Csv.header := "Gene Symbol" |};
   {| Csv.key := "name"; Csv.header := "Gene Name" |};
   {| Csv.key := "ensembl_id"; Csv.header := "Ensembl ID" |};
   {| Csv.key := "chromosome"; Csv.header := "Chromosome" |};
   {| Csv.key := "seizure_gene"; Csv.header := "Seizure Gene" |};
   {| Csv.key := "bulk_regulation"; Csv.header := "Bulk Regulation" |};
   {| Csv.key := "bulk_log2fc"; Csv.header := "Bulk Log2FC" |};
   {| Csv.key := "bulk_adj_pval"; Csv.header := "Bulk Adj.P" |};
   {| Csv.key := "p15_regulation"; Csv.header := "P15 Regulation" |};
   {| Csv.key := "p15_log2fc"; Csv.header := "P15 Log2FC" |};
   {| Csv.key := "p15_adj_pval"; Csv.header := "P15 Adj.P" |};
   {| Csv.key := "p30_regulation"; Csv.header := "P30 Regulation" |};
   {| Csv.key := "p30_log2fc"; Csv.header := "P30 Log2FC" |};
   {| Csv.key := "p30_adj_pval"; Csv.header := "P30 Adj.P" |}].

(** [exportResults()]: the text handed to the download, [None] when there
    are no results to export. *)
Definition exportResults `{Js.Host} (filteredGenes : list Gene.t) : option string :=
  match filteredGenes with
  | [] => None
  | _ :: _ => Csv.exportToCSV (List.map exportRow filteredGenes) (Some columns)
  end.

(** The texts of the three cells of a dataset, and of a gene's row. *)
Definition datasetTexts `{Js.Host} (obs : option Observation.t) : list string :=
  match obs with
  | Some o =>
      [Csv.cellText (textValue (Observation.regulation o));
       Csv.cellText (numberValue (Observation.log2fc o));
       Csv.cellText (numberValue (Observation.adj_p_val o))]
  | None => [EmptyString; EmptyString; EmptyString]
  end.

Definition rowTexts `{Js.Host} (gene : Gene.t) : list string :=
  [Gene.symbol gene; Gene.name gene; Gene.ensembl_id gene; EmptyString;
   if Gene.seizure_gene gene then "Yes" else "No"]
  ++ datasetTexts (Gene.bulk_rnaseq gene)
  ++ datasetTexts (Gene.spatial_p15 gene)
  ++ datasetTexts (Gene.spatial_p30 gene).

End GeneExport.

(** ** The publications page as a run of events *)
Module PublicationsPage.
Import PublicationsEngine.

Record t : Type := mk {
  heap : Heap.t Publication.t;
  allPublications : Heap.ref;
  filteredPublications : Heap.ref;
  currentSearchTerm : string;
  filters : Filters.t;
  paginator : PagerOnArray.t;
  sorter : SorterOnArray.t
}.

(** [initialize()] once the document is loaded: [allPublications] is the
    document's array, [filteredPublications] a copy of it that the
    paginator and the sorter are given; the first page is shown. *)
Definition initialize (publications : list Publication.t) : t :=
  let '(allPublications, h) := Heap.alloc publications [] in
  let '(filteredPublications, h) := Heap.alloc (Heap.read h allPublications) h in
  {| heap := h; allPublications := allPublications;
     filteredPublications := filteredPublications;
     currentSearchTerm := EmptyString; filters := defaultFilters;
     paginator :=
       PagerOnArray.move h (PagerOnArray.GoToPage 1)
         (PagerOnArray.new filteredPublications (Paginator.Size 25));
     sorter := SorterOnArray.new filteredPublications |}.

(** [applyFilters()]: the filtered array is new; it becomes
    [filteredPublications] and the paginator's data.  The sorter is not
    told. *)
Definition applyFilters `{Js.Host} (s : t) : t :=
  let '(filtered, h) :=
    Heap.alloc (filterResults (currentSearchTerm s) (filters s)
                  (Heap.read (heap s) (allPublications s))) (heap s) in
  {| heap := h; allPublications := allPublications s; filteredPublications := filtered;
     currentSearchTerm := currentSearchTerm s; filters := filters s;
     paginator := PagerOnArray.updateData filtered (paginator s);
     sorter := sorter s |}.

Definition withTerm (term : string) (s : t) : t :=
  {| heap := heap s; allPublications := allPublications s;
     filteredPublications := filteredPublications s;
     currentSearchTerm := term; filters := filters s;
     paginator := paginator s; sorter := sorter s |}.

Definition withFilters (f : Filters.t) (s : t) : t :=
  {| heap := heap s; allPublications := allPublications s;
     filteredPublications := filteredPublications s;
     currentSearchTerm := currentSearchTerm s; filters := f;
     paginator := paginator s; sorter := sorter s |}.

(** [e.target.value ? parseInt(e.target.value) : null]. *)
Definition numberOrNull `{PublicationsCsv.IntParser} (value : string) : option float :=
  if Js.truthy value then Some (PublicationsCsv.parseInt value) else None.

Inductive event : Type :=
| SearchInput (value : string)
| ClearSearch
| YearMinChange (value : string)
| YearMaxChange (value : string)
| QuartileChange (value : string)
| StudyTypeChange (value : string)
| CitationMinChange (value : string)
| JournalInput (value : string)
| ResetFilters
| HeaderClick (column type : string)
| Pagination (c : PagerOnArray.control).

(** The criteria that a handler stores before it calls [applyFilters]. *)
Definition stored `{PublicationsCsv.IntParser} (ev : event) (s : t) : t :=
  let f := filters s in
  match ev with
  | SearchInput value => withTerm value s
  | ClearSearch => withTerm EmptyString s
  | YearMinChange value =>
      withFilters
        {| Filters.yearMin := numberOrNull value; Filters.yearMax := Filters.yearMax f;
           Filters.quartile := Filters.quartile f; Filters.studyType := Filters.studyType f;
           Filters.citationMin := Filters.citationMin f;
           Filters.journal := Filters.journal f |} s
  | YearMaxChange value =>
      withFilters
        {| Filters.yearMin := Filters.yearMin f; Filters.yearMax := numberOrNull value;
           Filters.quartile := Filters.quartile f; Filters.studyType := Filters.studyType f;
           Filters.citationMin := Filters.citationMin f;
           Filters.journal := Filters.journal f |} s
  | QuartileChange value =>
      withFilters
        {| Filters.yearMin := Filters.yearMin f; Filters.yearMax := Filters.yearMax f;
           Filters.quartile := value; Filters.studyType := Filters.studyType f;
           Filters.citationMin := Filters.citationMin f;
           Filters.journal := Filters.journal f |} s
  | StudyTypeChange value =>
      withFilters
        {| Filters.yearMin := Filters.yearMin f; Filters.yearMax := Filters.yearMax f;
           Filters.quartile := Filters.quartile f; Filters.studyType := value;
           Filters.citationMin := Filters.citationMin f;
           Filters.journal := Filters.journal f |} s
  | CitationMinChange value =>
      withFilters
        {| Filters.yearMin := Filters.yearMin f; Filters.yearMax := Filters.yearMax f;
           Filters.quartile := Filters.quartile f; Filters.studyType := Filters.studyType f;
           Filters.citationMin := numberOrNull value;
           Filters.journal := Filters.journal f |} s
  | JournalInput value =>
      withFilters
        {| Filters.yearMin := Filters.yearMin f; Filters.yearMax := Filters.yearMax f;
           Filters.quartile := Filters.quartile f; Filters.studyType := Filters.studyType f;
           Filters.citationMin := Filters.citationMin f;
           Filters.journal := value |} s
  | ResetFilters => withFilters defaultFilters (withTerm EmptyString s)
  | HeaderClick _ _ | Pagination _ => s
  end.

(** A click on a sortable header: the sorter sorts its array and its
    callback stores the array as [filteredPublications] and hands it to
    the paginator. *)
Definition headerClick `{Js.Host} (view : Publication.t -> Js.object)
    (column type : string) (s : t) : t :=
  let '(sorter', h) := SorterOnArray.sort view column type (sorter s) (heap s) in
  {| heap := h; allPublications := allPublications s;
     filteredPublications := SorterOnArray.data sorter';
     currentSearchTerm := currentSearchTerm s; filters := filters s;
     paginator := PagerOnArray.updateData (SorterOnArray.data sorter') (paginator s);
     sorter := sorter' |}.

Definition step `{Js.Host} `{PublicationsCsv.IntParser}
    (view : Publication.t -> Js.object) (s : t) (ev : event) : t :=
  match ev with
  | HeaderClick column type => headerClick view column type s
  | Pagination c =>
      {| heap := heap s; allPublications := allPublications s;
         filteredPublications := filteredPublications s;
         currentSearchTerm := currentSearchTerm s; filters := filters s;
         paginator := PagerOnArray.move (heap s) c (paginator s);
         sorter := sorter s |}
  | _ => applyFilters (stored ev s)
  end.

Definition run `{Js.Host} `{PublicationsCsv.IntParser}
    (view : Publication.t -> Js.object) (publications : list Publication.t)
    (events : list event) : t :=
  fold_left (step view) events (initialize publications).

(** The rows that the table can show, and those that the exports write:
    the elements of [filteredPublications]. *)
Definition results (s : t) : list Publication.t :=
  Heap.read (heap s) (filteredPublications s).

(** The properties of a publication for examples: its year. *)
Definition yearOnly (pub : Publication.t) : Js.object :=
  [("year", numberCell (Publication.year pub))].

(** What holds of the page after every event. *)
Definition invariant `{Js.Host} (publications : list Publication.t) (s : t) : Prop :=
  (allPublications s < SorterOnArray.data (sorter s))%nat /\
  (SorterOnArray.data (sorter s) < length (heap s))%nat /\
  (filteredPublications s < length (heap s))%nat /\
  (allPublications s < filteredPublications s)%nat /\
  PagerOnArray.allData (paginator s) = filteredPublications s /\
  Heap.read (heap s) (allPublications s) = publications /\
  Heap.read (heap s) (SorterOnArray.data (sorter s)) ≡ₚ publications /\
  (filteredPublications s = SorterOnArray.data (sorter s) \/
   results s = filterResults (currentSearchTerm s) (filters s) publications).

(** Two publications of a document, for examples. *)
Definition samplePublications : list Publication.t :=
  [samplePublication (Js.NNum 2021) (Some "rct");
   samplePublication (Js.NNum 2019) (Some "review")].

(** The event is a click on a sortable header. *)
Definition isHeaderClick (ev : event) : bool :=
  match ev with
  | HeaderClick _ _ => true
  | _ => false
  end.

End PublicationsPage.


(** ** [scripts/generate-csv-summaries.js] *)
Module Summaries.

(** A gene of a [spatial-*-degs.json] document, with the properties the
    script reads.  A number of the document is a number or [null]. *)
Record gene : Type := mkGene {
  symbol : string;
  name : string;
  logFC : Js.numfield;
  aveExpr : Js.numfield;
  tStat : Js.numfield;
  pvalue : Js.numfield;
  adj_p_val : Js.numfield;
  regulation : string
}.

(** [Math.abs(g.logFC)]: [null] counts as 0. *)
Definition absLogFC (g : gene) : float :=
  match logFC g with
  | Js.NNum f => PrimFloat.abs f
  | Js.NNull => 0%float
  | Js.NUndefined => nan
  end.

Definition isUp (g : gene) : bool := String.eqb (regulation g) "up".
Definition isDown (g : gene) : bool := String.eqb (regulation g) "down".

(** Sort by absolute logFC (descending). *)
Definition byAbsLogFC (a b : gene) : float := PrimFloat.sub (absLogFC b) (absLogFC a).

(** [getTopDEGs(genes, n)]; [n] is an integer. *)
Definition getTopDEGs (genes : list gene) (n : Z) : list gene :=
  let upGenes := List.filter isUp genes in
  let downGenes := List.filter isDown genes in
  let topUp := Paginator.slice (TableSorter.arraySort byAbsLogFC upGenes) 0 n in
  let topDown := Paginator.slice (TableSorter.arraySort byAbsLogFC downGenes) 0 n in
  topUp ++ topDown.

(** The counts of [calculateSummary(data)]; its other fields are numbers
    printed by the host. *)
Record summary : Type := mkSummary {
  total : nat;
  up : nat;
  down : nat
}.

Definition calculateSummary (genes : list gene) : summary :=
  {| total := length genes;
     up := length (List.filter isUp genes);
     down := length (List.filter isDown genes) |}.

(** What [JSON.stringify] writes for a number: [NaN] and the infinities
    become [null]. *)
Definition jsonNumber (f : float) : Js.numfield :=
  if PrimFloat.is_nan f || PrimFloat.is_infinity f then Js.NNull else Js.NNum f.

(** A gene of the spatial converter as the script finds it in the
    document. *)
Definition fromDocument (g : SpatialConvert.gene) : gene :=
  {| symbol := SpatialConvert.symbol g;
     name := SpatialConvert.name g;
     logFC := jsonNumber (SpatialConvert.logFC g);
     aveExpr := jsonNumber (SpatialConvert.aveExpr g);
     tStat := jsonNumber (SpatialConvert.tStat g);
     pvalue := jsonNumber (SpatialConvert.pvalue g);
     adj_p_val := jsonNumber (SpatialConvert.adj_p_val g);
     regulation := SpatialConvert.regulation g |}.

(** The ['end'] handler of the spatial converter sorts the genes by
    adjusted p-value before it writes them. *)
Definition byAdjPVal (a b : SpatialConvert.gene) : float :=
  PrimFloat.sub (SpatialConvert.adj_p_val a) (SpatialConvert.adj_p_val b).

Definition written (rows : list SpatialConvert.row) : list gene :=
  List.map fromDocument
    (TableSorter.arraySort byAdjPVal (SpatialConvert.genes (SpatialConvert.stream rows))).

(** A gene with the given fold change and tag, for examples. *)
Definition sampleGene (fc : float) (tag : string) : gene :=
  {| symbol := "Cacna1g"; name := "calcium channel"; logFC := Js.NNum fc;
     aveExpr := Js.NNum 5; tStat := Js.NNum 3; pvalue := Js.NNum 0.001;
     adj_p_val := Js.NNum 0.01; regulation := tag |}.

End Summaries.


(** ** [assets/js/charts.js]: the data handed to the charts *)
Module Charts.

(** A gene of an [rnaseq-degs.json] or [spatial-*-degs.json] document,
    with the properties the charts read; a property that the document
    does not have is [NUndefined]. *)
Record gene : Type := mkGene {
  symbol : string;
  regulation : string;
  significant : bool;
  log2fc : Js.numfield;
  logFC : Js.numfield;
  padj : Js.numfield;
  adj_p_val : Js.numfield
}.

Definition fromRnaseq (g : RnaseqConvert.gene) : gene :=
  {| symbol := RnaseqConvert.symbol g;
     regulation := RnaseqConvert.regulation g;
     significant := RnaseqConvert.significant g;
     log2fc := Summaries.jsonNumber (RnaseqConvert.log2fc g);
     logFC := Js.NUndefined;
     padj := Summaries.jsonNumber (RnaseqConvert.padj g);
     adj_p_val := Js.NUndefined |}.

Definition fromSpatial (g : SpatialConvert.gene) : gene :=
  {| symbol := SpatialConvert.symbol g;
     regulation := SpatialConvert.regulation g;
     significant := SpatialConvert.significant g;
     log2fc := Js.NUndefined;
     logFC := Summaries.jsonNumber (SpatialConvert.logFC g);
     padj := Js.NUndefined;
     adj_p_val := Summaries.jsonNumber (SpatialConvert.adj_p_val g) |}.

(** The ['end'] handler of the RNA-seq converter sorts the genes by
    adjusted p-value before it writes them. *)
Definition byPadj (a b : RnaseqConvert.gene) : float :=
  PrimFloat.sub (RnaseqConvert.padj a) (RnaseqConvert.padj b).

Definition writtenRnaseq (rows : list RnaseqConvert.row) : list gene :=
  List.map fromRnaseq
    (TableSorter.arraySort byPadj (RnaseqConvert.genes (RnaseqConvert.stream rows))).

Definition writtenSpatial (rows : list SpatialConvert.row) : list gene :=
  List.map fromSpatial
    (TableSorter.arraySort Summaries.byAdjPVal
       (SpatialConvert.genes (SpatialConvert.stream rows))).

(** The genes behind the points of the three datasets of
    [createVolcanoPlot]. *)
Definition upregulated (data : list gene) : list gene :=
  List.filter (fun g => String.eqb (regulation g) "up" && significant g) data.

Definition downregulated (data : list gene) : list gene :=
  List.filter (fun g => String.eqb (regulation g) "down" && significant g) data.

Definition notSignificant (data : list gene) : list gene :=
  List.filter (fun g => negb (significant g)) data.

(** [a || b] on two number properties. *)
Definition orField (a b : Js.numfield) : Js.numfield :=
  match a with
  | Js.NNum f => if PrimFloat.eqb f 0 || negb (PrimFloat.eqb f f) then b else a
  | _ => b
  end.

(** [Math.abs(g.log2fc || g.logFC)]. *)
Definition absFoldChange (g : gene) : float :=
  match orField (log2fc g) (logFC g) with
  | Js.NNum f => PrimFloat.abs f
  | Js.NNull => 0%float
  | Js.NUndefined => nan
  end.

(** [options.direction || 'up'] and [options.limit || 20], the limit being
    an integer when it is given. *)
Definition directionOf (direction : option string) : string :=
  match direction with
  | Some d => if Js.truthy d then d else "up"
  | None => "up"
  end.

Definition limitOf (limit : option Z) : Z :=
  match limit with
  | Some l => if l =? 0 then 20 else l
  | None => 20
  end.

(** The genes of the bars of [createTopDEGsBarChart]: filter, sort by
    absolute fold change (descending), slice. *)
Definition bars (data : list gene) (direction : option string) (limit : option Z)
    : list gene :=
  let filteredData :=
    List.filter (fun g => String.eqb (regulation g) (directionOf direction) && significant g)
                data in
  let filteredData :=
    TableSorter.arraySort
      (fun a b => PrimFloat.sub (absFoldChange b) (absFoldChange a)) filteredData in
  Paginator.slice filteredData 0 (limitOf limit).

Definition labels (data : list gene) (direction : option string) (limit : option Z)
    : list string :=
  List.map symbol (bars data direction limit).

Definition values (data : list gene) (direction : option string) (limit : option Z)
    : list float :=
  List.map absFoldChange (bars data direction limit).

(** A gene with the given tag and flag, for examples. *)
Definition sampleGene (tag : string) (flag : bool) : gene :=
  {| symbol := "Grin2b"; regulation := tag; significant := flag;
     log2fc := Js.NNum 1.5; logFC := Js.NUndefined;
     padj := Js.NNum 0.01; adj_p_val := Js.NUndefined |}.

End Charts.


(* ===================================================================== *)
(** * Part II: the properties                                             *)
(* ===================================================================== *)

(** ** Paginator *)
Section PaginatorFacts.
Context {A : Type}.
Implicit Types (p : Paginator.t A) (o : Paginator.op A).

(** With a numeric page count, page 1 is always in range. *)
Lemma page_one_in_range p :
  Paginator.currentPage p = 1 ->
  Paginator.getTotalPages p <> Paginator.NotANumber ->
  Paginator.inRange p.
Proof.
  intros Hcp Htp. unfold Paginator.inRange. rewrite Hcp.
  split; [reflexivity|].
  destruct (Paginator.getTotalPages p); simpl; try reflexivity; try congruence.
  apply Z.leb_le. lia.
Qed.

(** [goToPage] changes neither the data nor the page size. *)
Lemma goToPage_totalPages (page : Paginator.pageNumber) p :
  Paginator.getTotalPages (Paginator.goToPage page p) = Paginator.getTotalPages p.
Proof.
  unfold Paginator.goToPage.
  destruct (_ || _); reflexivity.
Qed.

(** A page number that [goToPage] lets through: it is not below 1 and not
    above the count, so it is in range unless it, or the count, is
    [NaN]. *)
Lemma accepted_in_range (page : Paginator.pageNumber) (total : Paginator.count) :
  page <> Paginator.PageNaN -> total <> Paginator.NotANumber ->
  Paginator.ltOne page = false -> Paginator.gtCount page total = false ->
  Paginator.geOne page = true /\
  Paginator.leCount page (Paginator.maxOne total) = true.
Proof.
  intros Hpage Htotal Hlo Hhi.
  destruct page as [n| | |], total as [m| | |]; simpl in *;
    try congruence; try discriminate; split; try reflexivity.
  all: try (apply Z.ltb_ge in Hlo); try (apply Z.ltb_ge in Hhi);
    apply Z.leb_le; lia.
Qed.

Lemma goToPage_in_range (page : Paginator.pageNumber) p :
  page <> Paginator.PageNaN ->
  (Paginator.getTotalPages p <> Paginator.NotANumber -> Paginator.inRange p) ->
  Paginator.getTotalPages (Paginator.goToPage page p) <> Paginator.NotANumber ->
  Paginator.inRange (Paginator.goToPage page p).
Proof.
  intros Hpage IH Htp. rewrite goToPage_totalPages in Htp.
  unfold Paginator.goToPage.
  destruct (Paginator.ltOne page) eqn:Hlo; simpl; [auto|].
  destruct (Paginator.gtCount page (Paginator.getTotalPages p)) eqn:Hhi; [auto|].
  unfold Paginator.inRange.
  change (Paginator.getTotalPages
            {| Paginator.allData := Paginator.allData p;
               Paginator.itemsPerPage := Paginator.itemsPerPage p;
               Paginator.currentPage := page |})
    with (Paginator.getTotalPages p).
  now apply accepted_in_range.
Qed.

(** Every operation keeps: a numeric page count implies the range. *)
Lemma step_in_range p o :
  Paginator.pageIsNumber o ->
  (Paginator.getTotalPages p <> Paginator.NotANumber -> Paginator.inRange p) ->
  Paginator.getTotalPages (Paginator.step p o) <> Paginator.NotANumber ->
  Paginator.inRange (Paginator.step p o).
Proof.
  intros Hnum IH. destruct o as [page| | |data|n]; simpl.
  - apply goToPage_in_range; [|exact IH]. intros ->. exact Hnum.
  - unfold Paginator.nextPage.
    destruct (Paginator.ltCount _ _) eqn:Hlt; [|exact IH].
    apply goToPage_in_range; [|exact IH].
    destruct (Paginator.currentPage p); simpl in *; discriminate.
  - unfold Paginator.prevPage.
    destruct (Paginator.gtOne _) eqn:Hgt; [|exact IH].
    apply goToPage_in_range; [|exact IH].
    destruct (Paginator.currentPage p); simpl in *; discriminate.
  - intros Htp. now apply page_one_in_range.
  - intros Htp. now apply page_one_in_range.
Qed.

Lemma run_in_range ops p :
  Forall Paginator.pageIsNumber ops ->
  (Paginator.getTotalPages p <> Paginator.NotANumber -> Paginator.inRange p) ->
  Paginator.getTotalPages (Paginator.run ops p) <> Paginator.NotANumber ->
  Paginator.inRange (Paginator.run ops p).
Proof.
  intros Hops. revert p. induction Hops as [|o ops Ho Hops IH]; intros p Hp; simpl.
  - exact Hp.
  - apply IH. now apply step_in_range.
Qed.

(** An out-of-range request leaves the paginator as it is. *)
Lemma goToPage_out_of_range (page : Paginator.pageNumber) p :
  Paginator.ltOne page = true \/
  Paginator.gtCount page (Paginator.getTotalPages p) = true ->
  Paginator.goToPage page p = p.
Proof.
  intros [Hlo|Hhi]; unfold Paginator.goToPage.
  - now rewrite Hlo.
  - rewrite Hhi. now rewrite orb_true_r.
Qed.

(** Positive page sizes keep the page size positive, hence the count
    numeric. *)
Lemma step_positive p o :
  Paginator.positiveSize (Paginator.itemsPerPage p) -> Paginator.sizesPositive o ->
  Paginator.positiveSize (Paginator.itemsPerPage (Paginator.step p o)).
Proof.
  intros Hp Ho. destruct o as [page| | |data|n]; simpl in *; auto.
  - unfold Paginator.goToPage. destruct (_ || _); auto.
  - unfold Paginator.nextPage, Paginator.goToPage.
    destruct (Paginator.ltCount _ _); auto. destruct (_ || _); auto.
  - unfold Paginator.prevPage, Paginator.goToPage.
    destruct (Paginator.gtOne _); auto. destruct (_ || _); auto.
Qed.

Lemma run_positive ops p :
  Paginator.positiveSize (Paginator.itemsPerPage p) -> Forall Paginator.sizesPositive ops ->
  Paginator.positiveSize (Paginator.itemsPerPage (Paginator.run ops p)).
Proof.
  revert p. induction ops as [|o ops IH]; intros p Hp Hops; simpl; [exact Hp|].
  inversion Hops; subst. apply IH; [now apply step_positive|assumption].
Qed.

Lemma positive_size_numeric p :
  Paginator.positiveSize (Paginator.itemsPerPage p) ->
  Paginator.getTotalPages p <> Paginator.NotANumber.
Proof.
  unfold Paginator.getTotalPages.
  destruct (Paginator.itemsPerPage p) as [n| |]; simpl; try tauto.
  intros Hn. destruct (n =? 0) eqn:E; [apply Z.eqb_eq in E; lia|discriminate].
Qed.


(** C2 (as amended): starting from a freshly constructed Paginator and
    after any sequence of goToPage / nextPage / prevPage / updateData /
    changeItemsPerPage in which no page number given to goToPage is NaN
    (the page numbers being whole or infinite), whenever the page count
    is a number (it is for every positive page size) currentPage lies in
    [1, max(1, totalPages)]; goToPage with a page below 1 or above the
    page count changes nothing; and updateData resets currentPage to 1. *)
Theorem paginator_page_in_range (data : list A) size ops :
  Forall Paginator.pageIsNumber ops ->
  let p := Paginator.run ops (Paginator.new data size) in
  (Paginator.getTotalPages p <> Paginator.NotANumber -> Paginator.inRange p) /\
  (Paginator.positiveSize size -> Forall Paginator.sizesPositive ops ->
   Paginator.getTotalPages p <> Paginator.NotANumber) /\
  (forall page : Paginator.pageNumber,
      Paginator.ltOne page = true \/
      Paginator.gtCount page (Paginator.getTotalPages p) = true ->
      Paginator.goToPage page p = p) /\
  (forall data', Paginator.currentPage (Paginator.updateData data' p) = 1).
Proof.
  intros Hnum p. split; [|split; [|split]].
  - apply run_in_range; [exact Hnum|]. intros Htp. now apply page_one_in_range.
  - intros Hsize Hops. now apply positive_size_numeric, run_positive.
  - intros page. apply goToPage_out_of_range.
  - reflexivity.
Qed.

End PaginatorFacts.

(** The scenario of the specification: page size 2 over 5 records gives 3
    pages, and on page 3 a request for page 4 changes nothing. *)
Lemma paginator_page_in_range_witness :
  let p := Paginator.run [Paginator.GoToPage 3; Paginator.GoToPage 4]
             (Paginator.new [1; 2; 3; 4; 5]%nat (Paginator.Size 2)) in
  Paginator.getTotalPages p = Paginator.Finite 3 /\
  Paginator.currentPage p = 3 /\
  Paginator.inRange p /\
  Paginator.goToPage 4 p = p.
Proof.
  intros p.
  pose proof (paginator_page_in_range [1; 2; 3; 4; 5]%nat (Paginator.Size 2)
                [Paginator.GoToPage 3; Paginator.GoToPage 4]
                ltac:(repeat constructor)) as (Hr & _ & Hg & _).
  split; [reflexivity|]. split; [reflexivity|]. split.
  - apply Hr. discriminate.
  - apply Hg. right. reflexivity.
Defined.

(** C2 (as stated) fails.  With page size 0 over an empty list the page
    count is 0/0 = NaN, no page number exceeds it, and goToPage(5) is
    accepted.  And at any page size goToPage(NaN) is accepted, since NaN
    is neither below 1 nor above the page count: with page size 2 over 5
    records currentPage becomes NaN, which is not within [1, 3]; the page
    shown is then empty. *)
Lemma paginator_range_counterexample :
  let p := Paginator.run [Paginator.ChangeItemsPerPage (Paginator.Size 0);
                          Paginator.GoToPage 5]
             (Paginator.new (@nil nat) (Paginator.Size 25)) in
  let q := Paginator.run [Paginator.GoToPage Paginator.PageNaN]
             (Paginator.new [1; 2; 3; 4; 5]%nat (Paginator.Size 2)) in
  (Paginator.currentPage p = 5 /\
   Paginator.getTotalPages p = Paginator.NotANumber /\
   ~ Paginator.inRange p) /\
  (Paginator.currentPage q = Paginator.PageNaN /\
   Paginator.getTotalPages q = Paginator.Finite 3 /\
   ~ Paginator.inRange q /\
   Paginator.getCurrentPageData q = []).
Proof.
  intros p q. split.
  - split; [reflexivity|]. split; [reflexivity|].
    intros [_ H]. vm_compute in H. discriminate.
  - split; [reflexivity|]. split; [reflexivity|]. split; [|reflexivity].
    intros [H _]. vm_compute in H. discriminate.
Qed.

(** The double arithmetic that [plusOne] and [minusOne] follow, at the
    first whole number that has no successor among the doubles: 2^53 + 1
    is 2^53, and 2^53 + 2 plus 1 is 2^53 + 4. *)
Lemma doubles_beyond_2_53 :
  PrimFloat.add 9007199254740992 1 = 9007199254740992%float /\
  Paginator.plusOne (Paginator.Page (2 ^ 53)) = Paginator.Page (2 ^ 53) /\
  PrimFloat.add 9007199254740994 1 = 9007199254740996%float /\
  Paginator.plusOne (Paginator.Page (2 ^ 53 + 2)) = Paginator.Page (2 ^ 53 + 4) /\
  PrimFloat.sub 9007199254740992 1 = 9007199254740991%float /\
  Paginator.minusOne (Paginator.Page (2 ^ 53)) = Paginator.Page (2 ^ 53 - 1).
Proof. repeat split; vm_compute; reflexivity. Qed.

(** At page 2^53 under page size 0 (an infinite page count) nextPage
    stays on the page and prevPage then goes one page back. *)
Lemma next_then_prev_at_2_53 :
  let p := Paginator.run [Paginator.ChangeItemsPerPage (Paginator.Size 0);
                          Paginator.GoToPage (2 ^ 53)]
             (Paginator.new [1]%nat (Paginator.Size 25)) in
  Paginator.inRange p /\
  Paginator.currentPage (Paginator.nextPage p) = 2 ^ 53 /\
  Paginator.currentPage (Paginator.prevPage (Paginator.nextPage p)) = 2 ^ 53 - 1.
Proof. intros p. repeat split; vm_compute; reflexivity. Qed.

(** ** The record converters *)

(** C7: for fold-changes [2.0, -1.5, 0.5, -3.0] with adjusted p-values
    [0.01, 0.2, 0.04, 0.001] the spatial converter (p < 0.05 and
    |fc| > 0.5) marks exactly the first and the fourth record significant
    and tags the records up, down, up, down; the bulk converter (its
    p bound is 0.1) gives the same flags and tags. *)
Theorem significance_scenario (r1 r2 r3 r4 : SpatialConvert.row)
    (q1 q2 q3 q4 : RnaseqConvert.row) :
  SpatialConvert.tags
    [SpatialConvert.withStats r1 2.0 0.01;
     SpatialConvert.withStats r2 (-1.5) 0.2;
     SpatialConvert.withStats r3 0.5 0.04;
     SpatialConvert.withStats r4 (-3.0) 0.001]
  = [(true, "up"); (false, "down"); (false, "up"); (true, "down")] /\
  RnaseqConvert.tags
    [RnaseqConvert.withStats q1 2.0 0.01;
     RnaseqConvert.withStats q2 (-1.5) 0.2;
     RnaseqConvert.withStats q3 0.5 0.04;
     RnaseqConvert.withStats q4 (-3.0) 0.001]
  = [(true, "up"); (false, "down"); (false, "up"); (true, "down")].
Proof. split; reflexivity. Qed.

(** A number below zero is not above zero. *)
Lemma lt_zero_not_gt (fc : float) : Js.lt fc 0 = true -> Js.gt fc 0 = false.
Proof.
  unfold Js.lt, Js.gt. rewrite !ltb_spec.
  replace (Prim2SF 0) with (S754_zero false) by reflexivity.
  destruct (Prim2SF fc) as [sg|sg| |sg m e]; try destruct sg; simpl;
    intros Hlt; try reflexivity; try discriminate.
Qed.

Lemma tag_of_fold_change (fc : float) (tag : string) :
  tag = (if Js.gt fc 0 then "up" else "down") ->
  (tag = "up" <-> Js.gt fc 0 = true) /\
  (tag = "down" <-> Js.gt fc 0 = false) /\
  (Js.lt fc 0 = true -> tag = "down").
Proof.
  intros ->. split; [|split].
  - destruct (Js.gt fc 0); split; intros; congruence.
  - destruct (Js.gt fc 0); split; intros; congruence.
  - intros Hneg. now rewrite (lt_zero_not_gt fc Hneg).
Qed.

(** C8 (as amended): in both converters the regulation tag is computed
    from the record's own fold-change and from nothing else: it is up
    exactly when the fold-change is greater than zero and down in every
    other case; so a positive fold-change gives up, a negative one gives
    down, and zero (like NaN) gives down. *)
Theorem regulation_follows_fold_change (r : SpatialConvert.row)
    (q : RnaseqConvert.row) :
  let g := SpatialConvert.onData r in
  let h := RnaseqConvert.onData q in
  (SpatialConvert.logFC g = SpatialConvert.logFC_col r /\
   (SpatialConvert.regulation g = "up" <-> Js.gt (SpatialConvert.logFC g) 0 = true) /\
   (SpatialConvert.regulation g = "down" <-> Js.gt (SpatialConvert.logFC g) 0 = false) /\
   (Js.lt (SpatialConvert.logFC g) 0 = true -> SpatialConvert.regulation g = "down")) /\
  (RnaseqConvert.log2fc h = RnaseqConvert.log2FoldChange q /\
   (RnaseqConvert.regulation h = "up" <-> Js.gt (RnaseqConvert.log2fc h) 0 = true) /\
   (RnaseqConvert.regulation h = "down" <-> Js.gt (RnaseqConvert.log2fc h) 0 = false) /\
   (Js.lt (RnaseqConvert.log2fc h) 0 = true -> RnaseqConvert.regulation h = "down")).
Proof.
  intros g h. split; (split; [reflexivity|]); now apply tag_of_fold_change.
Qed.

Lemma regulation_follows_fold_change_witness :
  SpatialConvert.regulation
    (SpatialConvert.onData (SpatialConvert.withStats SpatialConvert.sampleRow (-1.5) 0.2))
  = "down" /\
  RnaseqConvert.regulation
    (RnaseqConvert.onData (RnaseqConvert.withStats RnaseqConvert.sampleRow (-1.5) 0.2))
  = "down".
Proof.
  pose proof (regulation_follows_fold_change
    (SpatialConvert.withStats SpatialConvert.sampleRow (-1.5) 0.2)
    (RnaseqConvert.withStats RnaseqConvert.sampleRow (-1.5) 0.2))
    as [(_ & _ & _ & Hs) (_ & _ & _ & Hr)].
  split; [apply Hs|apply Hr]; reflexivity.
Defined.

(** C8 (as stated) fails at zero: the fold-change 0 is not negative, yet
    the record is tagged down, so the tag is not the sign. *)
Lemma regulation_zero_counterexample :
  let g := SpatialConvert.onData (SpatialConvert.withStats SpatialConvert.sampleRow 0 0.01) in
  SpatialConvert.regulation g = "down" /\
  Js.lt (SpatialConvert.logFC g) 0 = false /\
  ~ Regulation.isSignOf (SpatialConvert.regulation g) (SpatialConvert.logFC g).
Proof.
  intros g. split; [reflexivity|]. split; [reflexivity|].
  intros [_ [Hdown _]].
  assert (Js.lt (SpatialConvert.logFC g) 0 = true) as Habs by (apply Hdown; reflexivity).
  vm_compute in Habs. discriminate.
Qed.

(** ** The filter engines *)

(** [Array.prototype.filter] keeps a subsequence. *)
Lemma filter_sublist {A : Type} (keep : A -> bool) (l : list A) :
  List.filter keep l `sublist_of` l.
Proof.
  induction l as [|x l IH]; simpl.
  - constructor.
  - destruct (keep x); [now apply sublist_skip|now apply sublist_cons].
Qed.

Lemma sublist_via_filter {A : Type} (keep : A -> bool) (l k : list A) :
  l `sublist_of` k -> List.filter keep l `sublist_of` k.
Proof. intros Hl. etrans; [apply filter_sublist|exact Hl]. Qed.

Section FilterFacts.
Context `{Js.Host}.

Lemma gene_filterResults_sublist term f (genes : list GeneSearchEngine.Gene.t) :
  GeneSearchEngine.filterResults term f genes `sublist_of` genes.
Proof.
  unfold GeneSearchEngine.filterResults.
  assert (GeneSearchEngine.searchFilter term genes `sublist_of` genes) as H1
    by (unfold GeneSearchEngine.searchFilter; case_match;
        [apply filter_sublist|reflexivity]).
  assert (forall l, l `sublist_of` genes ->
            GeneSearchEngine.regulationFilter f l `sublist_of` genes) as H2
    by (intros l Hl; unfold GeneSearchEngine.regulationFilter; case_match;
        [now apply sublist_via_filter|exact Hl]).
  assert (forall l, l `sublist_of` genes ->
            GeneSearchEngine.datasetFilter f l `sublist_of` genes) as H3
    by (intros l Hl; unfold GeneSearchEngine.datasetFilter; case_match;
        [now apply sublist_via_filter|exact Hl]).
  assert (forall l, l `sublist_of` genes ->
            GeneSearchEngine.pvalueFilter f l `sublist_of` genes) as H4
    by (intros l Hl; unfold GeneSearchEngine.pvalueFilter; case_match;
        [now apply sublist_via_filter|exact Hl]).
  assert (forall l, l `sublist_of` genes ->
            GeneSearchEngine.log2fcFilter f l `sublist_of` genes) as H5
    by (intros l Hl; unfold GeneSearchEngine.log2fcFilter; case_match;
        [now apply sublist_via_filter|exact Hl]).
  auto.
Qed.

Lemma publication_filterResults_sublist term f
    (pubs : list PublicationsEngine.Publication.t) :
  PublicationsEngine.filterResults term f pubs `sublist_of` pubs.
Proof.
  unfold PublicationsEngine.filterResults.
  assert (PublicationsEngine.searchFilter term pubs `sublist_of` pubs) as H1
    by (unfold PublicationsEngine.searchFilter; case_match;
        [apply filter_sublist|reflexivity]).
  assert (forall l, l `sublist_of` pubs ->
            PublicationsEngine.yearFilter f l `sublist_of` pubs) as H2
    by (intros l Hl; unfold PublicationsEngine.yearFilter;
        repeat case_match; repeat apply sublist_via_filter; exact Hl).
  assert (forall l, l `sublist_of` pubs ->
            PublicationsEngine.quartileFilter f l `sublist_of` pubs) as H3
    by (intros l Hl; unfold PublicationsEngine.quartileFilter;
        repeat case_match; try apply sublist_via_filter; exact Hl).
  assert (forall l, l `sublist_of` pubs ->
            PublicationsEngine.studyTypeFilter f l `sublist_of` pubs) as H4
    by (intros l Hl; unfold PublicationsEngine.studyTypeFilter;
        repeat case_match; try apply sublist_via_filter; exact Hl).
  assert (forall l, l `sublist_of` pubs ->
            PublicationsEngine.citationFilter f l `sublist_of` pubs) as H5
    by (intros l Hl; unfold PublicationsEngine.citationFilter;
        repeat case_match; try apply sublist_via_filter; exact Hl).
  assert (forall l, l `sublist_of` pubs ->
            PublicationsEngine.journalFilter f l `sublist_of` pubs) as H6
    by (intros l Hl; unfold PublicationsEngine.journalFilter;
        repeat case_match; try apply sublist_via_filter; exact Hl).
  auto 10.
Qed.

(** C1: for every engine state (every record array and every criteria
    configuration) the list that applyFilters stores is a subsequence of
    the record array: its records all occur there, in their original
    relative order and no more often than there; the record array itself
    is left as it was, and the paginator is handed that same list.  This
    holds for the gene engine and for the publications engine. *)
Theorem applyFilters_subsequence (e : GeneSearchEngine.t)
    (pe : PublicationsEngine.t) :
  (GeneSearchEngine.filteredGenes (GeneSearchEngine.applyFilters e)
     `sublist_of` GeneSearchEngine.allGenes e /\
   GeneSearchEngine.allGenes (GeneSearchEngine.applyFilters e)
     = GeneSearchEngine.allGenes e /\
   Paginator.allData (GeneSearchEngine.paginator (GeneSearchEngine.applyFilters e))
     = GeneSearchEngine.filteredGenes (GeneSearchEngine.applyFilters e)) /\
  (PublicationsEngine.filteredPublications (PublicationsEngine.applyFilters pe)
     `sublist_of` PublicationsEngine.allPublications pe /\
   PublicationsEngine.allPublications (PublicationsEngine.applyFilters pe)
     = PublicationsEngine.allPublications pe /\
   Paginator.allData (PublicationsEngine.paginator (PublicationsEngine.applyFilters pe))
     = PublicationsEngine.filteredPublications (PublicationsEngine.applyFilters pe)).
Proof.
  split; (split; [|split; reflexivity]); simpl.
  - apply gene_filterResults_sublist.
  - apply publication_filterResults_sublist.
Qed.

(** A subsequence repeats no record that the array does not repeat, and
    holds only records of the array. *)
Corollary applyFilters_no_fabrication (e : GeneSearchEngine.t) :
  (forall g, g ∈ GeneSearchEngine.filteredGenes (GeneSearchEngine.applyFilters e) ->
             g ∈ GeneSearchEngine.allGenes e) /\
  (NoDup (GeneSearchEngine.allGenes e) ->
   NoDup (GeneSearchEngine.filteredGenes (GeneSearchEngine.applyFilters e))).
Proof.
  pose proof (gene_filterResults_sublist (GeneSearchEngine.currentSearchTerm e)
                (GeneSearchEngine.filters e) (GeneSearchEngine.allGenes e)) as Hs.
  split.
  - intros g Hg. eapply elem_of_sublist; [exact Hg|exact Hs].
  - intros Hnd. eauto using sublist_NoDup.
Qed.

(** C6: with every criterion at its default (empty search term, regulation
    / quartile / study type "all", all four dataset toggles on, p-value
    threshold 1.0, every numeric bound null, empty journal term)
    applyFilters stores the record array itself, element for element, in
    both engines. *)
Theorem applyFilters_default_identity
    (genes stale sorted : list GeneSearchEngine.Gene.t)
    (pag : Paginator.t GeneSearchEngine.Gene.t)
    (pubs stalePubs : list PublicationsEngine.Publication.t)
    (ppag : Paginator.t PublicationsEngine.Publication.t) :
  GeneSearchEngine.filteredGenes
    (GeneSearchEngine.applyFilters
       {| GeneSearchEngine.allGenes := genes;
          GeneSearchEngine.filteredGenes := stale;
          GeneSearchEngine.currentSearchTerm := EmptyString;
          GeneSearchEngine.filters := GeneSearchEngine.defaultFilters;
          GeneSearchEngine.paginator := pag;
          GeneSearchEngine.sorterData := sorted |}) = genes /\
  PublicationsEngine.filteredPublications
    (PublicationsEngine.applyFilters
       {| PublicationsEngine.allPublications := pubs;
          PublicationsEngine.filteredPublications := stalePubs;
          PublicationsEngine.currentSearchTerm := EmptyString;
          PublicationsEngine.filters := PublicationsEngine.defaultFilters;
          PublicationsEngine.paginator := ppag |}) = pubs.
Proof. split; reflexivity. Qed.

End FilterFacts.

(** C10: with all four dataset toggles off the list of active datasets is
    empty, the dataset-presence clause is skipped and hands on every
    record it is given, exactly as it does with all four toggles on. *)
Theorem dataset_clause_skipped_when_all_off (regulation : string)
    (threshold : float) (lo hi : option float)
    (results : list GeneSearchEngine.Gene.t) :
  let off := {| GeneSearchEngine.Filters.regulation := regulation;
                GeneSearchEngine.Filters.datasets := GeneSearchEngine.allOff;
                GeneSearchEngine.Filters.pvalueThreshold := threshold;
                GeneSearchEngine.Filters.log2fcMin := lo;
                GeneSearchEngine.Filters.log2fcMax := hi |} in
  let on := {| GeneSearchEngine.Filters.regulation := regulation;
               GeneSearchEngine.Filters.datasets := GeneSearchEngine.allOn;
               GeneSearchEngine.Filters.pvalueThreshold := threshold;
               GeneSearchEngine.Filters.log2fcMin := lo;
               GeneSearchEngine.Filters.log2fcMax := hi |} in
  GeneSearchEngine.activeDatasets off = [] /\
  GeneSearchEngine.datasetFilter off results = results /\
  GeneSearchEngine.datasetFilter on results = results.
Proof. repeat split. Qed.

(** ** The numeric clauses of the gene engine *)
Section NumericClauses.
Import GeneSearchEngine.
Implicit Types (f : Filters.t) (gene : Gene.t).





End NumericClauses.



(** The log2 fold-change clause does not consult the dataset toggles: a
    record whose only observation belongs to a disabled dataset still
    passes, whereas the regulation and the p-value clause reject it. *)
Lemma log2fc_clause_counts_disabled_dataset :
  let f := GeneSearchEngine.sampleFilters GeneSearchEngine.bulkOff 0.05 (Some 1.0%float) None in
  let gene := GeneSearchEngine.sampleGene
                (Some (GeneSearchEngine.sampleObservation 2.0 0.01)) in
  GeneSearchEngine.passesLog2fc f gene = true /\
  GeneSearchEngine.passesLog2fcSpec f gene = false /\
  GeneSearchEngine.hasSignificantPvalue f gene = false.
Proof. repeat split. Qed.

(** ** TableSorter *)
Section SorterFacts.
Context `{Js.Host}.
Implicit Types (r : Js.object) (records : list Js.object).

Lemma insert_permutation {A : Type} (compareFn : A -> A -> float) x (l : list A) :
  TableSorter.insert compareFn x l ≡ₚ x :: l.
Proof.
  induction l as [|y l IH]; simpl; [reflexivity|].
  destruct (Js.gt _ _); [|reflexivity].
  rewrite IH. apply Permutation_swap.
Qed.

Lemma arraySort_permutation {A : Type} (compareFn : A -> A -> float) (l : list A) :
  TableSorter.arraySort compareFn l ≡ₚ l.
Proof.
  induction l as [|x l IH]; simpl; [reflexivity|].
  rewrite insert_permutation. now rewrite IH.
Qed.

(** A record without a value compares greater than every record. *)
Lemma comparator_missing column type dir r r' :
  TableSorter.missing column r = true ->
  Js.gt (TableSorter.comparator column type dir r r') 0 = true.
Proof.
  unfold TableSorter.missing, TableSorter.comparator. intros ->. reflexivity.
Qed.

(** A record with a value compares less than every record without. *)
Lemma comparator_present_missing column type dir r r' :
  TableSorter.missing column r = false ->
  TableSorter.missing column r' = true ->
  Js.gt (TableSorter.comparator column type dir r r') 0 = false.
Proof.
  unfold TableSorter.missing, TableSorter.comparator. intros -> ->. reflexivity.
Qed.

Lemma insert_missing column type dir r records :
  TableSorter.missing column r = true ->
  TableSorter.insert (TableSorter.comparator column type dir) r records
  = records ++ [r].
Proof.
  intros Hr. induction records as [|y l IH]; simpl; [reflexivity|].
  rewrite comparator_missing by exact Hr. now rewrite IH.
Qed.

Lemma insert_present column type dir r present absent :
  TableSorter.missing column r = false ->
  Forall (fun r => TableSorter.missing column r = false) present ->
  Forall (fun r => TableSorter.missing column r = true) absent ->
  exists present',
    TableSorter.insert (TableSorter.comparator column type dir) r (present ++ absent)
    = present' ++ absent /\
    Forall (fun r => TableSorter.missing column r = false) present'.
Proof.
  intros Hr Hp Ha. induction Hp as [|y present Hy Hp IH]; simpl.
  - exists [r]. split; [|now constructor].
    destruct Ha as [|z absent Hz Ha]; simpl; [reflexivity|].
    now rewrite comparator_present_missing.
  - destruct (Js.gt _ _).
    + destruct IH as (present' & -> & Hp').
      exists (y :: present'). split; [reflexivity|now constructor].
    + exists (r :: y :: present). split; [reflexivity|].
      constructor; [exact Hr|now constructor].
Qed.

Lemma arraySort_nullsLast column type dir records :
  TableSorter.nullsLast column
    (TableSorter.arraySort (TableSorter.comparator column type dir) records).
Proof.
  induction records as [|r records IH]; simpl.
  - exists [], []. repeat split; constructor.
  - destruct IH as (present & absent & -> & Hp & Ha).
    destruct (TableSorter.missing column r) eqn:Hr.
    + rewrite insert_missing by exact Hr.
      exists present, (absent ++ [r]). split; [now rewrite app_assoc|].
      split; [exact Hp|]. apply Forall_app. split; [exact Ha|now constructor].
    + destruct (insert_present column type dir r present absent Hr Hp Ha)
        as (present' & -> & Hp').
      exists present', absent. auto.
Qed.

(** Whatever algorithm the host sorts with, an arrangement it settles on
    under this comparison function has the records without a value last. *)
Lemma settled_nullsLast column type dir records :
  TableSorter.settled (TableSorter.comparator column type dir) records = true ->
  TableSorter.nullsLast column records.
Proof.
  induction records as [|a rest IH]; intros Hs.
  - exists [], []. repeat split; constructor.
  - assert (TableSorter.settled (TableSorter.comparator column type dir) rest = true)
      as Hrest.
    { destruct rest as [|b rest]; [reflexivity|].
      simpl in Hs. now apply andb_true_iff in Hs as [_ Hs]. }
    destruct (IH Hrest) as (present & absent & -> & Hp & Ha).
    destruct (TableSorter.missing column a) eqn:Hmiss.
    + destruct Hp as [|b present Hb Hp].
      * exists [], (a :: absent). repeat split; constructor; assumption.
      * exfalso. simpl in Hs. apply andb_true_iff in Hs as [Hs _].
        unfold TableSorter.comparator, TableSorter.missing in *.
        rewrite Hmiss, Hb in Hs. discriminate.
    + exists (a :: present), absent. repeat split; [constructor|]; assumption.
Qed.

(** C5: whatever the column, the requested type and the sorter's state
    (so whether the sort runs ascending or descending), after sort every
    record whose value in the column is null or undefined stands after
    every record that has a value; the sorted array holds the same
    records as before.  The same holds of any arrangement a comparison
    sort can settle on under the sorter's comparison function. *)
Theorem nulls_sort_last (column type : string) (s : TableSorter.t) :
  TableSorter.nullsLast column (TableSorter.data (TableSorter.sort column type s)) /\
  TableSorter.data (TableSorter.sort column type s) ≡ₚ TableSorter.data s /\
  (forall dir records,
      TableSorter.nullsLast column
        (TableSorter.arraySort (TableSorter.comparator column type dir) records)) /\
  (forall dir records,
      TableSorter.settled (TableSorter.comparator column type dir) records = true ->
      TableSorter.nullsLast column records).
Proof.
  split; [|split; [|split]].
  - apply arraySort_nullsLast.
  - apply arraySort_permutation.
  - intros dir records. apply arraySort_nullsLast.
  - intros dir records. apply settled_nullsLast.
Qed.

End SorterFacts.

(** The sample sorted descending: 10, 9, then the record without value. *)
Lemma nulls_sort_last_witness :
  let sorted :=
    @TableSorter.data
      (@TableSorter.sort Js.asciiHost "v" "number"
         (@TableSorter.sort Js.asciiHost "v" "number"
            (TableSorter.new TableSorter.sampleRecords))) in
  sorted = [[("v", Js.VNum 10)]; [("v", Js.VNum 9)]; [("v", Js.VNull)]] /\
  TableSorter.nullsLast "v" sorted.
Proof.
  intros sorted. split; [reflexivity|].
  pose proof (@nulls_sort_last Js.asciiHost "v" "number"
                (TableSorter.new TableSorter.sampleRecords)) as (_ & _ & _ & Hsettled).
  apply (Hsettled TableSorter.Desc). reflexivity.
Defined.

Section SorterTypeFacts.
Context `{Js.Host}.

(** C9 (as amended): when sort is called with type auto on a non-empty
    record array, the comparison type is inferred from the first record's
    value in the sort column, whether or not that value is null: a number
    gives the numeric comparison (difference of the parsed numbers), any
    other value, null and undefined included, gives the locale-aware
    comparison of the lower-cased texts.  When the first record's value is
    not null this is the first non-null sample value. *)
Theorem auto_type_from_first_record (column : string) (sample : Js.object)
    (rest : list Js.object) (s : TableSorter.t) :
  TableSorter.inferType "auto" column (sample :: rest)
    = (if Js.isNumber (Js.get sample column) then "number" else "string") /\
  (Js.isNullish (Js.get sample column) = false ->
   TableSorter.inferType "auto" column (sample :: rest)
     = TableSorter.inferTypeSpec "auto" column (sample :: rest)) /\
  TableSorter.data (TableSorter.sort column "auto" s)
    = TableSorter.arraySort
        (TableSorter.comparator column
           (TableSorter.inferType "auto" column (TableSorter.data s))
           (TableSorter.nextDirection column s))
        (TableSorter.data s) /\
  (forall a b,
      Js.isNullish (Js.get a column) = false ->
      Js.isNullish (Js.get b column) = false ->
      TableSorter.comparator column "number" TableSorter.Asc a b
        = PrimFloat.sub (Js.parseFloat (Js.get a column)) (Js.parseFloat (Js.get b column)) /\
      TableSorter.comparator column "string" TableSorter.Asc a b
        = Js.localeCompare (Js.toLowerCase (Js.toString (Js.get a column)))
                           (Js.toLowerCase (Js.toString (Js.get b column)))).
Proof.
  split; [reflexivity|]. split; [|split; [reflexivity|]].
  - intros Hv. unfold TableSorter.inferType, TableSorter.inferTypeSpec,
      TableSorter.firstNonNull. simpl. now rewrite Hv.
  - intros a b Ha Hb. unfold TableSorter.comparator. rewrite Ha, Hb. now split.
Qed.

End SorterTypeFacts.

Lemma auto_type_from_first_record_witness :
  TableSorter.inferType "auto" "v" TableSorter.numericRecords = "number" /\
  TableSorter.inferTypeSpec "auto" "v" TableSorter.numericRecords = "number".
Proof.
  pose proof (@auto_type_from_first_record Js.asciiHost "v"
                [("v", Js.VNum 10)] [[("v", Js.VNull)]; [("v", Js.VNum 9)]]
                (TableSorter.new [])) as (Hty & Hspec & _).
  split.
  - exact Hty.
  - etrans; [symmetry; apply Hspec; reflexivity|exact Hty].
Defined.

(** C9 (as stated) fails: the first record of the sample has null in the
    column and the first non-null value is the number 10, yet the type
    inferred is string. *)
Lemma auto_type_counterexample :
  TableSorter.firstNonNull "v" TableSorter.sampleRecords = Some (Js.VNum 10) /\
  TableSorter.inferTypeSpec "auto" "v" TableSorter.sampleRecords = "number" /\
  TableSorter.inferType "auto" "v" TableSorter.sampleRecords = "string" /\
  TableSorter.inferType "auto" "v" TableSorter.sampleRecords
    <> TableSorter.inferTypeSpec "auto" "v" TableSorter.sampleRecords.
Proof. repeat split. discriminate. Qed.

(** ** The CSV export *)

Lemma append_cons (c : ascii) (s t : string) :
  String c s +:+ t = String c (s +:+ t).
Proof. reflexivity. Qed.

Lemma append_empty_r (s : string) : s +:+ EmptyString = s.
Proof.
  induction s as [|c s IH]; [reflexivity|].
  now rewrite append_cons, IH.
Qed.

Lemma append_snoc (a : string) (c : ascii) (s : string) :
  (a +:+ Js.str c) +:+ s = a +:+ String c s.
Proof.
  induction a as [|x a IH]; [reflexivity|].
  now rewrite !append_cons, IH.
Qed.

Lemma append_is_empty (a b : string) :
  a +:+ b = EmptyString -> a = EmptyString /\ b = EmptyString.
Proof. destruct a; [auto|rewrite append_cons; discriminate]. Qed.

(** [includes] with a one-character needle looks for that character. *)
Lemma includes_char (c : ascii) (s : string) :
  Js.includes s (Js.str c) = Csv.hasChar c s.
Proof.
  induction s as [|a s IH]; [reflexivity|].
  simpl. rewrite IH. destruct (ascii_dec c a) as [->|Hne].
  - rewrite Ascii.eqb_refl. now destruct s.
  - assert (Ascii.eqb a c = false) as -> by (apply Ascii.eqb_neq; congruence).
    reflexivity.
Qed.

Lemma needsQuotes_chars (s : string) :
  Csv.needsQuotes s =
  Csv.hasChar Js.comma s || Csv.hasChar Js.dquote s || Csv.hasChar Js.newline s.
Proof. unfold Csv.needsQuotes. now rewrite !includes_char. Qed.

(** A text that is left bare and is safe is plain. *)
Lemma bare_is_plain (s : string) :
  Csv.needsQuotes s = false -> Csv.crSafe s = true -> Csv.isPlain s = true.
Proof.
  unfold Csv.crSafe, Csv.isPlain. intros Hq. rewrite Hq. simpl.
  rewrite needsQuotes_chars in Hq. rewrite Hq. simpl.
  now intros ->.
Qed.

Lemma escape_encodes (s : string) :
  Csv.crSafe s = true -> Csv.encodes (Csv.escape s) s.
Proof.
  intros Hsafe. unfold Csv.escape, Csv.encodes.
  destruct (Csv.needsQuotes s) eqn:Hq; [now right|].
  left. split; [reflexivity|now apply bare_is_plain].
Qed.

Section ReaderFacts.
Import CsvReader.

Lemma run_app (a b : string) (st : state) :
  run st (a +:+ b) = run (run st a) b.
Proof.
  revert st. induction a as [|c a IH]; intros st; [reflexivity|].
  rewrite append_cons. simpl. apply IH.
Qed.

Lemma isPlain_cons (c : ascii) (s : string) :
  Csv.isPlain (String c s) = true ->
  Ascii.eqb c Js.comma = false /\ Ascii.eqb c Js.dquote = false /\
  Ascii.eqb c Js.newline = false /\ Ascii.eqb c Js.creturn = false /\
  Csv.isPlain s = true.
Proof.
  unfold Csv.isPlain. simpl.
  rewrite !negb_true_iff, !orb_false_iff.
  intros ((((Hc & Hcs) & (Hq & Hqs)) & (Hn & Hns)) & (Hr & Hrs)).
  repeat split; auto.
Qed.

(** Reading a plain text appends it to the field under way. *)
Lemma run_plain (s : string) :
  Csv.isPlain s = true ->
  forall rs fs acc m, m = FieldStart \/ m = Unquoted ->
    run {| rows := rs; fields := fs; cur := acc; at_ := m |} s
    = {| rows := rs; fields := fs; cur := acc +:+ s;
         at_ := match s with EmptyString => m | String _ _ => Unquoted end |}.
Proof.
  induction s as [|c s IH]; intros Hp rs fs acc m Hm; simpl.
  - now rewrite append_empty_r.
  - apply isPlain_cons in Hp as (Hc & Hq & Hn & Hr & Hp).
    assert (step {| rows := rs; fields := fs; cur := acc; at_ := m |} c
            = {| rows := rs; fields := fs; cur := acc +:+ Js.str c; at_ := Unquoted |})
      as ->.
    { destruct Hm as [-> | ->]; unfold step, plainStep; simpl;
        rewrite ?Hq, Hc, Hn, Hr; reflexivity. }
    rewrite (IH Hp) by now right. rewrite append_snoc.
    now destruct s.
Qed.

(** Reading the doubled body of a quoted field appends the original. *)
Lemma run_quoted_body (v : string) :
  forall rs fs acc,
    run {| rows := rs; fields := fs; cur := acc; at_ := Quoted |} (Csv.doubleQuotes v)
    = {| rows := rs; fields := fs; cur := acc +:+ v; at_ := Quoted |}.
Proof.
  induction v as [|c v IH]; intros rs fs acc; simpl.
  - now rewrite append_empty_r.
  - destruct (Ascii.eqb c Js.dquote) eqn:Hq; simpl.
    + apply Ascii.eqb_eq in Hq. subst c.
      unfold step at 2. simpl. unfold step at 1. simpl.
      unfold push. simpl. rewrite IH. now rewrite append_snoc.
    + unfold step at 1. simpl. rewrite Hq. unfold push. simpl.
      rewrite IH. now rewrite append_snoc.
Qed.

(** Reading an encoded field from a field start leaves its text in the
    buffer, at a field end. *)
Lemma run_encoded (e v : string) :
  Csv.encodes e v ->
  forall rs fs, exists m,
    run {| rows := rs; fields := fs; cur := EmptyString; at_ := FieldStart |} e
    = {| rows := rs; fields := fs; cur := v; at_ := m |} /\
    doneMode m v /\ (m = FieldStart -> e = EmptyString).
Proof.
  intros [[-> Hp] | ->] rs fs.
  - rewrite (run_plain v Hp) by now left. simpl.
    destruct v; eexists; (split; [reflexivity|]); unfold doneMode; split; auto.
    discriminate.
  - exists QuoteSeen. simpl. unfold step at 1. simpl.
    rewrite run_app. unfold setMode. simpl. rewrite run_quoted_body. simpl.
    split; [reflexivity|]. unfold doneMode. split; [auto|discriminate].
Qed.

Lemma step_done_comma rs fs v m :
  doneMode m v ->
  step {| rows := rs; fields := fs; cur := v; at_ := m |} Js.comma
  = {| rows := rs; fields := fs ++ [v]; cur := EmptyString; at_ := FieldStart |}.
Proof. intros [-> | [-> | [-> ->]]]; reflexivity. Qed.

Lemma step_done_newline rs fs v m :
  doneMode m v ->
  step {| rows := rs; fields := fs; cur := v; at_ := m |} Js.newline
  = {| rows := rs ++ [fs ++ [v]]; fields := []; cur := EmptyString; at_ := FieldStart |}.
Proof. intros [-> | [-> | [-> ->]]]; reflexivity. Qed.

End ReaderFacts.

Section ReaderLines.
Import CsvReader.

Lemma run_char (st : state) (c : ascii) : run st (Js.str c) = step st c.
Proof. reflexivity. Qed.

Lemma join_one (sep x : string) : Js.join sep [x] = x.
Proof. reflexivity. Qed.

Lemma join_more (sep x y : string) (l : list string) :
  Js.join sep (x :: y :: l) = x +:+ sep +:+ Js.join sep (y :: l).
Proof. reflexivity. Qed.

Lemma join_two_filled (c : ascii) (x y : string) (l : list string) :
  Js.join (Js.str c) (x :: y :: l) <> EmptyString.
Proof.
  rewrite join_more. intros Habs.
  apply append_is_empty in Habs as [_ Habs]. discriminate.
Qed.

(** Reading one line: the fields read so far and the one under way are
    the texts of the line. *)
Lemma run_row (es vs : list string) :
  Forall2 Csv.encodes es vs -> es <> [] ->
  forall rs fs, exists fs' v m,
    run {| rows := rs; fields := fs; cur := EmptyString; at_ := FieldStart |}
        (Js.join (Js.str Js.comma) es)
    = {| rows := rs; fields := fs'; cur := v; at_ := m |} /\
    fs' ++ [v] = fs ++ vs /\ doneMode m v /\
    (m = FieldStart -> fs' = [] -> Js.join (Js.str Js.comma) es = EmptyString).
Proof.
  induction 1 as [|e v es vs He Hes IH]; intros Hne rs fs; [congruence|].
  destruct Hes as [|e2 v2 es vs He2 Hes].
  - destruct (run_encoded e v He rs fs) as (m & Hrun & Hdone & Hblank).
    exists fs, v, m. rewrite join_one. auto.
  - destruct (run_encoded e v He rs fs) as (m & Hrun & Hdone & _).
    destruct (IH ltac:(discriminate) rs (fs ++ [v])) as (fs' & v' & m' & Hrun' & Hfs & Hdone' & _).
    exists fs', v', m'. rewrite join_more, !run_app, Hrun, run_char.
    rewrite (step_done_comma _ _ _ _ Hdone), Hrun'.
    split; [reflexivity|]. split; [now rewrite Hfs, <- app_assoc|].
    split; [exact Hdone'|].
    intros _ ->. apply (f_equal length) in Hfs.
    rewrite !length_app in Hfs. simpl in Hfs. lia.
Qed.

(** Reading the lines of a text: the rows read so far and the line under
    way are the lines' texts. *)
Lemma run_lines (ess vss : list (list string)) :
  Forall2 (Forall2 Csv.encodes) ess vss ->
  Forall (fun es => es <> []) ess -> ess <> [] ->
  forall rs, exists rs' fs v m,
    run {| rows := rs; fields := []; cur := EmptyString; at_ := FieldStart |}
        (Js.join (Js.str Js.newline) (List.map (Js.join (Js.str Js.comma)) ess))
    = {| rows := rs'; fields := fs; cur := v; at_ := m |} /\
    rs' ++ [fs ++ [v]] = rs ++ vss /\ doneMode m v /\
    (m = FieldStart -> fs = [] ->
     List.last (List.map (Js.join (Js.str Js.comma)) ess) EmptyString = EmptyString).
Proof.
  induction 1 as [|es vs ess vss Hrow Hrows IH]; intros Hfilled Hne rs; [congruence|].
  apply Forall_cons in Hfilled as [Hes Hfilled].
  destruct (run_row es vs Hrow Hes rs []) as (fs & v & m & Hrun & Hfs & Hdone & Hblank).
  simpl in Hfs.
  destruct Hrows as [|es2 vs2 ess vss Hrow2 Hrows].
  - exists rs, fs, v, m.
    change (List.map (Js.join (Js.str Js.comma)) [es])
      with [Js.join (Js.str Js.comma) es].
    rewrite join_one.
    split; [exact Hrun|]. split; [now rewrite Hfs|].
    split; [exact Hdone|exact Hblank].
  - destruct (IH Hfilled ltac:(discriminate) (rs ++ [vs]))
      as (rs' & fs' & v' & m' & Hrun' & Hrs & Hdone' & Hblank').
    exists rs', fs', v', m'.
    change (List.map (Js.join (Js.str Js.comma)) (es :: es2 :: ess))
      with (Js.join (Js.str Js.comma) es ::
            List.map (Js.join (Js.str Js.comma)) (es2 :: ess)).
    change (List.map (Js.join (Js.str Js.comma)) (es2 :: ess))
      with (Js.join (Js.str Js.comma) es2 ::
            List.map (Js.join (Js.str Js.comma)) ess) at 1.
    rewrite join_more, !run_app, Hrun, run_char.
    rewrite (step_done_newline _ _ _ _ Hdone), Hfs.
    split; [exact Hrun'|]. split; [now rewrite Hrs, <- app_assoc|].
    split; [exact Hdone'|exact Hblank'].
Qed.

(** The reader gives back the texts of the lines, provided the last line
    is not empty. *)
Lemma parse_lines (ess vss : list (list string)) :
  Forall2 (Forall2 Csv.encodes) ess vss ->
  Forall (fun es => es <> []) ess -> ess <> [] ->
  List.last (List.map (Js.join (Js.str Js.comma)) ess) EmptyString <> EmptyString ->
  parse (Js.join (Js.str Js.newline) (List.map (Js.join (Js.str Js.comma)) ess)) = vss.
Proof.
  intros Henc Hfilled Hne Hlast.
  destruct (run_lines ess vss Henc Hfilled Hne [])
    as (rs & fs & v & m & Hrun & Hrs & Hdone & Hblank).
  unfold parse, init. rewrite Hrun. unfold finish. simpl in *.
  destruct Hdone as [-> | [-> | [-> ->]]]; try exact Hrs.
  destruct fs as [|f fs]; [|exact Hrs].
  exfalso. now apply Hlast, Hblank.
Qed.

End ReaderLines.

Section ExportFacts.
Context `{Js.Host}.

Lemma cell_encodes (v : Js.value) :
  Csv.crSafe (Csv.cellText v) = true -> Csv.encodes (Csv.cell v) (Csv.cellText v).
Proof.
  unfold Csv.cell, Csv.cellText. destruct (Js.isNullish v).
  - intros _. left. split; reflexivity.
  - apply escape_encodes.
Qed.

Lemma publication_cell_encodes (v : Js.value) :
  Csv.crSafe (PublicationsEngine.cellText v) = true ->
  Csv.encodes (PublicationsEngine.cell v) (PublicationsEngine.cellText v).
Proof. unfold PublicationsEngine.cell, PublicationsEngine.cellText. apply escape_encodes. Qed.

Lemma Forall2_map_same {A B C : Type} (R : B -> C -> Prop) (f : A -> B)
    (g : A -> C) (l : list A) :
  (forall x, In x l -> R (f x) (g x)) -> Forall2 R (List.map f l) (List.map g l).
Proof.
  induction l as [|x l IH]; intros Hl; simpl; constructor.
  - apply Hl. now left.
  - apply IH. intros y Hy. apply Hl. now right.
Qed.

Lemma last_filled (l : list string) (d : string) :
  Forall (fun s => s <> EmptyString) l -> l <> [] -> List.last l d <> EmptyString.
Proof.
  induction l as [|x l IH]; intros Hl Hne; [congruence|].
  apply Forall_cons in Hl as [Hx Hl]. destruct l as [|y l]; [exact Hx|].
  change (List.last (y :: l) d <> EmptyString). apply IH; [exact Hl|discriminate].
Qed.

(** With two columns or more no line of the text is empty. *)
Lemma two_columns_last_line (data : list Js.object) (cols : list Csv.column) :
  (2 <= length cols)%nat ->
  List.last (Csv.lines data cols) EmptyString <> EmptyString.
Proof.
  intros Hlen. destruct cols as [|c1 [|c2 cols]]; simpl in Hlen; try lia.
  apply last_filled; [|discriminate].
  unfold Csv.lines. constructor.
  - apply join_two_filled.
  - apply List.Forall_forall. intros line Hin. apply in_map_iff in Hin as (row & <- & _).
    apply join_two_filled.
Qed.

Lemma export_lines (data : list Js.object) (cols : list Csv.column) :
  Csv.lines data cols =
  List.map (Js.join (Js.str Js.comma))
    (List.map Csv.header cols ::
     List.map (fun row => List.map (fun col => Csv.cell (Js.get row (Csv.key col))) cols) data).
Proof. unfold Csv.lines. simpl. f_equal. now rewrite List.map_map. Qed.

Lemma export_round_trip (data : list Js.object) (cols : list Csv.column) :
  Forall (fun c => Csv.isPlain (Csv.header c) = true) cols ->
  (forall row col, In row data -> In col cols ->
     Csv.crSafe (Csv.cellText (Js.get row (Csv.key col))) = true) ->
  List.last (Csv.lines data cols) EmptyString <> EmptyString ->
  CsvReader.parse (Js.join (Js.str Js.newline) (Csv.lines data cols))
  = Csv.table data cols.
Proof.
  intros Hhead Hcells Hlast.
  assert (cols <> []) as Hcols.
  { intros ->. apply Hlast. apply eq_sym.
    assert (Forall (fun s => s = EmptyString) (Csv.lines data [])) as Hall.
    { unfold Csv.lines. constructor; [reflexivity|].
      apply List.Forall_forall. intros line Hin. now apply in_map_iff in Hin as (row & <- & _). }
    revert Hall. generalize (Csv.lines data []). intros l Hall.
    induction Hall as [|x l Hx Hall IH]; [reflexivity|].
    destruct l; [now rewrite Hx|exact IH]. }
  rewrite export_lines in *. apply parse_lines; [| |discriminate|exact Hlast].
  - constructor.
    + clear -Hhead. induction Hhead as [|c cols Hc Hhead IH]; simpl; constructor; auto.
      now left.
    + apply Forall2_map_same. intros row Hrow.
      apply Forall2_map_same. intros col Hcol.
      apply cell_encodes. now apply Hcells.
  - constructor.
    + destruct cols; [congruence|discriminate].
    + apply List.Forall_forall. intros es Hin. apply in_map_iff in Hin as (row & <- & _).
      destruct cols; [congruence|discriminate].
Qed.

Lemma publication_round_trip (e : PublicationsEngine.t) :
  (forall pub v, In pub (PublicationsEngine.filteredPublications e) ->
     In v (PublicationsEngine.rowOf pub) ->
     Csv.crSafe (PublicationsEngine.cellText v) = true) ->
  CsvReader.parse (PublicationsEngine.exportToCSV e)
  = PublicationsEngine.headers ::
    List.map (fun pub => List.map PublicationsEngine.cellText (PublicationsEngine.rowOf pub))
             (PublicationsEngine.filteredPublications e).
Proof.
  intros Hcells. unfold PublicationsEngine.exportToCSV.
  set (pubs := PublicationsEngine.filteredPublications e) in *.
  replace (Js.join (Js.str Js.comma) PublicationsEngine.headers ::
           List.map (fun row => Js.join (Js.str Js.comma) (List.map PublicationsEngine.cell row))
             (List.map PublicationsEngine.rowOf pubs))
    with (List.map (Js.join (Js.str Js.comma))
            (PublicationsEngine.headers ::
             List.map (fun pub => List.map PublicationsEngine.cell (PublicationsEngine.rowOf pub)) pubs))
    by (simpl; f_equal; now rewrite !List.map_map).
  apply parse_lines; [| |discriminate|].
  - constructor.
    + unfold PublicationsEngine.headers.
      repeat (constructor; [left; split; reflexivity|]). constructor.
    + apply Forall2_map_same. intros pub Hpub.
      apply Forall2_map_same. intros v Hv.
      apply publication_cell_encodes. now apply (Hcells pub).
  - constructor; [discriminate|].
    apply List.Forall_forall. intros es Hin. apply in_map_iff in Hin as (pub & <- & _).
    discriminate.
  - apply last_filled; [|discriminate].
    constructor; [apply join_two_filled|].
    apply List.Forall_forall. intros line Hin.
    apply in_map_iff in Hin as (es & <- & Hes).
    apply in_map_iff in Hes as (pub & <- & _). apply join_two_filled.
Qed.

End ExportFacts.

(** C3 (as amended).  Escaping: a null or undefined value renders as the
    empty string; any other value renders as its text, wrapped in double
    quotes with every inner quote doubled exactly when the text holds a
    comma, a double quote or a newline.  Header: for a non-empty record
    list the text opens with the header line.  Round trip: for a non-empty
    record list whose headers are plain, whose unquoted values hold no
    carriage return and whose last line is not empty (it never is with two
    columns or more), a standard CSV reader gives back the header row and,
    row by row, every value's text, the empty string standing for null and
    undefined; values with commas, quotes and newlines included.  The
    publications export reads back likewise (a falsy cell reads back as
    the empty string). *)
Theorem csv_export_round_trip `{Js.Host} (data : list Js.object)
    (cols : list Csv.column) (e : PublicationsEngine.t) :
  (forall v, Js.isNullish v = true -> Csv.cell v = EmptyString) /\
  (forall v, Js.isNullish v = false ->
     Csv.cell v =
     if Csv.needsQuotes (Js.toString v)
     then String Js.dquote (Csv.doubleQuotes (Js.toString v) +:+ Js.str Js.dquote)
     else Js.toString v) /\
  (forall s, Csv.needsQuotes s =
     Csv.hasChar Js.comma s || Csv.hasChar Js.dquote s || Csv.hasChar Js.newline s) /\
  (data <> [] ->
   exists rows,
     Csv.exportToCSV data (Some cols)
     = Some (Js.join (Js.str Js.newline)
               (Js.join (Js.str Js.comma) (List.map Csv.header cols) :: rows))) /\
  (data <> [] ->
   Forall (fun c => Csv.isPlain (Csv.header c) = true) cols ->
   (forall row col, In row data -> In col cols ->
      Csv.crSafe (Csv.cellText (Js.get row (Csv.key col))) = true) ->
   List.last (Csv.lines data cols) EmptyString <> EmptyString ->
   exists text,
     Csv.exportToCSV data (Some cols) = Some text /\
     CsvReader.parse text = Csv.table data cols) /\
  ((forall pub v, In pub (PublicationsEngine.filteredPublications e) ->
      In v (PublicationsEngine.rowOf pub) ->
      Csv.crSafe (PublicationsEngine.cellText v) = true) ->
   CsvReader.parse (PublicationsEngine.exportToCSV e)
   = PublicationsEngine.headers ::
     List.map (fun pub => List.map PublicationsEngine.cellText (PublicationsEngine.rowOf pub))
              (PublicationsEngine.filteredPublications e)).
Proof.
  split; [|split; [|split; [|split; [|split]]]].
  - intros v Hv. unfold Csv.cell. now rewrite Hv.
  - intros v Hv. unfold Csv.cell. now rewrite Hv.
  - apply needsQuotes_chars.
  - intros Hdata. destruct data as [|first rest]; [congruence|].
    eexists. reflexivity.
  - intros Hdata Hhead Hcells Hlast. destruct data as [|first rest]; [congruence|].
    eexists. split; [reflexivity|]. now apply export_round_trip.
  - apply publication_round_trip.
Qed.

Lemma csv_export_round_trip_witness :
  exists text,
    @Csv.exportToCSV Js.asciiHost Csv.sampleData (Some Csv.sampleColumns) = Some text /\
    CsvReader.parse text = @Csv.table Js.asciiHost Csv.sampleData Csv.sampleColumns.
Proof.
  pose proof (@csv_export_round_trip Js.asciiHost Csv.sampleData Csv.sampleColumns
                {| PublicationsEngine.allPublications := [];
                   PublicationsEngine.filteredPublications := [];
                   PublicationsEngine.currentSearchTerm := EmptyString;
                   PublicationsEngine.filters := PublicationsEngine.defaultFilters;
                   PublicationsEngine.paginator := Paginator.new [] (Paginator.Size 25) |})
    as (_ & _ & _ & _ & Hround & _).
  apply Hround.
  - discriminate.
  - repeat constructor.
  - intros row col [<- | [<- | [<- | []]]] [<- | [<- | []]]; reflexivity.
  - vm_compute. discriminate.
Defined.

(** C3 (as stated) fails for the empty record list: exportToCSV returns
    before it builds anything, so no header row is emitted and there is no
    text to read back. *)
Lemma csv_export_empty_counterexample :
  @Csv.exportToCSV Js.asciiHost [] (Some Csv.sampleColumns) = None /\
  ~ (exists text,
       @Csv.exportToCSV Js.asciiHost [] (Some Csv.sampleColumns) = Some text).
Proof. split; [reflexivity|]. intros [text Htext]. discriminate. Qed.

(** Outside the amended conditions the text need not read back: a value
    ending in a carriage return is left bare and loses it at the line
    break that follows. *)
Lemma csv_carriage_return_not_read_back :
  let cols := [{| Csv.key := "a"; Csv.header := "A" |};
               {| Csv.key := "b"; Csv.header := "B" |}] in
  let data := [[("a", Js.VStr "1"); ("b", Js.VStr ("x" +:+ Js.str Js.creturn))];
               [("a", Js.VStr "2"); ("b", Js.VStr "y")]] in
  exists text,
    @Csv.exportToCSV Js.asciiHost data (Some cols) = Some text /\
    CsvReader.parse text = [["A"; "B"]; ["1"; "x"]; ["2"; "y"]] /\
    CsvReader.parse text <> @Csv.table Js.asciiHost data cols.
Proof. eexists. repeat split. discriminate. Qed.

(** Likewise a single-column export whose last value is empty ends in a
    line break, and the last record is not read back. *)
Lemma csv_single_column_last_blank :
  let cols := [{| Csv.key := "a"; Csv.header := "A" |}] in
  let data := [[("a", Js.VStr "x")]; [("a", Js.VStr EmptyString)]] in
  exists text,
    @Csv.exportToCSV Js.asciiHost data (Some cols) = Some text /\
    CsvReader.parse text = [["A"]; ["x"]] /\
    @Csv.table Js.asciiHost data cols = [["A"]; ["x"]; [EmptyString]].
Proof. eexists. repeat split. Qed.


(** ** Paginator: the pages *)
Section PageFacts.
Context {A : Type}.
Implicit Types (p : Paginator.t A) (l : list A).


(** A slice inside the array is a [take] after a [drop]. *)
Lemma slice_inside l (s n : nat) :
  Paginator.slice l (Z.of_nat s) (Z.of_nat s + Z.of_nat n) = take n (drop s l).
Proof.
  unfold Paginator.slice.
  assert ((Z.of_nat s <? 0) = false) as -> by (apply Z.ltb_ge; lia).
  assert ((Z.of_nat s + Z.of_nat n <? 0) = false) as -> by (apply Z.ltb_ge; lia).
  set (len := Z.of_nat (length l)).
  destruct (decide (s <= length l)%nat) as [Hin|Hout].
  - rewrite (Z.min_l (Z.of_nat s) len) by lia. rewrite Nat2Z.id.
    destruct (decide (s + n <= length l)%nat) as [Hfit|Hcut].
    + rewrite (Z.min_l _ len) by lia. f_equal. lia.
    + rewrite (Z.min_r _ len) by lia.
      rewrite (take_ge (drop s l) n) by (rewrite length_drop; lia).
      apply take_ge. rewrite length_drop. lia.
  - rewrite (Z.min_r (Z.of_nat s) len) by lia.
    rewrite (Z.min_r _ len) by lia.
    rewrite (drop_ge l s) by lia.
    rewrite drop_ge by lia. now rewrite !take_nil.
Qed.

Lemma slice_page l (s n : Z) :
  0 <= s -> 0 <= n ->
  Paginator.slice l s (s + n) = take (Z.to_nat n) (drop (Z.to_nat s) l).
Proof.
  intros Hs Hn. rewrite <- (slice_inside l (Z.to_nat s) (Z.to_nat n)).
  now rewrite !Z2Nat.id by lia.
Qed.





(** Whole numbers up to 2^53 in size are doubles. *)
Lemma nearestDouble_small (z : Z) :
  Z.abs z <= 2 ^ 53 -> Paginator.nearestDouble z = z.
Proof.
  intros Hz. unfold Paginator.nearestDouble.
  now apply Z.leb_le in Hz as ->.
Qed.

(** X3: On a whole-numbered page within range, next and previous undo each
    other as long as the page numbers stay within 2^53 (next from a page
    below 2^53, previous from a page up to 2^53), and at the first and
    the last page they change nothing. *)
Theorem next_prev_inverse p (n : Z) :
  Paginator.currentPage p = Paginator.Page n ->
  Paginator.inRange p ->
  (n < 2 ^ 53 ->
   Paginator.ltCount (Paginator.currentPage p) (Paginator.getTotalPages p) = true ->
   Paginator.currentPage (Paginator.nextPage p) = Paginator.Page (n + 1) /\
   Paginator.prevPage (Paginator.nextPage p) = p) /\
  (n <= 2 ^ 53 -> 1 < n ->
   Paginator.currentPage (Paginator.prevPage p) = Paginator.Page (n - 1) /\
   Paginator.nextPage (Paginator.prevPage p) = p) /\
  (n = 1 -> Paginator.prevPage p = p) /\
  (Paginator.ltCount (Paginator.currentPage p) (Paginator.getTotalPages p) = false ->
   Paginator.nextPage p = p).
Proof.
  intros Hcp [Hlo Hhi]. destruct p as [data size cp].
  cbn [Paginator.currentPage] in *. subst cp.
  cbn [Paginator.geOne] in Hlo. apply Z.leb_le in Hlo.
  set (total := Paginator.getTotalPages
                  {| Paginator.allData := data; Paginator.itemsPerPage := size;
                     Paginator.currentPage := Paginator.Page n |}) in *.
  assert (forall c, Paginator.getTotalPages
                      {| Paginator.allData := data; Paginator.itemsPerPage := size;
                         Paginator.currentPage := c |} = total) as Htot by reflexivity.
  assert ((n <? 1) = false) as Hn1 by (apply Z.ltb_ge; lia).
  unfold Paginator.nextPage, Paginator.prevPage, Paginator.goToPage.
  cbn [Paginator.currentPage Paginator.allData Paginator.itemsPerPage
       Paginator.plusOne Paginator.minusOne Paginator.ltOne Paginator.gtOne].
  rewrite !Htot.
  split; [|split; [|split]].
  - intros Hbound Hnext. rewrite Hnext.
    assert (Paginator.gtCount (Paginator.Page n) total = false) as Hin.
    { destruct total; cbn in *; try reflexivity; try discriminate.
      apply Z.ltb_lt in Hnext. apply Z.ltb_ge. lia. }
    rewrite (nearestDouble_small (n + 1)) by (apply Z.abs_le; lia).
    assert ((n + 1 <? 1) = false) as -> by (apply Z.ltb_ge; lia).
    assert (Paginator.gtCount (Paginator.Page (n + 1)) total = false) as ->.
    { destruct total; cbn in *; try reflexivity; try discriminate.
      apply Z.ltb_lt in Hnext. apply Z.ltb_ge. lia. }
    cbn [orb Paginator.currentPage Paginator.allData Paginator.itemsPerPage
         Paginator.plusOne Paginator.minusOne Paginator.ltOne Paginator.gtOne].
    rewrite !Htot.
    assert ((1 <? n + 1) = true) as -> by (apply Z.ltb_lt; lia).
    replace (n + 1 - 1) with n by lia.
    rewrite (nearestDouble_small n) by (apply Z.abs_le; lia).
    rewrite Hn1, Hin. cbn [orb]. auto.
  - intros Hbound Hprev.
    assert (Paginator.gtCount (Paginator.Page n) total = false) as Hin.
    { destruct total; cbn in *; try reflexivity; try discriminate;
        apply Z.leb_le in Hhi; try (apply Z.ltb_ge); lia. }
    assert ((1 <? n) = true) as -> by (apply Z.ltb_lt; lia).
    rewrite (nearestDouble_small (n - 1)) by (apply Z.abs_le; lia).
    assert ((n - 1 <? 1) = false) as -> by (apply Z.ltb_ge; lia).
    assert (Paginator.gtCount (Paginator.Page (n - 1)) total = false) as ->.
    { destruct total; cbn in *; try reflexivity; try discriminate;
        apply Z.leb_le in Hhi; try (apply Z.ltb_ge); lia. }
    cbn [orb Paginator.currentPage Paginator.allData Paginator.itemsPerPage
         Paginator.plusOne Paginator.minusOne Paginator.ltOne Paginator.gtOne].
    rewrite !Htot.
    assert (Paginator.ltCount (Paginator.Page (n - 1)) total = true) as ->.
    { destruct total; cbn in *; try reflexivity; try discriminate;
        apply Z.leb_le in Hhi; try (apply Z.ltb_lt); lia. }
    replace (n - 1 + 1) with n by lia.
    rewrite (nearestDouble_small n) by (apply Z.abs_le; lia).
    rewrite Hn1, Hin. cbn [orb]. auto.
  - intros ->. reflexivity.
  - intros Hlast. now rewrite Hlast.
Qed.

End PageFacts.



Lemma next_prev_inverse_witness :
  Paginator.prevPage
    (Paginator.nextPage (Paginator.new [1; 2; 3; 4; 5]%nat (Paginator.Size 2)))
  = Paginator.new [1; 2; 3; 4; 5]%nat (Paginator.Size 2).
Proof.
  pose proof (next_prev_inverse (Paginator.new [1; 2; 3; 4; 5]%nat (Paginator.Size 2)) 1
                eq_refl (conj eq_refl eq_refl)) as (Hnext & _).
  apply Hnext; reflexivity.
Defined.

(** ** The filter engines: how the clauses combine *)

Lemma clause_In {A : Type} (active : bool) (keep : A -> bool) (l : list A) (x : A) :
  In x (if active then List.filter keep l else l) <->
  In x l /\ (active = true -> keep x = true).
Proof.
  destruct active.
  - rewrite filter_In. intuition.
  - intuition. discriminate.
Qed.

Lemma filter_none {A : Type} (keep : A -> bool) (l : list A) :
  (forall x, keep x = false) -> List.filter keep l = [].
Proof.
  intros Hk. induction l as [|x l IH]; simpl; [reflexivity|].
  now rewrite Hk.
Qed.

Section ClauseFacts.
Context `{Js.Host}.
Import GeneSearchEngine.

(** X4: A gene is in the filtered list exactly when it is in the record array
    and passes every clause that is switched on. *)
Theorem gene_clauses_conjunction (term : string) (f : Filters.t)
    (genes : list Gene.t) (g : Gene.t) :
  In g (filterResults term f genes) <->
  In g genes /\
  (Js.truthy term = true ->
   matchesText (Gene.symbol g) (Js.toLowerCase term) ||
   matchesText (Gene.name g) (Js.toLowerCase term) ||
   matchesText (Gene.ensembl_id g) (Js.toLowerCase term) = true) /\
  (Filters.regulation f <> "all" -> hasRegulation f g = true) /\
  ((0 < length (activeDatasets f) < 4)%nat ->
   exists ds, In ds (activeDatasets f) /\ inDataset g ds = true) /\
  (Js.lt (Filters.pvalueThreshold f) 1.0 = true -> hasSignificantPvalue f g = true) /\
  (isSet (Filters.log2fcMin f) || isSet (Filters.log2fcMax f) = true ->
   passesLog2fc f g = true).
Proof.
  unfold filterResults, log2fcFilter, pvalueFilter, datasetFilter,
    regulationFilter, searchFilter.
  rewrite !clause_In.
  assert (negb (String.eqb (Filters.regulation f) "all") = true
          <-> Filters.regulation f <> "all") as Hreg.
  { rewrite negb_true_iff. apply String.eqb_neq. }
  assert ((Nat.ltb 0 (length (activeDatasets f)) &&
           Nat.ltb (length (activeDatasets f)) 4)%bool = true
          <-> (0 < length (activeDatasets f) < 4)%nat) as Hact.
  { rewrite andb_true_iff, !Nat.ltb_lt. reflexivity. }
  unfold Js.some. rewrite Hreg, Hact.
  setoid_rewrite existsb_exists. tauto.
Qed.

(** X5: With the bulk, P15 and P30 toggles all off, selecting a regulation or
    a p-value threshold below 1.0 leaves no gene at all, whatever the
    seizure toggle and whatever else is set. *)
Theorem observed_toggles_off_empty (term regulation : string) (seizure : bool)
    (threshold : float) (lo hi : option float) (genes : list Gene.t) :
  regulation <> "all" \/ Js.lt threshold 1.0 = true ->
  filterResults term
    {| Filters.regulation := regulation;
       Filters.datasets := observedOff seizure;
       Filters.pvalueThreshold := threshold;
       Filters.log2fcMin := lo; Filters.log2fcMax := hi |} genes = [].
Proof.
  intros Hsel. unfold filterResults.
  set (f := {| Filters.regulation := regulation;
               Filters.datasets := observedOff seizure;
               Filters.pvalueThreshold := threshold;
               Filters.log2fcMin := lo; Filters.log2fcMax := hi |}).
  assert (log2fcFilter f [] = []) as Hfc
    by (unfold log2fcFilter; case_match; reflexivity).
  assert (pvalueFilter f [] = []) as Hpv
    by (unfold pvalueFilter; case_match; reflexivity).
  assert (datasetFilter f [] = []) as Hds
    by (unfold datasetFilter; case_match; reflexivity).
  destruct Hsel as [Hreg|Hthr].
  - assert (regulationFilter f (searchFilter term genes) = []) as ->.
    { unfold regulationFilter. simpl.
      apply String.eqb_neq in Hreg. rewrite Hreg. simpl.
      now apply filter_none. }
    now rewrite Hds, Hpv, Hfc.
  - assert (forall l, pvalueFilter f l = []) as Hall.
    { intros l. unfold pvalueFilter. simpl. rewrite Hthr. now apply filter_none. }
    now rewrite Hall, Hfc.
Qed.

(** X6: Applying the filters twice is applying them once; every application
    puts the paginator on page 1 over the filtered list; and a reset, from
    any state, shows the whole record array on page 1. *)
Theorem applyFilters_idempotent_reset (e : t) :
  applyFilters (applyFilters e) = applyFilters e /\
  Paginator.currentPage (paginator (applyFilters e)) = 1 /\
  filteredGenes (resetFilters e) = allGenes e /\
  Paginator.allData (paginator (resetFilters e)) = allGenes e /\
  Paginator.currentPage (paginator (resetFilters e)) = 1 /\
  resetFilters (resetFilters e) = resetFilters e.
Proof. repeat split. Qed.

End ClauseFacts.

Lemma gene_clauses_conjunction_witness :
  let f := GeneSearchEngine.sampleFilters GeneSearchEngine.allOn 0.05 None None in
  let g := GeneSearchEngine.sampleGene
             (Some (GeneSearchEngine.sampleObservation (-2.0) 0.01)) in
  In g (@GeneSearchEngine.filterResults Js.asciiHost "CACNA" f [g]).
Proof.
  intros f g. apply (@gene_clauses_conjunction Js.asciiHost "CACNA" f [g] g).
  split; [now left|]. split; [reflexivity|]. split; [intros Hreg; now elim Hreg|].
  split; [simpl; lia|]. split; [reflexivity|discriminate].
Defined.

Lemma observed_toggles_off_empty_witness :
  @GeneSearchEngine.filterResults Js.asciiHost EmptyString
    {| GeneSearchEngine.Filters.regulation := "up";
       GeneSearchEngine.Filters.datasets := GeneSearchEngine.observedOff true;
       GeneSearchEngine.Filters.pvalueThreshold := 1.0;
       GeneSearchEngine.Filters.log2fcMin := None;
       GeneSearchEngine.Filters.log2fcMax := None |}
    [GeneSearchEngine.sampleGene (Some (GeneSearchEngine.sampleObservation 2.0 0.01))]
  = [].
Proof. apply observed_toggles_off_empty. left. discriminate. Defined.

Lemma bound_In {A B : Type} (bound : option B) (keep : B -> A -> bool)
    (l : list A) (x : A) :
  In x (match bound with
        | Some b => List.filter (keep b) l
        | None => l
        end) <->
  In x l /\ (forall b, bound = Some b -> keep b x = true).
Proof.
  destruct bound as [b|].
  - rewrite filter_In. split.
    + intros [Hin Hk]. split; [exact Hin|]. now intros b' [= <-].
    + intros [Hin Hk]. auto.
  - split; [intros Hin; split; [exact Hin|discriminate]|tauto].
Qed.

(** Comparisons against zero and against NaN. *)
Lemma lt_zero_not_le (x : float) : Js.lt 0 x = true -> Js.le x 0 = false.
Proof.
  unfold Js.lt, Js.le. rewrite ltb_spec, leb_spec.
  replace (Prim2SF 0) with (S754_zero false) by reflexivity.
  destruct (Prim2SF x) as [sg|sg| |sg m e]; try destruct sg; simpl;
    intros Hlt; try reflexivity; try discriminate.
Qed.

Lemma nan_le_false (x : float) : Js.le nan x = false /\ Js.le x nan = false.
Proof.
  unfold Js.le. rewrite !leb_spec.
  replace (Prim2SF nan) with S754_nan by reflexivity.
  split; destruct (Prim2SF x) as [sg|sg| |sg m e]; try destruct sg; reflexivity.
Qed.

Section PublicationClauses.
Context `{Js.Host}.
Import PublicationsEngine.

(** X7: A publication is in the filtered list exactly when it is in the
    record array and passes every clause that is switched on. *)
Theorem publication_clauses_conjunction (term : string) (f : Filters.t)
    (pubs : list Publication.t) (pub : Publication.t) :
  In pub (filterResults term f pubs) <->
  In pub pubs /\
  (Js.truthy term = true ->
   matchesText (Publication.title pub) (Js.toLowerCase term) ||
   matchesText (Publication.authors pub) (Js.toLowerCase term) ||
   matchesText (Publication.abstract pub) (Js.toLowerCase term) ||
   matchesText (Publication.journal pub) (Js.toLowerCase term) ||
   matchesText (Publication.takeaway pub) (Js.toLowerCase term) = true) /\
  (forall lo, Filters.yearMin f = Some lo ->
     Js.ge (Js.toNumber (Publication.year pub)) lo = true) /\
  (forall hi, Filters.yearMax f = Some hi ->
     Js.le (Js.toNumber (Publication.year pub)) hi = true) /\
  (Filters.quartile f <> "all" ->
   if String.eqb (Filters.quartile f) "unranked"
   then blank (Publication.sjr_quartile pub) = true
   else Publication.sjr_quartile pub = Some (Filters.quartile f)) /\
  (Filters.studyType f <> "all" ->
   match Publication.study_type pub with
   | Some st =>
       if String.eqb (Filters.studyType f) "other"
       then negb (Js.truthy st) ||
            negb (List.existsb (String.eqb (Js.toLowerCase st)) knownTypes) = true
       else Js.truthy st &&
            String.eqb (Js.toLowerCase st) (Js.toLowerCase (Filters.studyType f)) = true
   | None => String.eqb (Filters.studyType f) "other" = true
   end) /\
  (forall least, Filters.citationMin f = Some least ->
     Js.ge (Js.toNumber (Publication.citations pub)) least = true) /\
  (Js.truthy (Filters.journal f) = true ->
   matchesText (Publication.journal pub) (Js.toLowerCase (Filters.journal f)) = true).
Proof.
  unfold filterResults, journalFilter, citationFilter, yearFilter, searchFilter.
  rewrite clause_In, (bound_In (Filters.citationMin f)).
  assert (forall l,
    In pub (studyTypeFilter f l) <->
    In pub l /\
    (Filters.studyType f <> "all" ->
     match Publication.study_type pub with
     | Some st =>
         if String.eqb (Filters.studyType f) "other"
         then negb (Js.truthy st) ||
              negb (List.existsb (String.eqb (Js.toLowerCase st)) knownTypes) = true
         else Js.truthy st &&
              String.eqb (Js.toLowerCase st) (Js.toLowerCase (Filters.studyType f)) = true
     | None => String.eqb (Filters.studyType f) "other" = true
     end)) as Hstudy.
  { intros l. unfold studyTypeFilter.
    destruct (String.eqb_spec (Filters.studyType f) "all") as [Heq|Hne]; simpl.
    - tauto.
    - destruct (String.eqb (Filters.studyType f) "other");
        rewrite filter_In; destruct (Publication.study_type pub);
        intuition; discriminate. }
  assert (forall l,
    In pub (quartileFilter f l) <->
    In pub l /\
    (Filters.quartile f <> "all" ->
     if String.eqb (Filters.quartile f) "unranked"
     then blank (Publication.sjr_quartile pub) = true
     else Publication.sjr_quartile pub = Some (Filters.quartile f))) as Hquart.
  { intros l. unfold quartileFilter.
    destruct (String.eqb_spec (Filters.quartile f) "all") as [Heq|Hne]; simpl.
    - tauto.
    - destruct (String.eqb (Filters.quartile f) "unranked"); rewrite filter_In.
      + tauto.
      + destruct (Publication.sjr_quartile pub) as [q|].
        * destruct (String.eqb_spec q (Filters.quartile f)); intuition congruence.
        * intuition; discriminate. }
  rewrite Hstudy, Hquart.
  rewrite (bound_In (Filters.yearMax f)), (bound_In (Filters.yearMin f)), clause_In.
  tauto.
Qed.

(** X8: Publications without a year: with year null (what the converter
    stores for an unreadable year) a from-year above zero removes the
    publication while a to-year at or above zero alone keeps it; with the
    year missing altogether any year bound removes it. *)
Theorem unknown_year_bounds (f : Filters.t) (pub : Publication.t)
    (pubs : list Publication.t) :
  (Publication.year pub = Js.NNull ->
   (forall lo hi, Js.lt 0 lo = true ->
      ~ In pub (yearFilter (withYears f (Some lo) hi) pubs)) /\
   (forall hi, Js.le 0 hi = true ->
      (In pub (yearFilter (withYears f None (Some hi)) pubs) <-> In pub pubs))) /\
  (Publication.year pub = Js.NUndefined ->
   forall lo hi, lo <> None \/ hi <> None ->
     ~ In pub (yearFilter (withYears f lo hi) pubs)).
Proof.
  split.
  - intros Hyear. split.
    + intros lo hi Hlo Hin. unfold yearFilter in Hin. simpl in Hin.
      apply bound_In in Hin as [Hin _]. apply filter_In in Hin as [_ Hge].
      rewrite Hyear in Hge. simpl in Hge. unfold Js.ge in Hge.
      pose proof (lt_zero_not_le lo Hlo) as Hle. unfold Js.le in Hle. congruence.
    + intros hi Hhi. unfold yearFilter. simpl. rewrite filter_In, Hyear. simpl.
      tauto.
  - intros Hyear lo hi Hset Hin. unfold yearFilter in Hin. simpl in Hin.
    apply bound_In in Hin as [Hin Hhi].
    apply bound_In in Hin as [_ Hlo].
    rewrite Hyear in Hlo, Hhi. simpl in Hlo, Hhi.
    destruct lo as [lo|].
    + specialize (Hlo lo eq_refl). unfold Js.ge in Hlo.
      destruct (nan_le_false lo) as [_ Hn]. unfold Js.le in Hn. congruence.
    + destruct hi as [hi|]; [|destruct Hset; congruence].
      specialize (Hhi hi eq_refl).
      destruct (nan_le_false hi) as [Hn _]. congruence.
Qed.

(** X9: The study type selections partition the record array: when lower
    case leaves the three known type names as they are, the selection
    other keeps exactly the publications that none of the three known
    selections keeps. *)
Theorem study_type_partition (f : Filters.t) (pub : Publication.t)
    (pubs : list Publication.t) :
  (forall k, In k knownTypes -> Js.toLowerCase k = k) ->
  (In pub (studyTypeFilter (withStudyType f "other") pubs) <->
   In pub pubs /\
   forall k, In k knownTypes -> ~ In pub (studyTypeFilter (withStudyType f k) pubs)).
Proof.
  intros Hfix.
  assert (forall k, In k knownTypes ->
            (In pub (studyTypeFilter (withStudyType f k) pubs) <->
             In pub pubs /\
             match Publication.study_type pub with
             | Some st => Js.truthy st && String.eqb (Js.toLowerCase st) k = true
             | None => False
             end)) as Hknown.
  { intros k Hk. unfold studyTypeFilter. simpl.
    rewrite (Hfix k Hk).
    assert (negb (String.eqb k "all") = true /\ String.eqb k "other" = false) as [-> ->].
    { simpl in Hk. destruct Hk as [<- | [<- | [<- | []]]]; split; reflexivity. }
    rewrite filter_In. destruct (Publication.study_type pub); intuition; discriminate. }
  clear Hfix. unfold studyTypeFilter at 1.
  remember knownTypes as known eqn:Hknowndef.
  simpl. rewrite filter_In. split.
  - intros [Hin Hother]. split; [exact Hin|]. intros k Hk Hkept.
    apply (Hknown k Hk) in Hkept as [_ Hkept].
    destruct (Publication.study_type pub) as [st|]; [|contradiction].
    apply andb_true_iff in Hkept as [Htruthy Heq].
    rewrite Htruthy in Hother. simpl in Hother.
    apply negb_true_iff in Hother.
    assert (List.existsb (String.eqb (Js.toLowerCase st)) known = true) as Hex
      by (apply existsb_exists; exists k; split; assumption).
    congruence.
  - intros [Hin Hnone]. split; [exact Hin|].
    destruct (Publication.study_type pub) as [st|] eqn:Hst; [|reflexivity].
    destruct (Js.truthy st) eqn:Htruthy; [|reflexivity]. simpl.
    apply negb_true_iff.
    destruct (List.existsb (String.eqb (Js.toLowerCase st)) known) eqn:Hex;
      [|reflexivity].
    exfalso. apply existsb_exists in Hex as (k & Hk & Heq).
    apply (Hnone k Hk). apply (Hknown k Hk). split; [exact Hin|].
    exact Heq.
Qed.

End PublicationClauses.

Lemma publication_clauses_conjunction_witness :
  let pub := PublicationsEngine.samplePublication (Js.NNum 2020) (Some "Systematic Review") in
  let f := PublicationsEngine.withYears
             (PublicationsEngine.withStudyType PublicationsEngine.defaultFilters
                "systematic review")
             (Some 2015%float) None in
  In pub (@PublicationsEngine.filterResults Js.asciiHost "gaers" f [pub]).
Proof.
  intros pub f.
  apply (@publication_clauses_conjunction Js.asciiHost "gaers" f [pub] pub).
  split; [now left|]. split; [reflexivity|].
  split; [intros lo [= <-]; reflexivity|]. split; [discriminate|].
  split; [intros Hq; now elim Hq|]. split; [reflexivity|].
  split; [discriminate|discriminate].
Defined.

Lemma unknown_year_bounds_witness :
  let pub := PublicationsEngine.samplePublication Js.NNull None in
  ~ In pub (PublicationsEngine.yearFilter
              (PublicationsEngine.withYears PublicationsEngine.defaultFilters
                 (Some 2015%float) None) [pub]) /\
  In pub (PublicationsEngine.yearFilter
            (PublicationsEngine.withYears PublicationsEngine.defaultFilters
               None (Some 2020%float)) [pub]).
Proof.
  intros pub.
  destruct (unknown_year_bounds PublicationsEngine.defaultFilters pub [pub])
    as [Hnull _].
  destruct (Hnull eq_refl) as [Hfrom Hto]. split.
  - apply Hfrom. reflexivity.
  - apply Hto; [reflexivity|now left].
Defined.

Lemma study_type_partition_witness :
  let pub := PublicationsEngine.samplePublication (Js.NNum 2020) (Some "Case Report") in
  In pub (@PublicationsEngine.studyTypeFilter Js.asciiHost
            (PublicationsEngine.withStudyType PublicationsEngine.defaultFilters "other")
            [pub]).
Proof.
  intros pub.
  apply (@study_type_partition Js.asciiHost PublicationsEngine.defaultFilters pub [pub]).
  - intros k [<- | [<- | [<- | []]]]; reflexivity.
  - split; [now left|]. intros k Hk Hin.
    destruct Hk as [<- | [<- | [<- | []]]]; vm_compute in Hin; exact Hin.
Defined.

(** ** The converters: counters and the enrichment selection *)

Lemma rnaseq_stream_invariant (rows : list RnaseqConvert.row) (st : RnaseqConvert.state) :
  let st' := fold_left RnaseqConvert.handleData rows st in
  RnaseqConvert.genes st' = RnaseqConvert.genes st ++ List.map RnaseqConvert.onData rows /\
  RnaseqConvert.total st' = (RnaseqConvert.total st + length rows)%nat /\
  RnaseqConvert.upregulated st' =
    (RnaseqConvert.upregulated st +
     length (List.filter (RnaseqConvert.tagged "up") (List.map RnaseqConvert.onData rows)))%nat /\
  RnaseqConvert.downregulated st' =
    (RnaseqConvert.downregulated st +
     length (List.filter (RnaseqConvert.tagged "down") (List.map RnaseqConvert.onData rows)))%nat.
Proof.
  revert st. induction rows as [|r rows IH]; intros st; simpl.
  - rewrite app_nil_r. repeat split; lia.
  - destruct (IH (RnaseqConvert.handleData st r)) as (Hg & Ht & Hu & Hd).
    rewrite Hg, Ht, Hu, Hd. unfold RnaseqConvert.tagged. simpl.
    split; [now rewrite <- app_assoc|]. split; [lia|].
    destruct (Js.gt (RnaseqConvert.log2FoldChange r) 0); simpl; lia.
Qed.

Lemma spatial_stream_invariant (rows : list SpatialConvert.row) (st : SpatialConvert.state) :
  let st' := fold_left SpatialConvert.handleData rows st in
  SpatialConvert.genes st' = SpatialConvert.genes st ++ List.map SpatialConvert.onData rows /\
  SpatialConvert.total st' = (SpatialConvert.total st + length rows)%nat /\
  SpatialConvert.upregulated st' =
    (SpatialConvert.upregulated st +
     length (List.filter (SpatialConvert.tagged "up") (List.map SpatialConvert.onData rows)))%nat /\
  SpatialConvert.downregulated st' =
    (SpatialConvert.downregulated st +
     length (List.filter (SpatialConvert.tagged "down") (List.map SpatialConvert.onData rows)))%nat.
Proof.
  revert st. induction rows as [|r rows IH]; intros st; simpl.
  - rewrite app_nil_r. repeat split; lia.
  - destruct (IH (SpatialConvert.handleData st r)) as (Hg & Ht & Hu & Hd).
    rewrite Hg, Ht, Hu, Hd. unfold SpatialConvert.tagged. simpl.
    split; [now rewrite <- app_assoc|]. split; [lia|].
    destruct (Js.gt (SpatialConvert.logFC_col r) 0); simpl; lia.
Qed.

(** X10: After any run of rows both converters hold one record per row, in
    row order; the total counts the rows, the up and down counters count
    the records tagged up and down, and together they make up the
    total. *)
Theorem converter_counters (rows : list RnaseqConvert.row)
    (spatialRows : list SpatialConvert.row) :
  let st := RnaseqConvert.stream rows in
  let sp := SpatialConvert.stream spatialRows in
  (RnaseqConvert.genes st = List.map RnaseqConvert.onData rows /\
   RnaseqConvert.total st = length rows /\
   RnaseqConvert.upregulated st
     = length (List.filter (RnaseqConvert.tagged "up") (RnaseqConvert.genes st)) /\
   RnaseqConvert.downregulated st
     = length (List.filter (RnaseqConvert.tagged "down") (RnaseqConvert.genes st)) /\
   (RnaseqConvert.upregulated st + RnaseqConvert.downregulated st)%nat
     = RnaseqConvert.total st) /\
  (SpatialConvert.genes sp = List.map SpatialConvert.onData spatialRows /\
   SpatialConvert.total sp = length spatialRows /\
   SpatialConvert.upregulated sp
     = length (List.filter (SpatialConvert.tagged "up") (SpatialConvert.genes sp)) /\
   SpatialConvert.downregulated sp
     = length (List.filter (SpatialConvert.tagged "down") (SpatialConvert.genes sp)) /\
   (SpatialConvert.upregulated sp + SpatialConvert.downregulated sp)%nat
     = SpatialConvert.total sp).
Proof.
  intros st sp. split.
  - destruct (rnaseq_stream_invariant rows RnaseqConvert.start) as (Hg & Ht & Hu & Hd).
    fold (RnaseqConvert.stream rows) in Hg, Ht, Hu, Hd. fold st in Hg, Ht, Hu, Hd.
    simpl in *. rewrite Hg. repeat split; try assumption.
    rewrite Hu, Hd, Ht. clear. induction rows as [|r rows IH]; [reflexivity|].
    unfold RnaseqConvert.tagged in *. simpl in *.
    destruct (Js.gt (RnaseqConvert.log2FoldChange r) 0); simpl; lia.
  - destruct (spatial_stream_invariant spatialRows SpatialConvert.start) as (Hg & Ht & Hu & Hd).
    fold (SpatialConvert.stream spatialRows) in Hg, Ht, Hu, Hd. fold sp in Hg, Ht, Hu, Hd.
    simpl in *. rewrite Hg. repeat split; try assumption.
    rewrite Hu, Hd, Ht. clear. induction spatialRows as [|r rows IH]; [reflexivity|].
    unfold SpatialConvert.tagged in *. simpl in *.
    destruct (Js.gt (SpatialConvert.logFC_col r) 0); simpl; lia.
Qed.

(** X11: A row whose fold-change or adjusted p-value cell does not parse (NaN)
    gives a record that is never significant; with an unparsable
    fold-change the record is tagged down and counted as down-regulated. *)
Theorem unparsable_row_not_significant (r : SpatialConvert.row)
    (q : RnaseqConvert.row) :
  (SpatialConvert.logFC_col r = nan \/ SpatialConvert.adj_P_Val_col r = nan ->
   SpatialConvert.significant (SpatialConvert.onData r) = false) /\
  (SpatialConvert.logFC_col r = nan ->
   SpatialConvert.regulation (SpatialConvert.onData r) = "down") /\
  (RnaseqConvert.log2FoldChange q = nan \/ RnaseqConvert.padj_col q = nan ->
   RnaseqConvert.significant (RnaseqConvert.onData q) = false) /\
  (RnaseqConvert.log2FoldChange q = nan ->
   RnaseqConvert.regulation (RnaseqConvert.onData q) = "down").
Proof.
  repeat split; simpl.
  - intros [-> | ->]; [apply andb_false_r|reflexivity].
  - now intros ->.
  - intros [-> | ->]; [apply andb_false_r|reflexivity].
  - now intros ->.
Qed.

Lemma unparsable_row_not_significant_witness :
  SpatialConvert.significant
    (SpatialConvert.onData (SpatialConvert.withStats SpatialConvert.sampleRow nan 0.001))
  = false.
Proof.
  pose proof (unparsable_row_not_significant
                (SpatialConvert.withStats SpatialConvert.sampleRow nan 0.001)
                RnaseqConvert.sampleRow) as (Hs & _).
  apply Hs. left. reflexivity.
Defined.

Section EnrichmentFacts.
Import Enrichment.

Lemma enrichment_collect (rows : list row) (cat : string) (acc : list term) :
  fold_left (fun terms r => handleData terms cat r) rows acc
  = acc ++ List.filter significantTerm (List.map (toTerm cat) rows).
Proof.
  revert acc. induction rows as [|r rows IH]; intros acc; simpl.
  - now rewrite app_nil_r.
  - rewrite IH. unfold handleData, significantTerm. simpl.
    destruct (Js.lt (p_adjust_col r) 0.05); [now rewrite <- app_assoc|reflexivity].
Qed.

(** X12: [parseFile] returns at most 50 terms; each has an adjusted p-value
    below 0.05 (so none has NaN there) and carries the given category;
    each comes from a row of the file, no row being used twice; and when
    the file has at most 50 significant rows all of them are returned. *)
Theorem enrichment_top_terms (rows : list row) (cat : string) :
  let out := parseFile rows cat in
  (length out <= 50)%nat /\
  Forall (fun t => Js.lt (p_adjust t) 0.05 = true /\ category t = cat) out /\
  out ⊆+ List.map (toTerm cat) rows /\
  ((length (List.filter significantTerm (List.map (toTerm cat) rows)) <= 50)%nat ->
   out ≡ₚ List.filter significantTerm (List.map (toTerm cat) rows)).
Proof.
  intros out. unfold out, parseFile. rewrite enrichment_collect. simpl.
  set (sig := List.filter significantTerm (List.map (toTerm cat) rows)).
  set (sorted := TableSorter.arraySort byPAdjust sig).
  assert (sorted ≡ₚ sig) as Hperm by apply arraySort_permutation.
  assert (Paginator.slice sorted 0 50 = take 50 sorted) as ->.
  { exact (slice_page sorted 0 50 ltac:(lia) ltac:(lia)). }
  split; [rewrite length_take; lia|]. split; [|split].
  - apply Forall_take. rewrite Hperm. unfold sig.
    apply List.Forall_forall. intros t Ht. apply filter_In in Ht as [Hin Hsig].
    split; [exact Hsig|]. apply in_map_iff in Hin as (r & <- & _). reflexivity.
  - transitivity sorted; [apply sublist_submseteq, sublist_take|].
    rewrite Hperm. unfold sig. apply sublist_submseteq, filter_sublist.
  - intros Hfew. rewrite take_ge; [exact Hperm|]. rewrite Hperm. exact Hfew.
Qed.

End EnrichmentFacts.

Lemma enrichment_top_terms_witness :
  let rows := [Enrichment.sampleRow "GO:0099536" 0.01; Enrichment.sampleRow "GO:0007268" 0.2;
               Enrichment.sampleRow "GO:0050804" 0.002] in
  (length (List.filter Enrichment.significantTerm
             (List.map (Enrichment.toTerm "Biological Process") rows)) <= 50)%nat /\
  Enrichment.parseFile rows "Biological Process"
    ≡ₚ List.filter Enrichment.significantTerm
         (List.map (Enrichment.toTerm "Biological Process") rows).
Proof.
  intros rows.
  pose proof (enrichment_top_terms rows "Biological Process") as (_ & _ & _ & Hall).
  assert (length (List.filter Enrichment.significantTerm
             (List.map (Enrichment.toTerm "Biological Process") rows)) <= 50)%nat as Hfew.
  { vm_compute. lia. }
  split; [exact Hfew|exact (Hall Hfew)].
Defined.

(** ** The gene index builder *)
Section IndexFacts.
Context `{GeneDatabase.Upper}.
Import GeneDatabase.

Lemma mapHas_iff (m : geneMap) (key : string) :
  mapHas m key = true <-> exists e, In (key, e) m.
Proof.
  unfold mapHas. rewrite existsb_exists. split.
  - intros ([k e] & Hin & Heq). simpl in Heq. apply String.eqb_eq in Heq. subst.
    now exists e.
  - intros (e & Hin). exists (key, e). split; [exact Hin|apply String.eqb_refl].
Qed.

Lemma mapHas_keys (m : geneMap) (key : string) :
  mapHas m key = false -> ~ In key (List.map fst m).
Proof.
  intros Hno Hin. apply in_map_iff in Hin as ([k e] & Hk & Hin). simpl in Hk. subst.
  assert (mapHas m key = true) by (apply mapHas_iff; now exists e). congruence.
Qed.

Lemma keys_mapUpdate (m : geneMap) (key : string) f :
  List.map fst (mapUpdate m key f) = List.map fst m.
Proof.
  unfold mapUpdate. rewrite List.map_map. apply List.map_ext.
  intros [k e]. simpl. now destruct (String.eqb k key).
Qed.

Lemma In_mapUpdate (m : geneMap) (key : string) f k e :
  In (k, e) (mapUpdate m key f) <->
  (k <> key /\ In (k, e) m) \/ (k = key /\ exists e0, In (key, e0) m /\ e = f e0).
Proof.
  unfold mapUpdate. rewrite in_map_iff. split.
  - intros ([k0 e0] & Heq & Hin). simpl in Heq.
    destruct (String.eqb_spec k0 key) as [-> | Hne]; inversion Heq; subst.
    + right. split; [reflexivity|]. now exists e0.
    + left. auto.
  - intros [[Hne Hin] | [-> (e0 & Hin & ->)]].
    + exists (k, e). simpl. split; [|exact Hin].
      destruct (String.eqb_spec k key); [contradiction|reflexivity].
    + exists (key, e0). simpl. now rewrite String.eqb_refl.
Qed.

Lemma mapUpdate_absent (m : geneMap) (key : string) f :
  mapHas m key = false -> mapUpdate m key f = m.
Proof.
  intros Hno. unfold mapUpdate. rewrite <- (List.map_id m) at 2.
  apply List.map_ext_in. intros [k e] Hin. simpl.
  destruct (String.eqb_spec k key) as [-> | Hne]; [|reflexivity].
  assert (mapHas m key = true) by (apply mapHas_iff; now exists e). congruence.
Qed.

(** Every event files its entry when the key is new and then applies its
    change to the entry under the key. *)
Lemma step_touch (m : geneMap) (ev : event) :
  let key := toUpperCase (eventSymbol ev) in
  step m ev =
  mapUpdate (if mapHas m key then m else m ++ [(key, created ev)]) key (change ev).
Proof.
  destruct ev as [gene|tp gene|gene]; simpl.
  - unfold stepRnaseq, mapSet.
    now destruct (mapHas m (toUpperCase (Rna.symbol gene))).
  - unfold stepSpatial, mapSet.
    now destruct (mapHas m (toUpperCase (Spatial.symbol gene))).
  - unfold stepSeizure, mapSet.
    destruct (mapHas m (toUpperCase gene)) eqn:Hhas; [reflexivity|].
    unfold mapUpdate. rewrite List.map_app. simpl. rewrite String.eqb_refl.
    fold (mapUpdate m (toUpperCase gene) markSeizure).
    now rewrite mapUpdate_absent.
Qed.

Lemma marked_change (ev : event) (kd : kind) (e : Entry.t) :
  marked kd (change ev e) = sameKind kd (kindOf ev) || marked kd e.
Proof. destruct ev as [gene|[|] gene|gene], kd; reflexivity. Qed.

Lemma marked_created (ev : event) (kd : kind) :
  marked kd (created ev) = true -> kd = kindOf ev.
Proof. destruct ev as [gene|[|] gene|gene], kd; simpl; congruence. Qed.

Lemma sameKind_eq (a b : kind) : sameKind a b = true <-> b = a.
Proof. destruct a, b; simpl; split; congruence. Qed.

Lemma key_change (ev : event) (e : Entry.t) : keyOf (change ev e) = keyOf e.
Proof. now destruct ev as [gene|[|] gene|gene]. Qed.

Lemma key_created (ev : event) : keyOf (created ev) = toUpperCase (eventSymbol ev).
Proof. now destruct ev. Qed.

Lemma step_invariant (evs : list event) (m : geneMap) (ev : event) :
  invariant evs m -> invariant (evs ++ [ev]) (step m ev).
Proof.
  intros (Hnd & Hent & Hcov). rewrite step_touch. cbv zeta.
  set (key := toUpperCase (eventSymbol ev)).
  set (m' := if mapHas m key then m else m ++ [(key, created ev)]).
  assert (forall k e, In (k, e) m' <->
            In (k, e) m \/ (mapHas m key = false /\ k = key /\ e = created ev)) as Hm'.
  { intros k e. unfold m'. destruct (mapHas m key).
    - intuition. discriminate.
    - rewrite in_app_iff. simpl. split.
      + intros [Hin | [[= <- <-] | []]]; auto.
      + intros [Hin | (_ & -> & ->)]; auto. }
  split; [|split].
  - rewrite keys_mapUpdate. unfold m'. destruct (mapHas m key) eqn:Hhas; [exact Hnd|].
    rewrite List.map_app. simpl. apply NoDup_app. split; [exact Hnd|]. split.
    + intros k Hk Hin. apply list_elem_of_In in Hk. apply list_elem_of_In in Hin.
      destruct Hin as [<- | []]. now apply (mapHas_keys m key).
    + apply NoDup_singleton.
  - intros k e Hin. apply In_mapUpdate in Hin as [[Hne Hin] | [-> (e0 & Hin & ->)]].
    + apply Hm' in Hin as [Hin | (_ & Hk & _)]; [|contradiction].
      destruct (Hent k e Hin) as [Hkey Hmark]. split; [exact Hkey|].
      intros kd. rewrite Hmark. split.
      * intros (ev' & Hev & Hkd & Hsym). exists ev'. rewrite in_app_iff. auto.
      * intros (ev' & Hev & Hkd & Hsym). apply in_app_iff in Hev as [Hev | [<- | []]].
        -- exists ev'. auto.
        -- exfalso. apply Hne. rewrite <- Hsym. reflexivity.
    + rewrite key_change. split.
      * apply Hm' in Hin as [Hin | (_ & _ & ->)].
        -- apply (Hent key e0 Hin).
        -- symmetry. apply key_created.
      * intros kd. rewrite marked_change, orb_true_iff, sameKind_eq. split.
        -- intros [Hkd | Hmark].
           ++ exists ev. rewrite in_app_iff. simpl. auto.
           ++ apply Hm' in Hin as [Hin | (_ & _ & ->)].
              ** apply (Hent key e0 Hin) in Hmark as (ev' & Hev & Hkd & Hsym).
                 exists ev'. rewrite in_app_iff. auto.
              ** apply marked_created in Hmark. exists ev.
                 rewrite in_app_iff. simpl. auto.
        -- intros (ev' & Hev & Hkd & Hsym).
           apply in_app_iff in Hev as [Hev | [<- | []]]; [|now left].
           apply Hm' in Hin as [Hin | (Hno & _ & _)].
           ++ right. apply (Hent key e0 Hin). exists ev'. auto.
           ++ exfalso. destruct (Hcov ev' Hev) as (e' & He'). rewrite Hsym in He'.
              assert (mapHas m key = true) by (apply mapHas_iff; now exists e').
              congruence.
  - intros ev' Hev. apply in_app_iff in Hev as [Hev | [<- | []]].
    + destruct (Hcov ev' Hev) as (e' & He').
      destruct (String.eqb_spec (toUpperCase (eventSymbol ev')) key) as [Heq | Hne].
      * exists (change ev e'). apply In_mapUpdate. right. split; [exact Heq|].
        exists e'. split; [|reflexivity]. apply Hm'. left. now rewrite <- Heq.
      * exists e'. apply In_mapUpdate. left. split; [exact Hne|]. apply Hm'. now left.
    + fold key. destruct (mapHas m key) eqn:Hhas.
      * apply mapHas_iff in Hhas as (e0 & He0). exists (change ev e0).
        apply In_mapUpdate. right. split; [reflexivity|]. exists e0.
        split; [|reflexivity]. apply Hm'. now left.
      * exists (change ev (created ev)). apply In_mapUpdate. right.
        split; [reflexivity|]. exists (created ev). split; [|reflexivity].
        apply Hm'. right. auto.
Qed.

Lemma run_invariant (evs : list event) :
  invariant evs (fold_left step evs []).
Proof.
  induction evs as [|ev evs IH] using rev_ind.
  - split; [constructor|]. split; [intros k e []|intros ev []].
  - rewrite fold_left_app. simpl. now apply step_invariant.
Qed.

Lemma fillMap_events rnaseqData spatialP15Data spatialP30Data seizureGenes :
  fillMap rnaseqData spatialP15Data spatialP30Data seizureGenes
  = fold_left step (events rnaseqData spatialP15Data spatialP30Data seizureGenes) [].
Proof.
  unfold fillMap, events. rewrite !fold_left_app.
  assert (forall (A : Type) (mk : A -> event) (l : list A) (m : geneMap),
            fold_left step (List.map mk l) m = fold_left (fun m x => step m (mk x)) l m)
    as Hmap.
  { intros A mk l. induction l as [|x l IH]; intros m; simpl; [reflexivity|apply IH]. }
  rewrite !Hmap.
  destruct rnaseqData, spatialP15Data, spatialP30Data; reflexivity.
Qed.

End IndexFacts.

Section IndexTheorem.
Context `{GeneDatabase.Upper} `{Js.Host}.
Import GeneDatabase.

Lemma In_events ev rnaseqData spatialP15Data spatialP30Data seizureGenes :
  In ev (events rnaseqData spatialP15Data spatialP30Data seizureGenes) <->
  (exists g, ev = ERna g /\ In g (orNil rnaseqData)) \/
  (exists g, ev = ESpatial P15 g /\ In g (orNil spatialP15Data)) \/
  (exists g, ev = ESpatial P30 g /\ In g (orNil spatialP30Data)) \/
  (exists s, ev = ESeizure s /\ In s seizureGenes).
Proof.
  unfold events. rewrite !in_app_iff, !in_map_iff.
  split; intros Hin; repeat destruct Hin as [Hin | Hin];
    destruct Hin as (x & Hx & Hin); eauto 8.
Qed.

(** X13: The index holds one entry per symbol, symbols compared in upper
    case; an entry carries a dataset exactly when a gene of that data file
    has its symbol, and the seizure flag exactly when the seizure list
    has it; and every symbol of every input has its entry. *)
Theorem master_index_entries (rnaseqData : option (list Rna.gene))
    (spatialP15Data spatialP30Data : option (list Spatial.gene))
    (seizureGenes : list string) :
  let out := buildMasterIndex rnaseqData spatialP15Data spatialP30Data seizureGenes in
  NoDup (List.map keyOf out) /\
  (forall e, In e out ->
     (isSome (Entry.rnaseq e) = true <->
      exists g, In g (orNil rnaseqData) /\ toUpperCase (Rna.symbol g) = keyOf e) /\
     (isSome (Entry.spatial_p15 e) = true <->
      exists g, In g (orNil spatialP15Data) /\ toUpperCase (Spatial.symbol g) = keyOf e) /\
     (isSome (Entry.spatial_p30 e) = true <->
      exists g, In g (orNil spatialP30Data) /\ toUpperCase (Spatial.symbol g) = keyOf e) /\
     (Entry.is_seizure_gene e = true <->
      exists s, In s seizureGenes /\ toUpperCase s = keyOf e)) /\
  (forall ev, In ev (events rnaseqData spatialP15Data spatialP30Data seizureGenes) ->
     exists e, In e out /\ keyOf e = toUpperCase (eventSymbol ev)).
Proof.
  intros out.
  set (evs := events rnaseqData spatialP15Data spatialP30Data seizureGenes).
  set (m := fillMap rnaseqData spatialP15Data spatialP30Data seizureGenes).
  assert (invariant evs m) as (Hnd & Hent & Hcov).
  { unfold m. rewrite fillMap_events. apply run_invariant. }
  assert (out ≡ₚ List.map snd m) as Hperm by apply arraySort_permutation.
  assert (forall e, In e out <-> exists k, In (k, e) m) as Hout.
  { intros e. rewrite <- !list_elem_of_In, Hperm, list_elem_of_In, in_map_iff. split.
    - intros ([k e'] & <- & Hin). now exists k.
    - intros (k & Hin). now exists (k, e). }
  split; [|split].
  - rewrite Hperm, List.map_map.
    rewrite (List.map_ext_in (fun x => keyOf (snd x)) fst); [exact Hnd|].
    intros [k e] Hin. simpl. symmetry. apply (Hent k e Hin).
  - intros e He. apply Hout in He as (k & Hin).
    destruct (Hent k e Hin) as [Hk Hmark]. rewrite <- Hk.
    pose proof (Hmark KRna) as Hrna. pose proof (Hmark KP15) as H15.
    pose proof (Hmark KP30) as H30. pose proof (Hmark KSeizure) as Hsz.
    simpl in Hrna, H15, H30, Hsz.
    rewrite Hrna, H15, H30, Hsz. unfold evs. setoid_rewrite In_events.
    repeat split.
    + intros (ev & [(g & -> & Hg) | [(g & -> & Hg) | [(g & -> & Hg) | (s & -> & Hs)]]]
               & Hkd & Hsym); try discriminate. now exists g.
    + intros (g & Hg & Hsym). exists (ERna g). split; [left; now exists g|auto].
    + intros (ev & [(g & -> & Hg) | [(g & -> & Hg) | [(g & -> & Hg) | (s & -> & Hs)]]]
               & Hkd & Hsym); try discriminate. now exists g.
    + intros (g & Hg & Hsym). exists (ESpatial P15 g).
      split; [right; left; now exists g|auto].
    + intros (ev & [(g & -> & Hg) | [(g & -> & Hg) | [(g & -> & Hg) | (s & -> & Hs)]]]
               & Hkd & Hsym); try discriminate. now exists g.
    + intros (g & Hg & Hsym). exists (ESpatial P30 g).
      split; [right; right; left; now exists g|auto].
    + intros (ev & [(g & -> & Hg) | [(g & -> & Hg) | [(g & -> & Hg) | (s & -> & Hs)]]]
               & Hkd & Hsym); try discriminate. now exists s.
    + intros (s & Hs & Hsym). exists (ESeizure s).
      split; [right; right; right; now exists s|auto].
  - intros ev Hev. destruct (Hcov ev Hev) as (e & Hin). exists e. split.
    + apply Hout. eauto.
    + symmetry. apply (Hent _ e Hin).
Qed.

End IndexTheorem.

(** The sample: the gene of the bulk file has its entry, with the bulk
    dataset on it. *)
Lemma master_index_entries_witness :
  exists e,
    In e (@GeneDatabase.buildMasterIndex GeneDatabase.asciiUpper Js.asciiHost
            (Some GeneDatabase.sampleRna) (Some GeneDatabase.sampleSpatial) None ["Scn1a"]) /\
    GeneDatabase.isSome (GeneDatabase.Entry.rnaseq e) = true.
Proof.
  pose proof (@master_index_entries GeneDatabase.asciiUpper Js.asciiHost
                (Some GeneDatabase.sampleRna) (Some GeneDatabase.sampleSpatial) None
                ["Scn1a"]) as (_ & Hent & Hcov).
  destruct (Hcov (GeneDatabase.ERna GeneDatabase.sampleRnaGene)) as (e & He & Hk).
  - now left.
  - exists e. split; [exact He|]. apply (Hent e He).
    exists GeneDatabase.sampleRnaGene. split; [now left|]. symmetry. exact Hk.
Defined.

(** ** The normalizer *)

(** A text property that is missing or empty: [gene.p || fallback] takes
    the fallback. *)
Lemma textOr_missing (text : option string) (fallback : string) :
  text = None \/ text = Some EmptyString ->
  GeneSearchEngine.textOr text fallback = fallback.
Proof. intros [-> | ->]; reflexivity. Qed.

Lemma textOr_present (s fallback : string) :
  Js.truthy s = true -> GeneSearchEngine.textOr (Some s) fallback = s.
Proof. unfold GeneSearchEngine.textOr. now intros ->. Qed.

(** X14: The normalized gene, whatever the document gene lacks.  Its
    symbol is never empty: it is the primary symbol when that is a
    non-empty text, else the symbol when that is a non-empty text, else
    Unknown.  Its name and identifier are the document's, and empty when
    missing.  Each of bulk_rnaseq, spatial_p15 and spatial_p30 is null
    when the document has no such dataset and otherwise carries the
    document's regulation and significant flag, with the bulk fold-change
    and adjusted p-value being the document's log2fc and padj and the
    spatial ones its logFC and adj_p_val.  The seizure flag is set exactly
    when the document's seizure_gene is true. *)
Theorem normalized_gene_shape (gene : GeneSearchEngine.RawGene.t) :
  let g := GeneSearchEngine.normalizeGeneData gene in
  let missing (text : option string) := text = None \/ text = Some EmptyString in
  let spatial (at15 : bool) :=
    if at15 then GeneSearchEngine.Gene.spatial_p15 g
    else GeneSearchEngine.Gene.spatial_p30 g in
  Js.truthy (GeneSearchEngine.Gene.symbol g) = true /\
  (forall s, GeneSearchEngine.RawGene.primary_symbol gene = Some s ->
     Js.truthy s = true -> GeneSearchEngine.Gene.symbol g = s) /\
  (forall s, missing (GeneSearchEngine.RawGene.primary_symbol gene) ->
     GeneSearchEngine.RawGene.symbol gene = Some s ->
     Js.truthy s = true -> GeneSearchEngine.Gene.symbol g = s) /\
  (missing (GeneSearchEngine.RawGene.primary_symbol gene) ->
   missing (GeneSearchEngine.RawGene.symbol gene) ->
   GeneSearchEngine.Gene.symbol g = "Unknown") /\
  (forall s, GeneSearchEngine.RawGene.name gene = Some s ->
     GeneSearchEngine.Gene.name g = s) /\
  (GeneSearchEngine.RawGene.name gene = None ->
   GeneSearchEngine.Gene.name g = EmptyString) /\
  (forall s, GeneSearchEngine.RawGene.ensembl_id gene = Some s ->
     GeneSearchEngine.Gene.ensembl_id g = s) /\
  (GeneSearchEngine.RawGene.ensembl_id gene = None ->
   GeneSearchEngine.Gene.ensembl_id g = EmptyString) /\
  (forall r, GeneSearchEngine.rawRnaseq gene = Some r ->
     exists o, GeneSearchEngine.Gene.bulk_rnaseq g = Some o /\
       GeneSearchEngine.Observation.log2fc o = GeneSearchEngine.RawRna.log2fc r /\
       GeneSearchEngine.Observation.adj_p_val o = GeneSearchEngine.RawRna.padj r /\
       GeneSearchEngine.Observation.regulation o = GeneSearchEngine.RawRna.regulation r /\
       GeneSearchEngine.Observation.significant o = GeneSearchEngine.RawRna.significant r) /\
  (GeneSearchEngine.rawRnaseq gene = None -> GeneSearchEngine.Gene.bulk_rnaseq g = None) /\
  (forall at15 r, GeneSearchEngine.rawSpatial at15 gene = Some r ->
     exists o, spatial at15 = Some o /\
       GeneSearchEngine.Observation.log2fc o = GeneSearchEngine.RawSpatial.logFC r /\
       GeneSearchEngine.Observation.adj_p_val o = GeneSearchEngine.RawSpatial.adj_p_val r /\
       GeneSearchEngine.Observation.regulation o
         = GeneSearchEngine.RawSpatial.regulation r /\
       GeneSearchEngine.Observation.significant o
         = GeneSearchEngine.RawSpatial.significant r) /\
  (forall at15, GeneSearchEngine.rawSpatial at15 gene = None -> spatial at15 = None) /\
  (GeneSearchEngine.Gene.seizure_gene g = true <->
   GeneSearchEngine.RawGene.seizure_gene gene = Some true).
Proof.
  intros g missing spatial. unfold g, GeneSearchEngine.normalizeGeneData.
  cbn [GeneSearchEngine.Gene.symbol GeneSearchEngine.Gene.name
       GeneSearchEngine.Gene.ensembl_id GeneSearchEngine.Gene.bulk_rnaseq
       GeneSearchEngine.Gene.seizure_gene].
  repeat match goal with |- _ /\ _ => split end.
  - unfold GeneSearchEngine.textOr.
    destruct (GeneSearchEngine.RawGene.primary_symbol gene) as [[|c s]|];
      destruct (GeneSearchEngine.RawGene.symbol gene) as [[|c' s']|]; reflexivity.
  - intros s -> Hs. now apply textOr_present.
  - intros s Hp -> Hs. rewrite (textOr_missing _ _ Hp). now apply textOr_present.
  - intros Hp Hs. rewrite (textOr_missing _ _ Hp). now apply textOr_missing.
  - intros s ->. destruct s; reflexivity.
  - now intros ->.
  - intros s ->. destruct s; reflexivity.
  - now intros ->.
  - intros r ->. eexists. repeat split.
  - now intros ->.
  - intros at15 r Hr. unfold spatial, g, GeneSearchEngine.normalizeGeneData.
    destruct at15; cbn [GeneSearchEngine.Gene.spatial_p15 GeneSearchEngine.Gene.spatial_p30];
      rewrite Hr; eexists; repeat split.
  - intros at15 Hr. unfold spatial, g, GeneSearchEngine.normalizeGeneData.
    destruct at15; cbn [GeneSearchEngine.Gene.spatial_p15 GeneSearchEngine.Gene.spatial_p30];
      now rewrite Hr.
  - destruct (GeneSearchEngine.RawGene.seizure_gene gene) as [[|]|];
      split; intros Hflag; try reflexivity; discriminate.
Qed.

(** A document gene with an empty primary symbol, the symbol Scn1a, no
    name, a bulk dataset and no spatial one. *)
Lemma normalized_gene_shape_witness :
  let raw :=
    {| GeneSearchEngine.RawGene.primary_symbol := Some EmptyString;
       GeneSearchEngine.RawGene.symbol := Some "Scn1a";
       GeneSearchEngine.RawGene.name := None;
       GeneSearchEngine.RawGene.ensembl_id := Some "ENSRNOG00000000002";
       GeneSearchEngine.RawGene.datasets :=
         Some {| GeneSearchEngine.RawDatasets.rnaseq :=
                   Some {| GeneSearchEngine.RawRna.log2fc := Js.NNum 1.5;
                           GeneSearchEngine.RawRna.padj := Js.NNum 0.01;
                           GeneSearchEngine.RawRna.baseMean := Js.NNum 100;
                           GeneSearchEngine.RawRna.regulation := Some "up";
                           GeneSearchEngine.RawRna.significant := true |};
                 GeneSearchEngine.RawDatasets.spatial_p15 := None;
                 GeneSearchEngine.RawDatasets.spatial_p30 := None |};
       GeneSearchEngine.RawGene.seizure_gene := None |} in
  let g := GeneSearchEngine.normalizeGeneData raw in
  GeneSearchEngine.Gene.symbol g = "Scn1a" /\
  GeneSearchEngine.Gene.name g = EmptyString /\
  (exists o, GeneSearchEngine.Gene.bulk_rnaseq g = Some o /\
     GeneSearchEngine.Observation.adj_p_val o = Js.NNum 0.01) /\
  GeneSearchEngine.Gene.spatial_p30 g = None.
Proof.
  intros raw g.
  pose proof (normalized_gene_shape raw)
    as (_ & _ & Hsym & _ & _ & Hname & _ & _ & Hbulk & _ & _ & Hnone & _).
  split; [|split; [|split]].
  - apply Hsym; [now right|reflexivity|reflexivity].
  - apply Hname. reflexivity.
  - destruct (Hbulk _ eq_refl) as (o & Ho & _ & Hp & _). exists o. split; assumption.
  - apply (Hnone false). reflexivity.
Defined.

Section IndexLoaded.
Context `{GeneDatabase.Upper} `{Js.Host}.

(** X15: Genes loaded from an index that [buildMasterIndex] built: none
    carries the seizure flag (the script writes it as is_seizure_gene, the
    normalizer reads seizure_gene), even when the script flagged the
    entry; so with the seizure toggle as the only one enabled the dataset
    clause keeps no gene.  The symbol is the entry's primary symbol, or
    Unknown when that is empty, and the datasets of the entry are kept. *)
Theorem built_index_seizure_flag (rnaseqData : option (list GeneDatabase.Rna.gene))
    (spatialP15Data spatialP30Data : option (list GeneDatabase.Spatial.gene))
    (seizureGenes : list string) (regulation : string) (threshold : float)
    (lo hi : option float) :
  let index :=
    GeneDatabase.buildMasterIndex rnaseqData spatialP15Data spatialP30Data seizureGenes in
  let genes := GeneDatabase.loadedGenes index in
  Forall (fun g => GeneSearchEngine.Gene.seizure_gene g = false) genes /\
  GeneSearchEngine.datasetFilter
    {| GeneSearchEngine.Filters.regulation := regulation;
       GeneSearchEngine.Filters.datasets := GeneSearchEngine.seizureOnly;
       GeneSearchEngine.Filters.pvalueThreshold := threshold;
       GeneSearchEngine.Filters.log2fcMin := lo;
       GeneSearchEngine.Filters.log2fcMax := hi |} genes = [] /\
  (forall s, In s seizureGenes ->
     exists e, In e index /\ GeneDatabase.Entry.is_seizure_gene e = true /\
       GeneSearchEngine.Gene.seizure_gene
         (GeneSearchEngine.normalizeGeneData (GeneDatabase.asDocument e)) = false) /\
  Forall (fun e =>
    let g := GeneSearchEngine.normalizeGeneData (GeneDatabase.asDocument e) in
    GeneSearchEngine.Gene.symbol g
      = GeneSearchEngine.textOr (Some (GeneDatabase.Entry.primary_symbol e)) "Unknown" /\
    (GeneDatabase.isSome (GeneDatabase.Entry.rnaseq e) = true <->
     GeneSearchEngine.Gene.bulk_rnaseq g <> None)) index.
Proof.
  intros index genes. split; [|split; [|split]].
  - unfold genes, GeneDatabase.loadedGenes. apply List.Forall_forall.
    intros g Hg. apply in_map_iff in Hg as (e & <- & _). reflexivity.
  - unfold GeneSearchEngine.datasetFilter. simpl.
    unfold genes, GeneDatabase.loadedGenes.
    induction index as [|e index IH]; simpl; [reflexivity|exact IH].
  - intros s Hs.
    set (evs := GeneDatabase.events rnaseqData spatialP15Data spatialP30Data seizureGenes).
    set (m := GeneDatabase.fillMap rnaseqData spatialP15Data spatialP30Data seizureGenes).
    assert (GeneDatabase.invariant evs m) as (_ & Hent & Hcov).
    { unfold m. rewrite fillMap_events. apply run_invariant. }
    assert (In (GeneDatabase.ESeizure s) evs) as Hev.
    { apply In_events. right; right; right. now exists s. }
    destruct (Hcov _ Hev) as (e & Hin). exists e. split; [|split].
    + apply list_elem_of_In.
      unfold index, GeneDatabase.buildMasterIndex.
      rewrite arraySort_permutation. apply list_elem_of_In, in_map_iff.
      now exists (GeneDatabase.toUpperCase s, e).
    + destruct (Hent _ _ Hin) as [_ Hmark].
      apply (Hmark GeneDatabase.KSeizure). now exists (GeneDatabase.ESeizure s).
    + reflexivity.
  - apply List.Forall_forall. intros e _. simpl. split; [reflexivity|].
    unfold GeneSearchEngine.rawRnaseq. simpl.
    destruct (GeneDatabase.Entry.rnaseq e); simpl; split; congruence.
Qed.

End IndexLoaded.

Lemma built_index_seizure_flag_witness :
  exists e,
    In e (@GeneDatabase.buildMasterIndex GeneDatabase.asciiUpper Js.asciiHost
            (Some GeneDatabase.sampleRna) (Some GeneDatabase.sampleSpatial) None ["Scn1a"]) /\
    GeneDatabase.Entry.is_seizure_gene e = true /\
    GeneSearchEngine.Gene.seizure_gene
      (GeneSearchEngine.normalizeGeneData (GeneDatabase.asDocument e)) = false.
Proof.
  pose proof (@built_index_seizure_flag GeneDatabase.asciiUpper Js.asciiHost
                (Some GeneDatabase.sampleRna) (Some GeneDatabase.sampleSpatial) None
                ["Scn1a"] "all" 1%float None None) as (_ & _ & Hflag & _).
  apply (Hflag "Scn1a"). now left.
Defined.

(** ** The publications CSV reader *)

Section CsvScan.
Import PublicationsCsv.

Lemma trimEnd_idem (s : string) : trimEnd (trimEnd s) = trimEnd s.
Proof.
  induction s as [|c s IH]; [reflexivity|].
  simpl. destruct (trimEnd s) as [|d k] eqn:Hk.
  - destruct (isSpace c) eqn:Hc; [reflexivity|]. simpl. now rewrite Hc.
  - change (trimEnd (String c (String d k))) with
      (match trimEnd (String d k) with
       | EmptyString => if isSpace c then EmptyString else String c EmptyString
       | kept => String c kept
       end).
    now rewrite IH.
Qed.

Lemma trimStart_headOk (s : string) : headOk (trimStart s).
Proof.
  induction s as [|c s IH]; simpl; [exact I|].
  destruct (isSpace c) eqn:Hc; [exact IH|exact Hc].
Qed.

Lemma trimEnd_headOk (s : string) : headOk s -> headOk (trimEnd s).
Proof.
  destruct s as [|c s]; simpl; [auto|]. intros Hc. rewrite Hc.
  now destruct (trimEnd s).
Qed.

Lemma trimStart_fixed (s : string) : headOk s -> trimStart s = s.
Proof. destruct s as [|c s]; simpl; [auto|]. now intros ->. Qed.

Lemma trim_idem (s : string) : trim (trim s) = trim s.
Proof.
  unfold trim. rewrite (trimStart_fixed (trimEnd (trimStart s))).
  - apply trimEnd_idem.
  - apply trimEnd_headOk, trimStart_headOk.
Qed.

Lemma scan_preserves (P : state -> Prop) :
  (forall c st, P st -> P (addChar c st)) ->
  (forall st, P st -> P (toggle st)) ->
  (forall st, P st -> P (endField st)) ->
  (forall st, P st -> P (endRecord st)) ->
  forall csvText st, P st -> P (scan csvText st).
Proof.
  intros Hadd Htoggle Hfield Hrecord csvText.
  assert (forall n text, (String.length text <= n)%nat ->
            forall st, P st -> P (scan text st)) as Hall.
  { induction n as [|n IH]; intros text Hlen st Hst.
    - destruct text; [exact Hst|simpl in Hlen; lia].
    - destruct text as [|char rest]; [exact Hst|]. simpl in Hlen.
      assert (forall st', P st' -> P (scan rest st')) as Hrest
        by (intros st'; apply IH; lia).
      assert (forall c rest', rest = String c rest' ->
                forall st', P st' -> P (scan rest' st')) as Hskip.
      { intros c rest' -> st'. apply IH. simpl in Hlen. lia. }
      simpl. destruct (Ascii.eqb char Js.dquote).
      + destruct rest as [|nextChar rest']; [auto|].
        destruct (insideQuotes st && Ascii.eqb nextChar Js.dquote); [|auto].
        apply (Hskip nextChar rest' eq_refl). auto.
      + destruct (negb (insideQuotes st) && Ascii.eqb char Js.comma); [auto|].
        destruct (negb (insideQuotes st) &&
                  (Ascii.eqb char Js.newline || Ascii.eqb char Js.creturn)); [|auto].
        destruct rest as [|nextChar rest']; [auto|].
        destruct (Ascii.eqb char Js.creturn && Ascii.eqb nextChar Js.newline); [|auto].
        apply (Hskip nextChar rest' eq_refl). auto. }
  intros st. apply (Hall (String.length csvText)). lia.
Qed.

Lemma pushRecord_tidy (st : state) : tidy st -> tidy (pushRecord st).
Proof.
  intros [Hlines Hrec].
  assert (Forall (fun f => trim f = f) (currentRecord st ++ [trim (currentField st)])) as Hclosed.
  { apply Forall_app. split; [exact Hrec|]. constructor; [apply trim_idem|constructor]. }
  split; simpl; [|exact Hclosed].
  destruct (Js.some filled (currentRecord st ++ [trim (currentField st)])) eqn:Hsome;
    [|exact Hlines].
  apply Forall_app. split; [exact Hlines|]. constructor; [|constructor].
  split; [exact Hsome|exact Hclosed].
Qed.

Lemma scan_tidy (csvText : string) (st : state) : tidy st -> tidy (scan csvText st).
Proof.
  apply scan_preserves; clear st.
  - intros c st Hst. exact Hst.
  - intros st Hst. exact Hst.
  - intros st [Hlines Hrec]. split; [exact Hlines|]. simpl.
    apply Forall_app. split; [exact Hrec|]. constructor; [apply trim_idem|constructor].
  - intros st Hst. unfold endRecord. destruct (pending st); [|exact Hst].
    split; simpl; [|constructor]. apply (pushRecord_tidy st Hst).
Qed.

Lemma kept_not_empty (record : list string) : kept record -> isEmptyRow record = false.
Proof.
  intros [Hsome Htrim]. unfold isEmptyRow.
  induction record as [|f record IH]; [discriminate|].
  apply Forall_cons in Htrim as [Hf Htrim]. simpl in *.
  destruct (filled f) eqn:Hfilled.
  - rewrite Hf. destruct f; [discriminate|]. reflexivity.
  - rewrite IH; [apply andb_false_r|exact Hsome|exact Htrim].
Qed.

End CsvScan.

Section CsvReadBack.
Import PublicationsCsv.

Lemma append_assoc (a b c : string) : (a +:+ b) +:+ c = a +:+ (b +:+ c).
Proof.
  induction a as [|x a IH]; [reflexivity|].
  now rewrite !append_cons, IH.
Qed.

(** A quote met outside quotes opens them, whatever follows. *)
Lemma scan_open (rest : string) (st : state) :
  insideQuotes st = false ->
  scan (String Js.dquote rest) st = scan rest (toggle st).
Proof. intros Hq. simpl. rewrite Hq. now destruct rest. Qed.

(** A character other than a quote met inside quotes is taken as it is. *)
Lemma scan_inside (c : ascii) (rest : string) (st : state) :
  insideQuotes st = true -> Ascii.eqb c Js.dquote = false ->
  scan (String c rest) st = scan rest (addChar c st).
Proof. intros Hq Hc. simpl. rewrite Hc, Hq. reflexivity. Qed.

Lemma scan_plain (v rest : string) :
  Csv.isPlain v = true ->
  forall kept field record,
    scan (v +:+ rest) (reading kept field record)
    = scan rest (reading kept (field +:+ v) record).
Proof.
  induction v as [|c v IH]; intros Hplain kept field record.
  - now rewrite append_empty_r.
  - apply isPlain_cons in Hplain as (Hcomma & Hquote & Hnl & Hcr & Hplain).
    rewrite append_cons. simpl. rewrite Hquote, Hcomma, Hnl, Hcr. simpl.
    change (addChar c (reading kept field record))
      with (reading kept (field +:+ Js.str c) record).
    rewrite (IH Hplain). now rewrite append_snoc.
Qed.

Lemma scan_quoted (v rest : string) :
  opensWithQuote rest = false ->
  forall kept field record,
    scan (Csv.doubleQuotes v +:+ String Js.dquote rest)
         {| lines := kept; currentField := field; currentRecord := record;
            insideQuotes := true |}
    = scan rest (reading kept (field +:+ v) record).
Proof.
  intros Hrest. induction v as [|c v IH]; intros kept field record.
  - rewrite append_empty_r.
    change (Csv.doubleQuotes EmptyString +:+ String Js.dquote rest)
      with (String Js.dquote rest).
    simpl. destruct rest as [|c rest]; [reflexivity|].
    simpl in Hrest. now rewrite Hrest.
  - simpl Csv.doubleQuotes. destruct (Ascii.eqb c Js.dquote) eqn:Hc.
    + apply Ascii.eqb_eq in Hc as ->. rewrite !append_cons. simpl.
      change (addChar Js.dquote
                {| lines := kept; currentField := field; currentRecord := record;
                   insideQuotes := true |})
        with {| lines := kept; currentField := field +:+ Js.str Js.dquote;
                currentRecord := record; insideQuotes := true |}.
      rewrite IH. now rewrite append_snoc.
    + rewrite append_cons, scan_inside; [|reflexivity|exact Hc].
      change (addChar c
                {| lines := kept; currentField := field; currentRecord := record;
                   insideQuotes := true |})
        with {| lines := kept; currentField := field +:+ Js.str c;
                currentRecord := record; insideQuotes := true |}.
      rewrite IH. now rewrite append_snoc.
Qed.

Lemma scan_field (e v rest : string) :
  Csv.encodes e v -> opensWithQuote rest = false ->
  forall kept field record,
    scan (e +:+ rest) (reading kept field record)
    = scan rest (reading kept (field +:+ v) record).
Proof.
  intros [[-> Hplain] | ->] Hrest kept field record.
  - now apply scan_plain.
  - rewrite append_cons, scan_open by reflexivity.
    rewrite append_snoc.
    change (toggle (reading kept field record))
      with {| lines := kept; currentField := field; currentRecord := record;
              insideQuotes := true |}.
    now apply scan_quoted.
Qed.

(** One line of the export: its fields but the last are closed, trimmed,
    and the last is under way. *)
Lemma scan_line (es vs : list string) (rest : string) :
  Forall2 Csv.encodes es vs -> opensWithQuote rest = false ->
  forall kept record,
    scan (Js.join (Js.str Js.comma) es +:+ rest) (reading kept EmptyString record)
    = scan rest (reading kept (List.last vs EmptyString)
                         (record ++ List.map trim (List.removelast vs))).
Proof.
  intros Henc Hrest. induction Henc as [|e v es vs He Hes IH]; intros kept record.
  - simpl. now rewrite app_nil_r.
  - destruct Hes as [|e2 v2 es vs He2 Hes].
    + rewrite join_one, (scan_field e v rest He Hrest). simpl. now rewrite app_nil_r.
    + rewrite join_more, !append_assoc.
      rewrite (scan_field e v _ He) by reflexivity.
      unfold Js.str at 1. rewrite append_cons. simpl scan at 1.
      change (endField (reading kept (EmptyString +:+ v) record))
        with (reading kept EmptyString (record ++ [trim v])).
      change (EmptyString +:+ (Js.join (Js.str Js.comma) (e2 :: es) +:+ rest))
        with (Js.join (Js.str Js.comma) (e2 :: es) +:+ rest).
      rewrite IH.
      change (List.last (v :: v2 :: vs) EmptyString) with (List.last (v2 :: vs) EmptyString).
      change (List.removelast (v :: v2 :: vs)) with (v :: List.removelast (v2 :: vs)).
      simpl List.map. now rewrite <- app_assoc.
Qed.

(** Closing the record of a line keeps its trimmed cells when one of them
    is filled, and nothing otherwise. *)
Lemma close_line (vs : list string) (kept : list (list string)) :
  let st := reading kept (List.last vs EmptyString)
                    (List.map trim (List.removelast vs)) in
  lines (lastRecord st) = kept ++ readBack [vs] /\
  endRecord st = reading (kept ++ readBack [vs]) EmptyString [].
Proof.
  assert (forall l : list string, l <> [] ->
            List.map trim (List.removelast l) ++ [trim (List.last l EmptyString)]
            = List.map trim l) as Hsplit.
  { intros l Hl. rewrite (app_removelast_last EmptyString Hl) at 3.
    now rewrite List.map_app. }
  unfold readBack, lastRecord, endRecord, pending, pushRecord.
  destruct vs as [|v [|v2 vs]].
  - simpl. now rewrite app_nil_r.
  - simpl. destruct v as [|c v].
    + simpl. now rewrite app_nil_r.
    + simpl Js.truthy. simpl orb. cbv iota. simpl lines.
      destruct (filled (trim (String c v))); simpl; [auto|now rewrite app_nil_r].
  - remember (v :: v2 :: vs) as l eqn:Hl.
    assert (l <> []) as Hne by (subst l; discriminate).
    assert (Nat.ltb 0 (length (List.map trim (List.removelast l))) = true) as Hlen.
    { subst l. reflexivity. }
    simpl currentField. simpl currentRecord. simpl lines. simpl insideQuotes.
    rewrite Hlen, orb_true_r, (Hsplit l Hne). simpl List.map. simpl List.filter.
    destruct (Js.some filled (List.map trim l)); simpl; [auto|now rewrite app_nil_r].
Qed.

Lemma readBack_cons (vs : list string) (vss : list (list string)) :
  readBack (vs :: vss) = readBack [vs] ++ readBack vss.
Proof.
  unfold readBack. simpl.
  now destruct (Js.some filled (List.map trim vs)).
Qed.

Lemma scan_lines (ess vss : list (list string)) :
  Forall2 (Forall2 Csv.encodes) ess vss ->
  forall kept,
    lines (lastRecord
             (scan (Js.join (Js.str Js.newline) (List.map (Js.join (Js.str Js.comma)) ess))
                   (reading kept EmptyString [])))
    = kept ++ readBack vss.
Proof.
  induction 1 as [|es vs ess vss Hrow Hrows IH]; intros kept.
  - simpl. now rewrite app_nil_r.
  - destruct Hrows as [|es2 vs2 ess vss Hrow2 Hrows].
    + change (List.map (Js.join (Js.str Js.comma)) [es])
        with [Js.join (Js.str Js.comma) es].
      rewrite join_one.
      rewrite <- (append_empty_r (Js.join (Js.str Js.comma) es)).
      rewrite (scan_line es vs EmptyString Hrow eq_refl), app_nil_l. simpl scan.
      apply (close_line vs kept).
    + change (List.map (Js.join (Js.str Js.comma)) (es :: es2 :: ess))
        with (Js.join (Js.str Js.comma) es ::
              Js.join (Js.str Js.comma) es2 ::
              List.map (Js.join (Js.str Js.comma)) ess).
      rewrite join_more.
      rewrite (scan_line es vs _ Hrow), app_nil_l by reflexivity.
      unfold Js.str at 1. rewrite append_cons.
      change (Js.join (Js.str Js.comma) es2 :: List.map (Js.join (Js.str Js.comma)) ess)
        with (List.map (Js.join (Js.str Js.comma)) (es2 :: ess)).
      set (text := EmptyString +:+ Js.join (Js.str Js.newline)
                     (List.map (Js.join (Js.str Js.comma)) (es2 :: ess))).
      assert (forall st, insideQuotes st = false ->
                scan (String Js.newline text) st = scan text (endRecord st)) as Hnl.
      { intros st Hq. simpl. rewrite Hq. simpl. now destruct text. }
      rewrite Hnl by reflexivity.
      destruct (close_line vs kept) as [_ ->]. unfold text.
      change (EmptyString +:+ ?s) with s.
      rewrite IH, <- app_assoc. f_equal. symmetry. apply readBack_cons.
Qed.

End CsvReadBack.

Section CsvConversion.
Context `{Js.Host} `{PublicationsCsv.IntParser}.
Import PublicationsCsv.

Lemma parseCSV_kept (csvText : string) : Forall kept (parseCSV csvText).
Proof.
  unfold parseCSV.
  assert (tidy (scan csvText init)) as Hscan.
  { apply scan_tidy. split; constructor. }
  unfold lastRecord. destruct (pending (scan csvText init)).
  - apply (pushRecord_tidy _ Hscan).
  - apply Hscan.
Qed.

Lemma convertRows_kept (rows : list (list string)) (i : nat) :
  Forall kept rows -> convertRows i rows = numbered i rows.
Proof.
  intros Hrows. revert i. induction Hrows as [|row rows Hrow Hrows IH]; intros i.
  - reflexivity.
  - simpl. rewrite (kept_not_empty row Hrow), IH. reflexivity.
Qed.

Lemma numbered_ids (rows : list (list string)) (i : nat) :
  List.map id (numbered i rows) = seq i (length rows).
Proof.
  unfold numbered. rewrite List.map_map. simpl.
  revert i. induction rows as [|row rows IH]; intros i; [reflexivity|].
  simpl. now rewrite IH.
Qed.

(** X16: Every record that [parseCSV] returns has a filled field, its fields
    are trimmed, and the empty-row test of the conversion loop fails on
    it. *)
Theorem parsed_records_filled (csvText : string) :
  Forall (fun record =>
            Js.some filled record = true /\
            Forall (fun f => trim f = f) record /\
            isEmptyRow record = false)
         (parseCSV csvText).
Proof.
  eapply List.Forall_impl; [|apply parseCSV_kept].
  intros record Hkept. destruct Hkept as [Hsome Htrim].
  split; [exact Hsome|]. split; [exact Htrim|].
  apply kept_not_empty. now split.
Qed.

(** X17: The conversion skips no record of the file: a text without records
    makes it throw, and otherwise the records after the first become the
    publications one by one, numbered 1, 2, 3, ... without a gap. *)
Theorem conversion_skips_nothing (csvText : string) :
  match parseCSV csvText with
  | [] => convertCSVToJSON csvText = None
  | headers :: dataRows =>
      exists publications stats,
        convertCSVToJSON csvText = Some (publications, stats) /\
        publications = numbered 1 dataRows /\
        length publications = length dataRows /\
        List.map id publications = seq 1 (length dataRows) /\
        stats = generateStatistics publications
  end.
Proof.
  pose proof (parseCSV_kept csvText) as Hkept.
  unfold convertCSVToJSON. destruct (parseCSV csvText) as [|headers dataRows]; [reflexivity|].
  apply Forall_cons in Hkept as [_ Hkept].
  exists (numbered 1 dataRows), (generateStatistics (numbered 1 dataRows)).
  rewrite (convertRows_kept dataRows 1 Hkept).
  split; [reflexivity|]. split; [reflexivity|].
  split; [|split; [apply numbered_ids|reflexivity]].
  rewrite <- (length_map id), numbered_ids. apply length_seq.
Qed.

Lemma bump_sum (counts : list (string * nat)) (key : string) :
  countSum (bump counts key) = S (countSum counts).
Proof.
  unfold countSum. induction counts as [|[k n] counts IH]; [reflexivity|].
  simpl. destruct (String.eqb k key); simpl; [reflexivity|]. rewrite IH. lia.
Qed.

Lemma bump_keys (counts : list (string * nat)) (key : string) :
  NoDup (List.map fst counts) ->
  NoDup (List.map fst (bump counts key)) /\
  In key (List.map fst (bump counts key)) /\
  (forall k, In k (List.map fst counts) -> In k (List.map fst (bump counts key))) /\
  (forall k, In k (List.map fst (bump counts key)) -> k = key \/ In k (List.map fst counts)).
Proof.
  induction counts as [|[k n] counts IH]; intros Hnd.
  - simpl. split; [apply NoDup_singleton|]. split; [now left|].
    split; [intros k []|]. intros k [<- | []]. now left.
  - simpl in Hnd. apply NoDup_cons in Hnd as [Hk Hnd'].
    destruct (IH Hnd') as (IHnd & IHin & IHold & IHnew).
    simpl. destruct (String.eqb k key) eqn:Heq.
    + apply String.eqb_eq in Heq as ->. simpl.
      split; [now apply NoDup_cons|]. split; [now left|]. split; [auto|].
      intros k' Hk'. now right.
    + simpl. split; [|split; [now right|split]].
      * apply NoDup_cons. split; [|exact IHnd]. intros Hin%list_elem_of_In.
        apply IHnew in Hin as [-> | Hin]; [now rewrite String.eqb_refl in Heq|].
        apply Hk. now apply list_elem_of_In.
      * intros k' [<- | Hk']; [now left|right; auto].
      * intros k' [<- | Hk']; [right; now left|].
        apply IHnew in Hk' as [-> | Hk']; [now left|right; now right].
Qed.

Lemma countQuartile_counts (q : quartiles) (quartile : string) :
  let q' := countQuartile q quartile in
  (Q1 q' = Q1 q + (if String.eqb quartile "1" then 1 else 0))%nat /\
  (Q2 q' = Q2 q + (if String.eqb quartile "2" then 1 else 0))%nat /\
  (Q3 q' = Q3 q + (if String.eqb quartile "3" then 1 else 0))%nat /\
  (Q4 q' = Q4 q + (if String.eqb quartile "4" then 1 else 0))%nat /\
  (Q1 q' + Q2 q' + Q3 q' + Q4 q' + Unranked q'
   = S (Q1 q + Q2 q + Q3 q + Q4 q + Unranked q))%nat.
Proof.
  unfold countQuartile.
  destruct (String.eqb quartile "1") eqn:H1.
  { apply String.eqb_eq in H1 as ->. simpl. lia. }
  destruct (String.eqb quartile "2") eqn:H2.
  { apply String.eqb_eq in H2 as ->. simpl. lia. }
  destruct (String.eqb quartile "3") eqn:H3.
  { apply String.eqb_eq in H3 as ->. simpl. lia. }
  destruct (String.eqb quartile "4") eqn:H4.
  { apply String.eqb_eq in H4 as ->. simpl. lia. }
  simpl. lia.
Qed.

Lemma withQuartile_cons (q : string) (pub : publication) (publications : list publication) :
  withQuartile q (pub :: publications)
  = ((if String.eqb (sjr_quartile pub) q then 1 else 0) + withQuartile q publications)%nat.
Proof.
  unfold withQuartile. simpl. now destruct (String.eqb (sjr_quartile pub) q).
Qed.

Lemma statistics_fold (publications : list publication) (stats : statistics) :
  NoDup (List.map fst (by_year stats)) ->
  let out := fold_left visit publications stats in
  (Q1 (by_quartile out) = Q1 (by_quartile stats) + withQuartile "1" publications)%nat /\
  (Q2 (by_quartile out) = Q2 (by_quartile stats) + withQuartile "2" publications)%nat /\
  (Q3 (by_quartile out) = Q3 (by_quartile stats) + withQuartile "3" publications)%nat /\
  (Q4 (by_quartile out) = Q4 (by_quartile stats) + withQuartile "4" publications)%nat /\
  (Q1 (by_quartile out) + Q2 (by_quartile out) + Q3 (by_quartile out)
   + Q4 (by_quartile out) + Unranked (by_quartile out)
   = Q1 (by_quartile stats) + Q2 (by_quartile stats) + Q3 (by_quartile stats)
     + Q4 (by_quartile stats) + Unranked (by_quartile stats) + length publications)%nat /\
  (countSum (by_year out) = countSum (by_year stats) + length publications)%nat /\
  NoDup (List.map fst (by_year out)) /\
  (forall k, In k (List.map fst (by_year out)) <->
     In k (List.map fst (by_year stats)) \/ exists pub, In pub publications /\ yearKey pub = k).
Proof.
  revert stats. induction publications as [|pub publications IH]; intros stats Hnd out.
  - unfold out, withQuartile. simpl. repeat split; try lia; try exact Hnd; auto.
    intros [Hk | (pub & [] & _)]. exact Hk.
  - destruct (bump_keys (by_year stats) (yearKey pub) Hnd) as (Hnd' & Hin & Hold & Hnew).
    destruct (IH (visit stats pub) Hnd') as (I1 & I2 & I3 & I4 & Isum & Iyear & Ind & Ikeys).
    destruct (countQuartile_counts (by_quartile stats) (sjr_quartile pub))
      as (C1 & C2 & C3 & C4 & Csum).
    pose proof (bump_sum (by_year stats) (yearKey pub)) as Hbump.
    pose proof (withQuartile_cons "1" pub publications) as W1.
    pose proof (withQuartile_cons "2" pub publications) as W2.
    pose proof (withQuartile_cons "3" pub publications) as W3.
    pose proof (withQuartile_cons "4" pub publications) as W4.
    unfold out. simpl fold_left. simpl length.
    simpl by_quartile in I1, I2, I3, I4, Isum. simpl by_year in Iyear, Ind, Ikeys.
    split; [lia|]. split; [lia|]. split; [lia|]. split; [lia|].
    split; [lia|]. split; [lia|]. split; [exact Ind|].
    intros k. rewrite Ikeys. split.
    + intros [Hk | (p & Hp & Hkey)].
      * apply Hnew in Hk as [-> | Hk]; [right; exists pub; split; [now left|reflexivity]|now left].
      * right. exists p. split; [now right|exact Hkey].
    + intros [Hk | (p & [<- | Hp] & Hkey)].
      * left. now apply Hold.
      * left. now rewrite <- Hkey.
      * right. now exists p.
Qed.

(** X18: The statistics count every publication once by quartile and once by
    year: the five quartile counters add up to the number of publications,
    Q1 to Q4 counting the texts 1 to 4; the year table has one line per
    year key, its counts add up to the number of publications, and its
    keys are those of the publications. *)
Theorem statistics_count_each_once (publications : list publication) :
  let stats := generateStatistics publications in
  let q := by_quartile stats in
  Q1 q = withQuartile "1" publications /\
  Q2 q = withQuartile "2" publications /\
  Q3 q = withQuartile "3" publications /\
  Q4 q = withQuartile "4" publications /\
  (Q1 q + Q2 q + Q3 q + Q4 q + Unranked q = length publications)%nat /\
  countSum (by_year stats) = length publications /\
  NoDup (List.map fst (by_year stats)) /\
  (forall k, In k (List.map fst (by_year stats)) <->
     exists pub, In pub publications /\ yearKey pub = k).
Proof.
  intros stats q.
  destruct (statistics_fold publications noStatistics ltac:(constructor))
    as (I1 & I2 & I3 & I4 & Isum & Iyear & Ind & Ikeys).
  fold (generateStatistics publications) in I1, I2, I3, I4, Isum, Iyear, Ind, Ikeys.
  simpl in I1, I2, I3, I4, Isum, Iyear.
  repeat split; try assumption.
  - intros Hk. apply Ikeys in Hk as [[] | Hk]. exact Hk.
  - intros Hk. apply Ikeys. now right.
Qed.

(** X19: Read by [parseCSV], the text of an export gives the header row and the
    rows of value texts, each cell trimmed and the rows without a filled
    cell left out, for every table whose headers are plain and whose
    unquoted values hold no carriage return; the publications export
    likewise. *)
Theorem export_read_back (data : list Js.object) (cols : list Csv.column)
    (e : PublicationsEngine.t) :
  (data <> [] ->
   Forall (fun c => Csv.isPlain (Csv.header c) = true) cols ->
   (forall row col, In row data -> In col cols ->
      Csv.crSafe (Csv.cellText (Js.get row (Csv.key col))) = true) ->
   exists text,
     Csv.exportToCSV data (Some cols) = Some text /\
     parseCSV text = readBack (Csv.table data cols)) /\
  ((forall pub v, In pub (PublicationsEngine.filteredPublications e) ->
      In v (PublicationsEngine.rowOf pub) ->
      Csv.crSafe (PublicationsEngine.cellText v) = true) ->
   parseCSV (PublicationsEngine.exportToCSV e)
   = readBack
       (PublicationsEngine.headers ::
        List.map (fun pub => List.map PublicationsEngine.cellText (PublicationsEngine.rowOf pub))
                 (PublicationsEngine.filteredPublications e))).
Proof.
  split.
  - intros Hdata Hhead Hcells. destruct data as [|first rest]; [congruence|].
    eexists. split; [reflexivity|].
    rewrite export_lines. unfold parseCSV.
    change init with (reading [] EmptyString []).
    rewrite (scan_lines _ (Csv.table (first :: rest) cols)); [reflexivity|].
    constructor.
    + clear -Hhead. induction Hhead as [|c cols Hc Hhead IH]; simpl; constructor; auto.
      now left.
    + apply Forall2_map_same. intros row Hrow.
      apply Forall2_map_same. intros col Hcol.
      apply cell_encodes. now apply Hcells.
  - intros Hcells. unfold PublicationsEngine.exportToCSV.
    set (pubs := PublicationsEngine.filteredPublications e) in *.
    replace (Js.join (Js.str Js.comma) PublicationsEngine.headers ::
             List.map (fun row => Js.join (Js.str Js.comma) (List.map PublicationsEngine.cell row))
               (List.map PublicationsEngine.rowOf pubs))
      with (List.map (Js.join (Js.str Js.comma))
              (PublicationsEngine.headers ::
               List.map (fun pub => List.map PublicationsEngine.cell (PublicationsEngine.rowOf pub)) pubs))
      by (simpl; f_equal; now rewrite !List.map_map).
    unfold parseCSV. change init with (reading [] EmptyString []).
    rewrite (scan_lines _ (PublicationsEngine.headers ::
        List.map (fun pub => List.map PublicationsEngine.cellText (PublicationsEngine.rowOf pub))
                 pubs)); [reflexivity|].
    constructor.
    + unfold PublicationsEngine.headers.
      repeat (constructor; [left; split; reflexivity|]). constructor.
    + apply Forall2_map_same. intros pub Hpub.
      apply Forall2_map_same. intros v Hv.
      apply publication_cell_encodes. now apply (Hcells pub).
Qed.

End CsvConversion.

Lemma export_read_back_witness :
  exists text,
    @Csv.exportToCSV Js.asciiHost Csv.sampleData (Some Csv.sampleColumns) = Some text /\
    PublicationsCsv.parseCSV text
    = PublicationsCsv.readBack (@Csv.table Js.asciiHost Csv.sampleData Csv.sampleColumns).
Proof.
  pose proof (@export_read_back Js.asciiHost Csv.sampleData Csv.sampleColumns
                {| PublicationsEngine.allPublications := [];
                   PublicationsEngine.filteredPublications := [];
                   PublicationsEngine.currentSearchTerm := EmptyString;
                   PublicationsEngine.filters := PublicationsEngine.defaultFilters;
                   PublicationsEngine.paginator := Paginator.new [] (Paginator.Size 25) |})
    as (Hround & _).
  apply Hround.
  - discriminate.
  - repeat constructor.
  - intros row col [<- | [<- | [<- | []]]] [<- | [<- | []]]; reflexivity.
Defined.

(** ** Arrays shared between an engine, its paginator and its sorter *)

Section HeapFacts.
Context {A : Type}.

Lemma read_alloc_new (h : Heap.t A) (arr : list A) :
  Heap.read (h ++ [arr]) (length h) = arr.
Proof.
  unfold Heap.read. rewrite lookup_app_r by lia.
  now replace (length h - length h)%nat with 0%nat by lia.
Qed.

Lemma read_alloc_old (h : Heap.t A) (arr : list A) (r : Heap.ref) :
  (r < length h)%nat -> Heap.read (h ++ [arr]) r = Heap.read h r.
Proof. intros Hr. unfold Heap.read. now rewrite lookup_app_l by lia. Qed.

Lemma read_write_same (h : Heap.t A) (arr : list A) (r : Heap.ref) :
  (r < length h)%nat -> Heap.read (Heap.write r arr h) r = arr.
Proof.
  intros Hr. unfold Heap.read, Heap.write.
  now rewrite list_lookup_insert_eq by lia.
Qed.

Lemma read_write_other (h : Heap.t A) (arr : list A) (r r' : Heap.ref) :
  r <> r' -> Heap.read (Heap.write r arr h) r' = Heap.read h r'.
Proof.
  intros Hne. unfold Heap.read, Heap.write.
  now rewrite list_lookup_insert_ne by exact Hne.
Qed.

Lemma length_write (h : Heap.t A) (arr : list A) (r : Heap.ref) :
  length (Heap.write r arr h) = length h.
Proof. apply length_insert. Qed.

Lemma sortInPlace_permutation `{Js.Host} (view : A -> Js.object)
    (column type : string) (dir : TableSorter.direction) (arr : list A) :
  SorterOnArray.sortInPlace view column type dir arr ≡ₚ arr.
Proof. apply arraySort_permutation. Qed.

End HeapFacts.

Section GenePageFacts.
Context `{Js.Host} (view : GeneSearchEngine.Gene.t -> Js.object).
Import GeneSearchEngine GenePage.








End GenePageFacts.

Section PublicationsPageFacts.
Context `{Js.Host} `{PublicationsCsv.IntParser}
  (view : PublicationsEngine.Publication.t -> Js.object).
Import PublicationsEngine PublicationsPage.

Lemma publications_initialize_invariant (publications : list Publication.t) :
  invariant publications (initialize publications).
Proof.
  unfold invariant, initialize, results. simpl. repeat split; auto.
Qed.

Lemma publications_applyFilters_results (s : t) :
  results (applyFilters s)
  = filterResults (currentSearchTerm s) (filters s)
      (Heap.read (heap s) (allPublications s)).
Proof. unfold applyFilters, results. simpl. apply read_alloc_new. Qed.

Lemma publications_headerClick_results (column type : string) (s : t) :
  (SorterOnArray.data (sorter s) < length (heap s))%nat ->
  results (headerClick view column type s)
  = SorterOnArray.sortInPlace view column type
      (SorterOnArray.nextDirection column (sorter s))
      (Heap.read (heap s) (SorterOnArray.data (sorter s))).
Proof.
  intros Hlen. unfold headerClick, results, SorterOnArray.sort. simpl.
  now apply read_write_same.
Qed.

Lemma publications_step_invariant (publications : list Publication.t) (s : t) (ev : event) :
  invariant publications s -> invariant publications (step view s ev).
Proof.
  intros (Hlt & Hlen & Hflen & Hflt & Hpager & Hall & Hsorted & Hres).
  assert (forall s', allPublications s' = allPublications s -> sorter s' = sorter s ->
            heap s' = heap s -> invariant publications (applyFilters s')) as Hfilter.
  { intros s' Ha Hs Hh. unfold invariant.
    rewrite publications_applyFilters_results.
    unfold applyFilters. simpl. rewrite length_app, Ha, Hs, Hh, Hall. simpl.
    rewrite !read_alloc_old by lia.
    repeat split; try lia; auto. }
  destruct ev; try (apply Hfilter; reflexivity).
  - unfold invariant. simpl step.
    rewrite publications_headerClick_results by assumption.
    unfold headerClick, SorterOnArray.sort. simpl.
    rewrite length_write, read_write_other, read_write_same by lia.
    repeat split; auto.
    + now rewrite sortInPlace_permutation.
  - unfold invariant, results. simpl. repeat split; auto.
Qed.

Lemma publications_run_invariant (publications : list Publication.t)
    (events : list event) :
  invariant publications (run view publications events).
Proof.
  unfold run. generalize (publications_initialize_invariant publications).
  generalize (initialize publications). induction events as [|ev events IH]; intros s Hs.
  - exact Hs.
  - simpl. apply IH. now apply publications_step_invariant.
Qed.

(** X21: On the publications page, after any run of events: the loaded
    publications are as they were loaded, and the sorter still holds the
    array it was given at the start, which holds every loaded publication.
    So a click on a header shows all the loaded publications, in some
    order, whatever the criteria are, and these are what the exports then
    write; any handler that stores a criterion shows the publications that
    pass, in the order of the loaded document. *)
Theorem publications_sort_shows_all (publications : list Publication.t)
    (events : list event) :
  let s := run view publications events in
  Heap.read (heap s) (allPublications s) = publications /\
  PagerOnArray.allData (paginator s) = filteredPublications s /\
  Heap.read (heap s) (SorterOnArray.data (sorter s)) ≡ₚ publications /\
  (forall column type,
     let s' := step view s (HeaderClick column type) in
     results s' ≡ₚ publications /\
     currentSearchTerm s' = currentSearchTerm s /\ filters s' = filters s /\
     PagerOnArray.currentPage (paginator s') = 1) /\
  (forall ev,
     match ev with
     | HeaderClick _ _ | Pagination _ => True
     | _ =>
         results (step view s ev)
         = filterResults (currentSearchTerm (stored ev s)) (filters (stored ev s))
             publications
     end).
Proof.
  intros s.
  pose proof (publications_run_invariant publications events) as Hinv. fold s in Hinv.
  destruct Hinv as (Hlt & Hlen & Hflen & Hflt & Hpager & Hall & Hsorted & Hres).
  repeat split; auto.
  - simpl. rewrite publications_headerClick_results by assumption.
    now rewrite sortInPlace_permutation.
  - intros ev. destruct ev; try exact I;
      simpl step; rewrite publications_applyFilters_results; simpl; now rewrite Hall.
Qed.

End PublicationsPageFacts.


Lemma publications_sort_shows_all_witness :
  let s := @PublicationsPage.run Js.asciiHost PublicationsCsv.digitParser
             PublicationsPage.yearOnly PublicationsPage.samplePublications
             [PublicationsPage.StudyTypeChange "rct"] in
  length (PublicationsPage.results s) = 1%nat /\
  PublicationsPage.results
    (@PublicationsPage.step Js.asciiHost PublicationsCsv.digitParser
       PublicationsPage.yearOnly s (PublicationsPage.HeaderClick "year" "auto"))
  ≡ₚ PublicationsPage.samplePublications.
Proof.
  intros s. split; [reflexivity|].
  pose proof (@publications_sort_shows_all Js.asciiHost PublicationsCsv.digitParser
                PublicationsPage.yearOnly PublicationsPage.samplePublications
                [PublicationsPage.StudyTypeChange "rct"])
    as (_ & _ & _ & Hclick & _).
  apply (Hclick "year" "auto").
Defined.

(** ** The summaries of the spatial data *)

Section SummaryFacts.
Import Summaries.

Lemma slice_from_start {A : Type} (arr : list A) (n : Z) :
  0 <= n -> Paginator.slice arr 0 n = take (Z.to_nat n) arr.
Proof.
  intros Hn. unfold Paginator.slice.
  change (0 <? 0) with false. cbv iota.
  destruct (n <? 0) eqn:Hneg; [lia|].
  assert (Z.min 0 (Z.of_nat (length arr)) = 0) as -> by lia.
  rewrite Z.sub_0_r. change (Z.to_nat 0) with 0%nat. rewrite drop_0.
  destruct (Z.le_ge_cases n (Z.of_nat (length arr))) as [Hle | Hge].
  - now rewrite Z.min_l by lia.
  - rewrite Z.min_r by lia. rewrite Nat2Z.id.
    rewrite !take_ge; [reflexivity|lia|lia].
Qed.

(** X22: [getTopDEGs] returns the up-tagged genes it keeps before the
    down-tagged ones, each gene of the input at most once and no other;
    with [n] not negative it keeps at most [n] of each tag, and all the
    tagged genes when there are no more than [n] of each tag. *)
Theorem top_degs_shape (genes : list gene) (n : Z) :
  0 <= n ->
  exists topUp topDown,
    getTopDEGs genes n = topUp ++ topDown /\
    Forall (fun g => isUp g = true) topUp /\
    Forall (fun g => isDown g = true) topDown /\
    (length topUp <= Z.to_nat n)%nat /\ (length topDown <= Z.to_nat n)%nat /\
    topUp ⊆+ List.filter isUp genes /\ topDown ⊆+ List.filter isDown genes /\
    ((length (List.filter isUp genes) <= Z.to_nat n)%nat ->
     topUp ≡ₚ List.filter isUp genes) /\
    ((length (List.filter isDown genes) <= Z.to_nat n)%nat ->
     topDown ≡ₚ List.filter isDown genes).
Proof.
  intros Hn. unfold getTopDEGs. rewrite !slice_from_start by exact Hn.
  set (ups := TableSorter.arraySort byAbsLogFC (List.filter isUp genes)).
  set (downs := TableSorter.arraySort byAbsLogFC (List.filter isDown genes)).
  assert (ups ≡ₚ List.filter isUp genes) as Hups by apply arraySort_permutation.
  assert (downs ≡ₚ List.filter isDown genes) as Hdowns by apply arraySort_permutation.
  exists (take (Z.to_nat n) ups), (take (Z.to_nat n) downs).
  split; [reflexivity|].
  split. { apply Forall_take. rewrite Hups. apply List.Forall_forall.
           intros g Hg. now apply filter_In in Hg. }
  split. { apply Forall_take. rewrite Hdowns. apply List.Forall_forall.
           intros g Hg. now apply filter_In in Hg. }
  split; [rewrite length_take; lia|]. split; [rewrite length_take; lia|].
  split. { rewrite <- Hups. apply sublist_submseteq, sublist_take. }
  split. { rewrite <- Hdowns. apply sublist_submseteq, sublist_take. }
  split.
  - intros Hfew. rewrite take_ge; [exact Hups|]. now rewrite Hups.
  - intros Hfew. rewrite take_ge; [exact Hdowns|]. now rewrite Hdowns.
Qed.

Lemma top_degs_shape_witness :
  exists topUp topDown,
    getTopDEGs [sampleGene 1 "down"; sampleGene 2 "up"; sampleGene 3 "up"] 1
    = topUp ++ topDown /\
    (length topUp <= 1)%nat /\ (length topDown <= 1)%nat.
Proof.
  destruct (top_degs_shape [sampleGene 1 "down"; sampleGene 2 "up"; sampleGene 3 "up"] 1
              ltac:(lia))
    as (topUp & topDown & Hout & _ & _ & Hup & Hdown & _).
  exists topUp, topDown. split; [exact Hout|]. split; [exact Hup|exact Hdown].
Defined.

Lemma written_tags (rows : list SpatialConvert.row) (tag : string) :
  length (List.filter (fun g => String.eqb (regulation g) tag) (written rows))
  = length (List.filter (SpatialConvert.tagged tag)
              (SpatialConvert.genes (SpatialConvert.stream rows))).
Proof.
  unfold written.
  set (genes := SpatialConvert.genes (SpatialConvert.stream rows)).
  set (sorted := TableSorter.arraySort byAdjPVal genes).
  assert (sorted ≡ₚ genes) as Hperm by apply arraySort_permutation.
  transitivity (length (List.filter (SpatialConvert.tagged tag) sorted)).
  - clearbody sorted. clear. induction sorted as [|g sorted IH]; [reflexivity|].
    simpl. unfold SpatialConvert.tagged at 1.
    destruct (String.eqb (SpatialConvert.regulation g) tag); simpl; now rewrite IH.
  - apply Permutation_length.
    clear -Hperm. induction Hperm as [|x l l' Hp IH|x y l|l l' l'' Hp1 IH1 Hp2 IH2].
    + reflexivity.
    + simpl. destruct (SpatialConvert.tagged tag x); [now constructor|exact IH].
    + simpl. destruct (SpatialConvert.tagged tag x), (SpatialConvert.tagged tag y);
        try reflexivity. apply perm_swap.
    + now transitivity (List.filter (SpatialConvert.tagged tag) l').
Qed.

(** X23: The summary of a document written by the spatial converter counts
    what the converter counted: the same total, the same up and down
    counts, and up and down make up the total. *)
Theorem summary_matches_converter (rows : list SpatialConvert.row) :
  let st := SpatialConvert.stream rows in
  let s := calculateSummary (written rows) in
  total s = SpatialConvert.total st /\
  up s = SpatialConvert.upregulated st /\
  down s = SpatialConvert.downregulated st /\
  (up s + down s = total s)%nat.
Proof.
  intros st s.
  destruct (spatial_stream_invariant rows SpatialConvert.start) as (Hg & Ht & Hu & Hd).
  fold (SpatialConvert.stream rows) in Hg, Ht, Hu, Hd. fold st in Hg, Ht, Hu, Hd.
  simpl in Hg, Ht, Hu, Hd. rewrite <- Hg in Hu, Hd.
  assert (total s = length (SpatialConvert.genes st)) as Htotal.
  { unfold s, calculateSummary, written. cbn [total]. rewrite length_map.
    apply Permutation_length, arraySort_permutation. }
  assert (up s = SpatialConvert.upregulated st) as Hup.
  { unfold s, calculateSummary. cbn [up]. unfold isUp.
    rewrite (written_tags rows "up"). now rewrite Hu. }
  assert (down s = SpatialConvert.downregulated st) as Hdown.
  { unfold s, calculateSummary. cbn [down]. unfold isDown.
    rewrite (written_tags rows "down"). now rewrite Hd. }
  assert (SpatialConvert.upregulated st + SpatialConvert.downregulated st
          = length (SpatialConvert.genes st))%nat as Hsum.
  { rewrite Hu, Hd, Hg. clear. induction rows as [|r rows IH]; [reflexivity|].
    unfold SpatialConvert.tagged in *. simpl in *.
    destruct (Js.gt (SpatialConvert.logFC_col r) 0); simpl; lia. }
  rewrite Hg, length_map in Htotal. rewrite Hg, length_map in Hsum.
  repeat split; try assumption; lia.
Qed.

End SummaryFacts.

(** ** The export of the gene search results *)

Section GeneExportFacts.
Context `{Js.Host}.
Import GeneSearchEngine GeneExport.

Lemma exportRow_texts (gene : Gene.t) :
  List.map (fun col => Csv.cellText (Js.get (exportRow gene) (Csv.key col))) columns
  = rowTexts gene.
Proof.
  unfold exportRow, rowTexts.
  destruct (Gene.bulk_rnaseq gene), (Gene.spatial_p15 gene), (Gene.spatial_p30 gene);
    reflexivity.
Qed.

Lemma export_table (genes : list Gene.t) :
  Csv.table (List.map exportRow genes) columns
  = List.map Csv.header columns :: List.map rowTexts genes.
Proof.
  unfold Csv.table. f_equal. rewrite List.map_map.
  apply List.map_ext. intros gene. apply exportRow_texts.
Qed.

(** X24: The export of the search results: nothing is written for an empty
    result list; otherwise the text has the fourteen headers and one line
    per gene, in the order of the results, and a standard reader gives back
    for each gene fourteen cells, the chromosome cell empty, the seizure
    cell Yes or No, and the three cells of a dataset that the gene lacks
    empty (no unquoted cell holding a carriage return). *)
Theorem gene_export_reads_back (genes : list Gene.t) :
  exportResults [] = None /\
  Forall (fun gene =>
            length (rowTexts gene) = 14%nat /\
            nth 3 (rowTexts gene) "-" = EmptyString /\
            nth 4 (rowTexts gene) EmptyString
              = (if Gene.seizure_gene gene then "Yes" else "No") /\
            (Gene.bulk_rnaseq gene = None ->
             firstn 3 (skipn 5 (rowTexts gene)) = [EmptyString; EmptyString; EmptyString]))
         genes /\
  (genes <> [] ->
   (forall gene text, In gene genes -> In text (rowTexts gene) ->
      Csv.crSafe text = true) ->
   exists text,
     exportResults genes = Some text /\
     CsvReader.parse text = List.map Csv.header columns :: List.map rowTexts genes).
Proof.
  split; [reflexivity|]. split.
  - apply List.Forall_forall. intros gene _. unfold rowTexts.
    split; [|split; [reflexivity|split; [reflexivity|]]].
    + destruct (Gene.bulk_rnaseq gene), (Gene.spatial_p15 gene), (Gene.spatial_p30 gene);
        reflexivity.
    + intros ->. reflexivity.
  - intros Hne Hsafe. destruct genes as [|gene genes]; [congruence|].
    eexists. split; [reflexivity|].
    change (List.map exportRow (gene :: genes)) with
      (exportRow gene :: List.map exportRow genes).
    cbv beta iota.
    rewrite <- (export_table (gene :: genes)).
    apply export_round_trip.
    + repeat constructor.
    + intros row col Hrow Hcol. apply in_map_iff in Hrow as (g & <- & Hg).
      apply (Hsafe g); [exact Hg|]. rewrite <- exportRow_texts.
      apply in_map_iff. now exists col.
    + apply two_columns_last_line. simpl. lia.
Qed.

End GeneExportFacts.

Lemma gene_export_reads_back_witness :
  exists text,
    @GeneExport.exportResults Js.asciiHost
      [GeneSearchEngine.sampleGene None] = Some text /\
    CsvReader.parse text
    = List.map Csv.header GeneExport.columns ::
      List.map (@GeneExport.rowTexts Js.asciiHost) [GeneSearchEngine.sampleGene None].
Proof.
  pose proof (@gene_export_reads_back Js.asciiHost [GeneSearchEngine.sampleGene None])
    as (_ & _ & Hread).
  apply Hread; [discriminate|].
  intros gene text [<- | []] Htext. vm_compute in Htext.
  repeat (destruct Htext as [<- | Htext]; [reflexivity|]). destruct Htext.
Defined.

(** ** The data of the charts *)

Section ChartFacts.
Import Charts.

Lemma volcano_split (data : list gene) :
  Forall (fun g => significant g = true -> regulation g = "up" \/ regulation g = "down") data ->
  upregulated data ++ downregulated data ++ notSignificant data ≡ₚ data.
Proof.
  unfold upregulated, downregulated, notSignificant.
  induction 1 as [|g data Hg Hdata IH]; [reflexivity|].
  simpl. destruct (significant g) eqn:Hsig.
  - destruct (Hg eq_refl) as [-> | ->]; simpl.
    + now constructor.
    + symmetry. etrans; [|apply Permutation_middle].
      constructor. symmetry. exact IH.
  - rewrite !andb_false_r. simpl. rewrite app_assoc.
    symmetry. etrans; [|apply Permutation_middle].
    constructor. rewrite <- app_assoc. symmetry. exact IH.
Qed.

(** X25: The volcano plot shows every gene once: when each significant gene is
    tagged up or down, the three datasets together hold the genes of the
    data, each as often as the data holds it; this is so for every
    document written by the two converters. *)
Theorem volcano_partition (data : list gene) (rows : list RnaseqConvert.row)
    (spatialRows : list SpatialConvert.row) :
  (Forall (fun g => significant g = true ->
                    regulation g = "up" \/ regulation g = "down") data ->
   upregulated data ++ downregulated data ++ notSignificant data ≡ₚ data) /\
  upregulated (writtenRnaseq rows) ++ downregulated (writtenRnaseq rows)
    ++ notSignificant (writtenRnaseq rows) ≡ₚ writtenRnaseq rows /\
  upregulated (writtenSpatial spatialRows) ++ downregulated (writtenSpatial spatialRows)
    ++ notSignificant (writtenSpatial spatialRows) ≡ₚ writtenSpatial spatialRows.
Proof.
  split; [apply volcano_split|]. split.
  - apply volcano_split. unfold writtenRnaseq.
    apply List.Forall_forall. intros g Hg. apply in_map_iff in Hg as (g0 & <- & Hg0).
    apply list_elem_of_In in Hg0. rewrite arraySort_permutation in Hg0.
    apply list_elem_of_In in Hg0.
    destruct (rnaseq_stream_invariant rows RnaseqConvert.start) as (Hgenes & _).
    fold (RnaseqConvert.stream rows) in Hgenes. simpl in Hgenes. rewrite Hgenes in Hg0.
    apply in_map_iff in Hg0 as (r & <- & _). intros _. simpl.
    destruct (Js.gt (RnaseqConvert.log2FoldChange r) 0); auto.
  - apply volcano_split. unfold writtenSpatial.
    apply List.Forall_forall. intros g Hg. apply in_map_iff in Hg as (g0 & <- & Hg0).
    apply list_elem_of_In in Hg0. rewrite arraySort_permutation in Hg0.
    apply list_elem_of_In in Hg0.
    destruct (spatial_stream_invariant spatialRows SpatialConvert.start) as (Hgenes & _).
    fold (SpatialConvert.stream spatialRows) in Hgenes. simpl in Hgenes.
    rewrite Hgenes in Hg0.
    apply in_map_iff in Hg0 as (r & <- & _). intros _. simpl.
    destruct (Js.gt (SpatialConvert.logFC_col r) 0); auto.
Qed.

Lemma volcano_partition_witness :
  let data := [sampleGene "down" true; sampleGene "up" false; sampleGene "up" true] in
  upregulated data ++ downregulated data ++ notSignificant data ≡ₚ data.
Proof.
  intros data.
  pose proof (volcano_partition data [] []) as (Hsplit & _).
  apply Hsplit. unfold data.
  repeat (constructor; [intros _; simpl; auto|]). constructor.
Defined.

(** X26: The bar chart of the top genes has one label per bar; with a limit
    above zero there are at most that many bars, 20 when no limit or the
    limit 0 is given; every bar is a significant gene of the data with the
    wanted regulation (up when none is given), no gene being shown more
    often than the data holds it; and all such genes are shown when there
    are no more of them than the limit. *)
Theorem bar_chart_selection (data : list gene) (direction : option string)
    (limit : option Z) :
  0 < limitOf limit ->
  let wanted g := String.eqb (regulation g) (directionOf direction) && significant g in
  length (labels data direction limit) = length (values data direction limit) /\
  (length (bars data direction limit) <= Z.to_nat (limitOf limit))%nat /\
  Forall (fun g => regulation g = directionOf direction /\ significant g = true)
         (bars data direction limit) /\
  bars data direction limit ⊆+ List.filter wanted data /\
  ((length (List.filter wanted data) <= Z.to_nat (limitOf limit))%nat ->
   bars data direction limit ≡ₚ List.filter wanted data) /\
  limitOf None = 20 /\ limitOf (Some 0) = 20 /\ directionOf None = "up".
Proof.
  intros Hlimit wanted. unfold labels, values, bars. fold wanted.
  rewrite slice_from_start by lia.
  set (sorted := TableSorter.arraySort _ (List.filter wanted data)).
  assert (sorted ≡ₚ List.filter wanted data) as Hperm by apply arraySort_permutation.
  split; [now rewrite !length_map|].
  split; [rewrite length_take; lia|].
  split.
  { apply Forall_take. rewrite Hperm. apply List.Forall_forall.
    intros g Hg. apply filter_In in Hg as [_ Hg]. unfold wanted in Hg.
    apply andb_true_iff in Hg as [Hreg Hsig]. now apply String.eqb_eq in Hreg. }
  split. { rewrite <- Hperm. apply sublist_submseteq, sublist_take. }
  split; [|repeat split].
  intros Hfew. rewrite take_ge; [exact Hperm|]. now rewrite Hperm.
Qed.

Lemma bar_chart_selection_witness :
  (length (bars [sampleGene "down" true; sampleGene "up" true] None (Some 0%Z))
   <= Z.to_nat 20%Z)%nat.
Proof.
  pose proof (bar_chart_selection [sampleGene "down" true; sampleGene "up" true]
                None (Some 0) ltac:(reflexivity)) as (_ & Hlen & _).
  exact Hlen.
Defined.

End ChartFacts.

(** ** The seizure gene list *)

Section SeizureListFacts.
Import SeizureList.

Lemma slice_rest {A : Type} (arr : list A) :
  Paginator.slice arr 1 (Z.of_nat (length arr)) = drop 1 arr.
Proof.
  unfold Paginator.slice. change (1 <? 0) with false. cbv iota.
  assert ((Z.of_nat (length arr) <? 0) = false) as -> by (apply Z.ltb_ge; lia).
  rewrite Z.min_id.
  destruct arr as [|x arr]; [reflexivity|].
  rewrite Z.min_l by (simpl length; lia).
  change (Z.to_nat 1) with 1%nat.
  apply take_ge. rewrite length_drop. simpl length. lia.
Qed.

Lemma split_line (c : ascii) (line rest : string) :
  Csv.hasChar c line = false ->
  split c (line +:+ String c rest) = line :: split c rest.
Proof.
  induction line as [|a line IH]; intros Hline.
  - change (EmptyString +:+ String c rest) with (String c rest).
    simpl. now rewrite Ascii.eqb_refl.
  - simpl in Hline. apply orb_false_iff in Hline as [Ha Hline].
    rewrite append_cons. simpl. rewrite Ha, (IH Hline). reflexivity.
Qed.

Lemma split_last (c : ascii) (line : string) :
  Csv.hasChar c line = false -> split c line = [line].
Proof.
  induction line as [|a line IH]; intros Hline; [reflexivity|].
  simpl in Hline. apply orb_false_iff in Hline as [Ha Hline].
  simpl. rewrite Ha, (IH Hline). reflexivity.
Qed.

Lemma split_join (c : ascii) (line : string) (lines : list string) :
  Forall (fun l => Csv.hasChar c l = false) (line :: lines) ->
  split c (Js.join (Js.str c) (line :: lines)) = line :: lines.
Proof.
  revert line. induction lines as [|l lines IH]; intros line Hall.
  - apply Forall_cons in Hall as [Hline _]. rewrite join_one. now apply split_last.
  - apply Forall_cons in Hall as [Hline Hall].
    rewrite join_more. unfold Js.str at 1. rewrite append_cons.
    change (EmptyString +:+ ?s) with s.
    rewrite (split_line c line _ Hline), (IH l Hall). reflexivity.
Qed.

Lemma named_lines (lines : list string) :
  List.filter Js.truthy (List.map PublicationsCsv.trim (List.filter notBlank lines))
  = List.filter Js.truthy (List.map PublicationsCsv.trim lines).
Proof.
  induction lines as [|l lines IH]; [reflexivity|].
  simpl. unfold notBlank at 1.
  destruct (Js.truthy (PublicationsCsv.trim l)) eqn:Hl; simpl; rewrite ?Hl, IH; reflexivity.
Qed.

(** Leaving out the first line that is not blank. *)
Lemma named_after_header (lines : list string) :
  List.filter Js.truthy
    (List.map PublicationsCsv.trim (drop 1 (List.filter notBlank lines)))
  = drop 1 (List.filter Js.truthy (List.map PublicationsCsv.trim lines)).
Proof.
  induction lines as [|l lines IH]; [reflexivity|].
  simpl List.filter. simpl List.map. simpl List.filter. unfold notBlank at 1.
  destruct (Js.truthy (PublicationsCsv.trim l)) eqn:Hl.
  - simpl drop. rewrite !drop_0. apply named_lines.
  - exact IH.
Qed.

Lemma blank_lines_dropped (blanks rest : list string) :
  Forall (fun l => notBlank l = false) blanks ->
  List.filter Js.truthy (List.map PublicationsCsv.trim (blanks ++ rest))
  = List.filter Js.truthy (List.map PublicationsCsv.trim rest).
Proof.
  induction 1 as [|l blanks Hl Hblanks IH]; [reflexivity|].
  simpl. unfold notBlank in Hl. now rewrite Hl.
Qed.

(** X27: The seizure genes read from the file are never empty and never carry
    white space around them.  For a file given by its lines: the genes
    are the trimmed texts of the lines that are not blank, in order,
    without the first of them; so the first line that is not blank,
    wherever it stands, is taken for the header and left out, blank lines
    before and after it give nothing, and each other line gives its
    trimmed text (a file with CR LF line ends reads the same). *)
Theorem seizure_genes_loaded (file : option string) (lines blanks : list string)
    (header : string) (names : list string) :
  Forall (fun g => Js.truthy g = true /\ PublicationsCsv.trim g = g)
         (loadSeizureGenes file) /\
  (lines <> [] ->
   Forall (fun l => Csv.hasChar Js.newline l = false) lines ->
   loadSeizureGenes (Some (Js.join (Js.str Js.newline) lines))
   = drop 1 (List.filter Js.truthy (List.map PublicationsCsv.trim lines))) /\
  (Forall (fun l => notBlank l = false) blanks ->
   notBlank header = true ->
   Forall (fun l => Csv.hasChar Js.newline l = false) (blanks ++ header :: names) ->
   loadSeizureGenes (Some (Js.join (Js.str Js.newline) (blanks ++ header :: names)))
   = List.filter Js.truthy (List.map PublicationsCsv.trim names)).
Proof.
  assert (forall ls, ls <> [] ->
            Forall (fun l => Csv.hasChar Js.newline l = false) ls ->
            loadSeizureGenes (Some (Js.join (Js.str Js.newline) ls))
            = drop 1 (List.filter Js.truthy (List.map PublicationsCsv.trim ls)))
    as Hlines.
  { intros [|l ls] Hne Hall; [congruence|]. unfold loadSeizureGenes.
    rewrite (split_join Js.newline l ls Hall), slice_rest.
    apply named_after_header. }
  split; [|split].
  - destruct file as [content|]; [|constructor]. unfold loadSeizureGenes.
    apply List.Forall_forall. intros g Hg. apply filter_In in Hg as [Hg Htruthy].
    split; [exact Htruthy|]. apply in_map_iff in Hg as (l & <- & _). apply trim_idem.
  - apply Hlines.
  - intros Hblanks Hheader Hall. rewrite Hlines; [|now destruct blanks|exact Hall].
    rewrite (blank_lines_dropped blanks _ Hblanks).
    simpl. unfold notBlank in Hheader. rewrite Hheader. simpl drop. now rewrite drop_0.
Qed.

(** A file that opens with a blank line, and has a CR LF line end and a
    blank line among its names. *)
Lemma seizure_genes_loaded_witness :
  loadSeizureGenes
    (Some (Js.join (Js.str Js.newline)
             [" "; "gene_symbol";
              String "S" (String "c" (String "n" (String "1" (String "a"
                (String Js.creturn EmptyString))))); " "; " Cacna1g"]))
  = ["Scn1a"; "Cacna1g"].
Proof.
  pose proof (seizure_genes_loaded None [" "] [" "] "gene_symbol"
    [String "S" (String "c" (String "n" (String "1" (String "a"
        (String Js.creturn EmptyString))))); " "; " Cacna1g"]) as (_ & _ & Hload).
  simpl app in Hload. rewrite Hload; [reflexivity| |reflexivity|].
  - constructor; [reflexivity|constructor].
  - repeat (constructor; [reflexivity|]). constructor.
Defined.

End SeizureListFacts.

(** ** The sort direction across filter and page events *)

Section SortDirectionFacts.
Context `{Js.Host} `{PublicationsCsv.IntParser}
  (geneView : GeneSearchEngine.Gene.t -> Js.object)
  (publicationView : PublicationsEngine.Publication.t -> Js.object).

Lemma gene_sorter_kept (s : GenePage.t) (events : list GenePage.event) :
  Forall (fun ev => GenePage.isHeaderClick ev = false) events ->
  let s' := fold_left (GenePage.step geneView) events s in
  SorterOnArray.sortColumn (GenePage.sorter s')
    = SorterOnArray.sortColumn (GenePage.sorter s) /\
  SorterOnArray.sortDirection (GenePage.sorter s')
    = SorterOnArray.sortDirection (GenePage.sorter s).
Proof.
  intros Hevents. revert s.
  induction Hevents as [|ev events Hev Hevents IH]; intros s; [split; reflexivity|].
  simpl. destruct (IH (GenePage.step geneView s ev)) as [-> ->].
  destruct ev; try discriminate; split; reflexivity.
Qed.

Lemma publications_sorter_kept (s : PublicationsPage.t)
    (events : list PublicationsPage.event) :
  Forall (fun ev => PublicationsPage.isHeaderClick ev = false) events ->
  let s' := fold_left (PublicationsPage.step publicationView) events s in
  SorterOnArray.sortColumn (PublicationsPage.sorter s')
    = SorterOnArray.sortColumn (PublicationsPage.sorter s) /\
  SorterOnArray.sortDirection (PublicationsPage.sorter s')
    = SorterOnArray.sortDirection (PublicationsPage.sorter s).
Proof.
  intros Hevents. revert s.
  induction Hevents as [|ev events Hev Hevents IH]; intros s; [split; reflexivity|].
  simpl. destruct (IH (PublicationsPage.step publicationView s ev)) as [-> ->].
  destruct ev; try discriminate; split; reflexivity.
Qed.

Lemma nextDirection_same (column : string) (s : SorterOnArray.t) :
  SorterOnArray.sortColumn s = Some column ->
  SorterOnArray.nextDirection column s = SorterOnArray.opposite (SorterOnArray.sortDirection s).
Proof.
  intros Hcol. unfold SorterOnArray.nextDirection, TableSorter.nextDirection. simpl.
  rewrite Hcol, String.eqb_refl. now destruct (SorterOnArray.sortDirection s).
Qed.

(** X28: Only a click on a header changes the sorter's column and direction:
    the filter handlers and the pagination controls leave them as they
    are, although the filter handlers show the records in document order
    again.  So of two clicks on one header the second sorts in the
    direction opposite to the first, whatever filter and page events lie
    between them; the first sorts ascending unless the column was the
    sorted one already. *)
Theorem sort_direction_survives_filters (column type : string)
    (s : GenePage.t) (events : list GenePage.event)
    (p : PublicationsPage.t) (publicationEvents : list PublicationsPage.event) :
  (Forall (fun ev => GenePage.isHeaderClick ev = false) events ->
   let s1 := GenePage.step geneView s (GenePage.HeaderClick column type) in
   let s2 := fold_left (GenePage.step geneView) events s1 in
   let s3 := GenePage.step geneView s2 (GenePage.HeaderClick column type) in
   SorterOnArray.sortColumn (GenePage.sorter s2) = Some column /\
   SorterOnArray.sortDirection (GenePage.sorter s3)
     = SorterOnArray.opposite (SorterOnArray.sortDirection (GenePage.sorter s1)) /\
   (SorterOnArray.sortColumn (GenePage.sorter s) <> Some column ->
    SorterOnArray.sortDirection (GenePage.sorter s1) = TableSorter.Asc)) /\
  (Forall (fun ev => PublicationsPage.isHeaderClick ev = false) publicationEvents ->
   let p1 := PublicationsPage.step publicationView p
               (PublicationsPage.HeaderClick column type) in
   let p2 := fold_left (PublicationsPage.step publicationView) publicationEvents p1 in
   let p3 := PublicationsPage.step publicationView p2
               (PublicationsPage.HeaderClick column type) in
   SorterOnArray.sortColumn (PublicationsPage.sorter p2) = Some column /\
   SorterOnArray.sortDirection (PublicationsPage.sorter p3)
     = SorterOnArray.opposite (SorterOnArray.sortDirection (PublicationsPage.sorter p1)) /\
   (SorterOnArray.sortColumn (PublicationsPage.sorter p) <> Some column ->
    SorterOnArray.sortDirection (PublicationsPage.sorter p1) = TableSorter.Asc)).
Proof.
  assert (forall sorter : SorterOnArray.t,
            SorterOnArray.sortColumn sorter <> Some column ->
            SorterOnArray.nextDirection column sorter = TableSorter.Asc) as Hfresh.
  { intros sorter Hcol. unfold SorterOnArray.nextDirection, TableSorter.nextDirection.
    simpl. destruct (SorterOnArray.sortColumn sorter) as [c|]; [|reflexivity].
    destruct (String.eqb c column) eqn:Hc; [|reflexivity].
    apply String.eqb_eq in Hc. congruence. }
  split.
  - intros Hevents s1 s2 s3.
    destruct (gene_sorter_kept s1 events Hevents) as [Hcol Hdir]. fold s2 in Hcol, Hdir.
    assert (SorterOnArray.sortColumn (GenePage.sorter s2) = Some column) as Hcol2
      by (rewrite Hcol; reflexivity).
    split; [exact Hcol2|]. split.
    + unfold s3. simpl. rewrite (nextDirection_same column _ Hcol2). now rewrite Hdir.
    + intros Hother. unfold s1. simpl. now apply Hfresh.
  - intros Hevents p1 p2 p3.
    destruct (publications_sorter_kept p1 publicationEvents Hevents) as [Hcol Hdir].
    fold p2 in Hcol, Hdir.
    assert (SorterOnArray.sortColumn (PublicationsPage.sorter p2) = Some column) as Hcol2
      by (rewrite Hcol; reflexivity).
    split; [exact Hcol2|]. split.
    + unfold p3. simpl. rewrite (nextDirection_same column _ Hcol2). now rewrite Hdir.
    + intros Hother. unfold p1. simpl. now apply Hfresh.
Qed.

End SortDirectionFacts.

Lemma sort_direction_survives_filters_witness :
  let s1 := @GenePage.step Js.asciiHost GenePage.symbolOnly
              (GenePage.initialize GenePage.sampleGenes)
              (GenePage.HeaderClick "symbol" "auto") in
  let s2 := fold_left (@GenePage.step Js.asciiHost GenePage.symbolOnly)
              [GenePage.SearchInput "a"; GenePage.Pagination PagerOnArray.NextPage] s1 in
  SorterOnArray.sortDirection (GenePage.sorter s1) = TableSorter.Asc /\
  SorterOnArray.sortDirection
    (GenePage.sorter
       (@GenePage.step Js.asciiHost GenePage.symbolOnly s2
          (GenePage.HeaderClick "symbol" "auto"))) = TableSorter.Desc.
Proof.
  intros s1 s2.
  pose proof (@sort_direction_survives_filters Js.asciiHost PublicationsCsv.digitParser
                GenePage.symbolOnly PublicationsPage.yearOnly "symbol" "auto"
                (GenePage.initialize GenePage.sampleGenes)
                [GenePage.SearchInput "a"; GenePage.Pagination PagerOnArray.NextPage]
                (PublicationsPage.initialize []) []) as (Hgene & _).
  destruct Hgene as (_ & Hthird & Hfirst).
  - repeat constructor.
  - pose proof (Hfirst ltac:(discriminate)) as Hasc.
    split; [exact Hasc|].
    etrans; [exact Hthird|]. exact (f_equal SorterOnArray.opposite Hasc).
Defined.

(** ** Looking a loaded gene up by its symbol *)

Section LoadedLookup.
Context `{GeneDatabase.Upper} `{Js.Host}.

Lemma built_index_keys (rnaseqData : option (list GeneDatabase.Rna.gene))
    (spatialP15Data spatialP30Data : option (list GeneDatabase.Spatial.gene))
    (seizureGenes : list string) :
  NoDup (List.map GeneDatabase.keyOf
           (GeneDatabase.buildMasterIndex rnaseqData spatialP15Data spatialP30Data
              seizureGenes)).
Proof.
  set (evs := GeneDatabase.events rnaseqData spatialP15Data spatialP30Data seizureGenes).
  set (m := GeneDatabase.fillMap rnaseqData spatialP15Data spatialP30Data seizureGenes).
  assert (GeneDatabase.invariant evs m) as (Hnd & Hent & _).
  { unfold m. rewrite fillMap_events. apply run_invariant. }
  unfold GeneDatabase.buildMasterIndex. fold m.
  rewrite arraySort_permutation, List.map_map.
  rewrite (List.map_ext_in (fun x => GeneDatabase.keyOf (snd x)) fst); [exact Hnd|].
  intros [k e] Hin. simpl. symmetry. apply (Hent k e Hin).
Qed.

Lemma keyed_once {A B : Type} (f : A -> B) (l : list A) (a b : A) :
  NoDup (List.map f l) -> In a l -> In b l -> f a = f b -> a = b.
Proof.
  induction l as [|x l IH]; intros Hnd Ha Hb Hf; [destruct Ha|].
  simpl in Hnd. apply NoDup_cons in Hnd as [Hx Hnd].
  destruct Ha as [-> | Ha], Hb as [-> | Hb]; auto.
  - exfalso. apply Hx. rewrite Hf. apply list_elem_of_In, in_map. exact Hb.
  - exfalso. apply Hx. rewrite <- Hf. apply list_elem_of_In, in_map. exact Ha.
Qed.

Lemma find_only {A : Type} (p : A -> bool) (l : list A) (a : A) :
  (forall x, In x l -> p x = true -> x = a) -> In a l -> p a = true ->
  List.find p l = Some a.
Proof.
  induction l as [|x l IH]; intros Honly Ha Hp; [destruct Ha|].
  simpl. destruct (p x) eqn:Hx.
  - f_equal. apply Honly; [now left|exact Hx].
  - destruct Ha as [-> | Ha]; [congruence|].
    apply IH; auto. intros y Hy. apply Honly. now right.
Qed.

(** X29: A gene of a built index can be looked up by its symbol: when the
    page has loaded the index, [getGeneBySymbol] with the primary symbol of
    an entry returns the gene of that very entry, provided the symbol is
    neither empty nor the word Unknown (the entries have symbols that differ
    even after upper-casing, and an entry with an empty symbol is loaded
    as Unknown). *)
Theorem loaded_gene_lookup (rnaseqData : option (list GeneDatabase.Rna.gene))
    (spatialP15Data spatialP30Data : option (list GeneDatabase.Spatial.gene))
    (seizureGenes : list string) (engine : GeneSearchEngine.t)
    (entry : GeneDatabase.Entry.t) :
  let index :=
    GeneDatabase.buildMasterIndex rnaseqData spatialP15Data spatialP30Data seizureGenes in
  GeneSearchEngine.allGenes engine = GeneDatabase.loadedGenes index ->
  In entry index ->
  Js.truthy (GeneDatabase.Entry.primary_symbol entry) = true ->
  GeneDatabase.Entry.primary_symbol entry <> "Unknown" ->
  GeneSearchEngine.getGeneBySymbol engine (GeneDatabase.Entry.primary_symbol entry)
  = Some (GeneSearchEngine.normalizeGeneData (GeneDatabase.asDocument entry)).
Proof.
  intros index Hloaded Hentry Hfilled Hknown.
  pose proof (built_index_keys rnaseqData spatialP15Data spatialP30Data seizureGenes)
    as Hkeys. fold index in Hkeys.
  assert (forall e,
            GeneSearchEngine.Gene.symbol
              (GeneSearchEngine.normalizeGeneData (GeneDatabase.asDocument e))
            = GeneSearchEngine.textOr (Some (GeneDatabase.Entry.primary_symbol e)) "Unknown")
    as Hsymbol by reflexivity.
  unfold GeneSearchEngine.getGeneBySymbol. rewrite Hloaded.
  apply find_only.
  - intros g Hg Hmatch. apply in_map_iff in Hg as (e & <- & He).
    apply String.eqb_eq in Hmatch. rewrite Hsymbol in Hmatch.
    assert (GeneDatabase.Entry.primary_symbol e
            = GeneDatabase.Entry.primary_symbol entry) as Hsame.
    { unfold GeneSearchEngine.textOr in Hmatch.
      destruct (Js.truthy (GeneDatabase.Entry.primary_symbol e)); congruence. }
    f_equal. f_equal. apply (keyed_once GeneDatabase.keyOf index); auto.
    unfold GeneDatabase.keyOf. now rewrite Hsame.
  - apply in_map_iff. now exists entry.
  - apply String.eqb_eq. rewrite Hsymbol. unfold GeneSearchEngine.textOr.
    now rewrite Hfilled.
Qed.

End LoadedLookup.

Lemma loaded_gene_lookup_witness :
  let index :=
    @GeneDatabase.buildMasterIndex GeneDatabase.asciiUpper Js.asciiHost
      (Some GeneDatabase.sampleRna) (Some GeneDatabase.sampleSpatial) None ["Scn1a"] in
  let engine :=
    {| GeneSearchEngine.allGenes := GeneDatabase.loadedGenes index;
       GeneSearchEngine.filteredGenes := [];
       GeneSearchEngine.currentSearchTerm := EmptyString;
       GeneSearchEngine.filters := GeneSearchEngine.defaultFilters;
       GeneSearchEngine.paginator := Paginator.new [] (Paginator.Size 25);
       GeneSearchEngine.sorterData := [] |} in
  exists entry,
    GeneDatabase.Entry.primary_symbol entry = "Cacna1g" /\
    GeneSearchEngine.getGeneBySymbol engine "Cacna1g"
    = Some (GeneSearchEngine.normalizeGeneData (GeneDatabase.asDocument entry)).
Proof.
  intros index engine.
  assert (exists entry, In entry index /\
            GeneDatabase.Entry.primary_symbol entry = "Cacna1g") as (entry & Hin & Hsym).
  { vm_compute. eexists. split; [left; reflexivity|reflexivity]. }
  exists entry. split; [exact Hsym|]. rewrite <- Hsym.
  apply (@loaded_gene_lookup GeneDatabase.asciiUpper Js.asciiHost
           (Some GeneDatabase.sampleRna) (Some GeneDatabase.sampleSpatial) None ["Scn1a"]
           engine entry).
  - reflexivity.
  - exact Hin.
  - now rewrite Hsym.
  - rewrite Hsym. discriminate.
Defined.
